(** * InvestEase: the recommendation normaliser and report-mode engine

    A shallow embedding of the logic of [src/pages/RecommendationPage.tsx]
    and [src/pages/OptionalDetailsPage.tsx]: the persisted report
    preference (load, validate, save), the request payload, the fetch
    state machine, full-mode category resolution, and the single-mode
    formatters and explanation builders.

    The pages are TypeScript over untyped ([any]) data decoded from JSON, so
    the embedding starts with a model of the JavaScript values involved and
    of the conversions the source applies to them ([ToString], [ToNumber],
    [ToBoolean], property lookup, [JSON.parse], [JSON.stringify]).

    Conventions of the model.
    - Strings are byte strings; the source's literals are ASCII except the
      bullet separator and the infinity sign, which appear as their UTF-8
      bytes.
    - A finite number is carried as a signed decimal [m * 10^e] in
      canonical form ([m] has no trailing zero).  Overflow to an infinity
      and underflow to zero are decided as binary64 does; the rounding of
      the mantissa of an in-range value to 53 bits is not modelled.
    - An object is the list of its own properties in enumeration order. *)

From Stdlib Require Import ZArith NArith String Ascii List Bool Lia DecimalString.
From stdpp Require Import base option list strings gmap.

(** ** Exceptions and the error monad *)

Inductive exn :=
| TypeError (msg : string)
| SyntaxError (msg : string)
| Error (msg : string).

(** [error.message] *)
Definition message (e : exn) : string :=
  match e with TypeError m | SyntaxError m | Error m => m end.

Inductive result (A : Type) :=
| Ok (a : A)
| Throw (e : exn).
Arguments Ok {A} a.
Arguments Throw {A} e.

#[global] Instance result_ret : MRet result := @Ok.
#[global] Instance result_bind : MBind result :=
  λ A B f m, match m with Ok a => f a | Throw e => Throw e end.

Definition returns {A} (r : result A) : bool :=
  match r with Ok _ => true | Throw _ => false end.

(** ** Characters and digit strings *)

Definition chars (s : string) : list ascii := list_ascii_of_string s.
Definition str (cs : list ascii) : string := string_of_list_ascii cs.

Definition digit_of (c : ascii) : option N :=
  let n := N_of_ascii c in
  if (48 <=? n)%N && (n <=? 57)%N then Some (n - 48)%N else None.

Definition hex_digit_of (c : ascii) : option N :=
  let n := N_of_ascii c in
  if (48 <=? n)%N && (n <=? 57)%N then Some (n - 48)%N
  else if (97 <=? n)%N && (n <=? 102)%N then Some (n - 87)%N
  else if (65 <=? n)%N && (n <=? 70)%N then Some (n - 55)%N
  else None.

Definition radix_digit_of (radix : N) (c : ascii) : option N :=
  match hex_digit_of c with
  | Some d => if (d <? radix)%N then Some d else None
  | None => None
  end.

(** Longest prefix of digits, with the rest of the input. *)
Fixpoint span_digits (dig : ascii → option N) (cs : list ascii) : list N * list ascii :=
  match cs with
  | [] => ([], [])
  | c :: r =>
      match dig c with
      | Some d => let '(ds, rest) := span_digits dig r in (d :: ds, rest)
      | None => ([], cs)
      end
  end.

Definition digits_value (radix : N) (ds : list N) : N :=
  fold_left (λ acc d, acc * radix + d)%N ds 0%N.

(** Decimal digits of a natural number, most significant first. *)
Definition digits_of_N (n : N) : list ascii :=
  chars (NilZero.string_of_uint (N.to_uint n)).

Definition zeros (k : Z) : list ascii := replicate (Z.to_nat k) "0"%char.

(** ** Numbers *)

Inductive jsnum :=
| NaN
| Inf (neg : bool)
| Fin (neg : bool) (m : N) (e : Z).

Definition pos_zero : jsnum := Fin false 0 0.

Fixpoint drop_D0 (d : Decimal.uint) : nat * Decimal.uint :=
  match d with
  | Decimal.D0 d' => let '(k, r) := drop_D0 d' in (S k, r)
  | _ => (O, d)
  end.

(** [m * 10^e] with the trailing zeros of [m] moved into the exponent. *)
Definition strip_zeros (m : N) (e : Z) : N * Z :=
  let '(k, r) := drop_D0 (Decimal.rev (N.to_uint m)) in
  (N.of_uint (Decimal.rev r), (e + Z.of_nat k)%Z).

(** Round-to-nearest sends every magnitude from [2^1024 - 2^970] on to an
    infinity and every magnitude up to [2^-1075] to zero. *)
Definition overflow_threshold : Z := (2 ^ 1024 - 2 ^ 970)%Z.

Definition overflows (m : N) (e : Z) : bool :=
  if (0 <=? e)%Z then (overflow_threshold <=? Z.of_N m * 10 ^ e)%Z
  else (overflow_threshold * 10 ^ (- e) <=? Z.of_N m)%Z.

Definition underflows (m : N) (e : Z) : bool :=
  if (0 <=? e)%Z then false
  else (Z.of_N m * 2 ^ 1075 <=? 10 ^ (- e))%Z.

(** The number denoted by the decimal [(-1)^neg * m * 10^e]. *)
Definition mk_num (neg : bool) (m : N) (e : Z) : jsnum :=
  if (m =? 0)%N then Fin neg 0 0
  else if overflows m e then Inf neg
  else if underflows m e then Fin neg 0 0
  else let '(m', e') := strip_zeros m e in Fin neg m' e'.

Definition isNaN (x : jsnum) : bool :=
  match x with NaN => true | _ => false end.

Definition isFinite (x : jsnum) : bool :=
  match x with Fin _ _ _ => true | _ => false end.

Definition num_of_N (n : N) : jsnum := mk_num false n 0.

(** *** StringToNumber (ECMA-262, 7.1.4.1.1) *)

Definition is_ws (c : ascii) : bool :=
  let n := N_of_ascii c in
  ((9 <=? n)%N && (n <=? 13)%N) || (n =? 32)%N.

Fixpoint drop_ws (cs : list ascii) : list ascii :=
  match cs with
  | c :: r => if is_ws c then drop_ws r else cs
  | [] => []
  end.

Definition trim (cs : list ascii) : list ascii :=
  rev (drop_ws (rev (drop_ws cs))).

(** The input after a given first character. *)
Definition starts_with (c : ascii) (cs : list ascii) : option (list ascii) :=
  match cs with
  | c' :: r => if Ascii.eqb c' c then Some r else None
  | [] => None
  end.

Definition split_sign (cs : list ascii) : bool * list ascii :=
  match starts_with "-" cs with
  | Some r => (true, r)
  | None =>
      match starts_with "+" cs with
      | Some r => (false, r)
      | None => (false, cs)
      end
  end.

(** The part after [e] or [E]: an optional sign and at least one digit,
    up to the end of the literal. *)
Definition parse_exponent (cs : list ascii) : option Z :=
  let '(neg, r) := split_sign cs in
  match span_digits digit_of r with
  | (d :: ds, []) =>
      let v := Z.of_N (digits_value 10 (d :: ds)) in
      Some (if neg then (- v)%Z else v)
  | _ => None
  end.

(** StrUnsignedDecimalLiteral without [Infinity]: digits, an optional
    fraction, an optional exponent; at least one digit before the exponent. *)
Definition parse_decimal (cs : list ascii) : option (N * Z) :=
  let '(ip, r1) := span_digits digit_of cs in
  let '(fp, r2) :=
    match r1 with
    | "."%char :: r => span_digits digit_of r
    | _ => ([], r1)
    end in
  match ip ++ fp with
  | [] => None
  | ds =>
      let m := digits_value 10 ds in
      let scale := Z.of_nat (length fp) in
      match r2 with
      | [] => Some (m, (- scale)%Z)
      | c :: r =>
          if Ascii.eqb c "e" || Ascii.eqb c "E"
          then ex ← parse_exponent r; Some (m, (ex - scale)%Z)
          else None
      end
  end.

(** NonDecimalIntegerLiteral: [0x], [0o] and [0b] literals, unsigned. *)
Definition parse_radix (cs : list ascii) : option N :=
  match cs with
  | "0"%char :: p :: r =>
      let radix :=
        if Ascii.eqb p "x" || Ascii.eqb p "X" then Some 16%N
        else if Ascii.eqb p "o" || Ascii.eqb p "O" then Some 8%N
        else if Ascii.eqb p "b" || Ascii.eqb p "B" then Some 2%N
        else None in
      match radix with
      | Some b =>
          match span_digits (radix_digit_of b) r with
          | (d :: ds, []) => Some (digits_value b (d :: ds))
          | _ => None
          end
      | None => None
      end
  | _ => None
  end.

Definition StringToNumber (s : string) : jsnum :=
  match trim (chars s) with
  | [] => pos_zero
  | cs =>
      match parse_radix cs with
      | Some n => num_of_N n
      | None =>
          let '(neg, r) := split_sign cs in
          if String.eqb (str r) "Infinity" then Inf neg
          else match parse_decimal r with
               | Some (m, e) => mk_num neg m e
               | None => NaN
               end
      end
  end.

(** *** Number::toString (ECMA-262, 6.1.6.1.20), radix 10 *)

Definition sign_prefix (neg : bool) : list ascii :=
  if neg then ["-"%char] else [].

Definition Number_toString (x : jsnum) : string :=
  match x with
  | NaN => "NaN"
  | Inf neg => str (sign_prefix neg) +:+ "Infinity"
  | Fin neg m e =>
      if (m =? 0)%N then "0"
      else
        let '(s, e') := strip_zeros m e in
        let ds := digits_of_N s in
        let k := Z.of_nat (length ds) in
        let n := (k + e')%Z in
        let body :=
          if (k <=? n)%Z && (n <=? 21)%Z then ds ++ zeros (n - k)
          else if (0 <? n)%Z && (n <=? 21)%Z
               then take (Z.to_nat n) ds ++ "."%char :: drop (Z.to_nat n) ds
          else if (-6 <? n)%Z && (n <=? 0)%Z
               then "0"%char :: "."%char :: zeros (- n) ++ ds
          else
            let ex := (n - 1)%Z in
            let es := (if (0 <=? ex)%Z then "+"%char else "-"%char)
                        :: digits_of_N (Z.to_N (Z.abs ex)) in
            match ds with
            | [d] => d :: "e"%char :: es
            | _ => take 1 ds ++ "."%char :: drop 1 ds ++ "e"%char :: es
            end in
        str (sign_prefix neg ++ body)
  end.

(** *** Number.prototype.toLocaleString('en-IN', { maximumFractionDigits })

    Decimal style: the magnitude is rounded half away from zero to at most
    [maxFrac] fraction digits, trailing fraction zeros are dropped, and the
    integer digits are grouped the Indian way (the last three, then twos). *)

(** [k] digits of [f], most significant first ([f < 10^k]). *)
Fixpoint fixed_digits (k : nat) (f : N) : list ascii :=
  match k with
  | O => []
  | S k' => ascii_of_N (48 + (f / 10 ^ N.of_nat k') mod 10) :: fixed_digits k' f
  end.

Fixpoint drop_zero_chars (cs : list ascii) : list ascii :=
  match cs with
  | c :: r => if Ascii.eqb c "0" then drop_zero_chars r else cs
  | [] => []
  end.

Definition strip_trailing_zero_chars (cs : list ascii) : list ascii :=
  rev (drop_zero_chars (rev cs)).

(** Groups of two digits, separated by commas, over a reversed digit list. *)
Fixpoint group_twos (rds : list ascii) : list ascii :=
  match rds with
  | a :: b :: ((_ :: _) as r) => a :: b :: ","%char :: group_twos r
  | _ => rds
  end.

Definition group_indian (ds : list ascii) : list ascii :=
  match rev ds with
  | a :: b :: c :: ((_ :: _) as r) => rev (a :: b :: c :: ","%char :: group_twos r)
  | _ => ds
  end.

(** The magnitude [m * 10^e] scaled by [10^maxFrac] and rounded half up. *)
Definition round_scaled (maxFrac : N) (m : N) (e : Z) : N :=
  let sh := (e + Z.of_N maxFrac)%Z in
  if (0 <=? sh)%Z then (m * 10 ^ Z.to_N sh)%N
  else let d := (10 ^ Z.to_N (- sh))%N in ((2 * m + d) / (2 * d))%N.

(** Integer part (grouped) and fraction digits of the formatted magnitude. *)
Definition locale_parts (maxFrac : N) (m : N) (e : Z) : list ascii * list ascii :=
  let q := round_scaled maxFrac m e in
  let unit := (10 ^ maxFrac)%N in
  (group_indian (digits_of_N (q / unit)),
   strip_trailing_zero_chars (fixed_digits (N.to_nat maxFrac) (q mod unit))).

Definition with_fraction (ip fd : list ascii) : list ascii :=
  match fd with
  | [] => ip
  | _ => ip ++ "."%char :: fd
  end.

Definition Number_toLocaleString_enIN (maxFrac : N) (x : jsnum) : string :=
  match x with
  | NaN => "NaN"
  | Inf neg => str (sign_prefix neg) +:+ "∞"
  | Fin neg m e =>
      let '(ip, fd) := locale_parts maxFrac m e in
      str (sign_prefix neg ++ with_fraction ip fd)
  end.

(** ** Values *)

(** The values the pages handle: what [JSON.parse] produces, [undefined],
    and the built-in functions a lookup on a plain object can reach through
    [Object.prototype]. *)
#[local] Set Warnings "-register-all".
Inductive jsval :=
| JUndefined
| JNull
| JBool (b : bool)
| JNum (n : jsnum)
| JStr (s : string)
| JArr (elems : list jsval)
| JObj (props : list (string * jsval))
| JNative (name : string).

Definition typeof (v : jsval) : string :=
  match v with
  | JUndefined => "undefined"
  | JNull | JArr _ | JObj _ => "object"
  | JBool _ => "boolean"
  | JNum _ => "number"
  | JStr _ => "string"
  | JNative _ => "function"
  end.

Definition is_nullish (v : jsval) : bool :=
  match v with JUndefined | JNull => true | _ => false end.

Definition num_is_falsy (x : jsnum) : bool :=
  match x with
  | NaN => true
  | Inf _ => false
  | Fin _ m _ => (m =? 0)%N
  end.

Definition ToBoolean (v : jsval) : bool :=
  match v with
  | JUndefined | JNull => false
  | JBool b => b
  | JNum x => negb (num_is_falsy x)
  | JStr s => negb (String.eqb s "")
  | JArr _ | JObj _ | JNative _ => true
  end.

(** [a ?? b] and [a || b] *)
Definition nullish_or (a b : jsval) : jsval := if is_nullish a then b else a.
Definition or_else (a b : jsval) : jsval := if ToBoolean a then a else b.

(** [a === 'literal'] *)
Definition is_string (v : jsval) (lit : string) : bool :=
  match v with JStr s => String.eqb s lit | _ => false end.

(** *** Property lookup *)

Fixpoint own_property (ps : list (string * jsval)) (k : string) : option jsval :=
  match ps with
  | [] => None
  | (k', v) :: r => if String.eqb k' k then Some v else own_property r k
  end.

Definition has_own (ps : list (string * jsval)) (k : string) : bool :=
  match own_property ps k with Some _ => true | None => false end.

Definition Object_prototype_methods : list string :=
  ["toString"; "toLocaleString"; "valueOf"; "hasOwnProperty"; "isPrototypeOf";
   "propertyIsEnumerable"; "__defineGetter__"; "__defineSetter__";
   "__lookupGetter__"; "__lookupSetter__"].

(** What a plain object inherits: [constructor] is the [Object] function,
    [__proto__] reads back [Object.prototype] (an object without enumerable
    properties), and the methods are built-in functions under their names. *)
Definition Object_prototype (k : string) : option jsval :=
  if String.eqb k "constructor" then Some (JNative "Object")
  else if String.eqb k "__proto__" then Some (JObj [])
  else if existsb (String.eqb k) Object_prototype_methods then Some (JNative k)
  else None.

(** [v[k]] and [v?.[k]] for a value that is not nullish.  On a plain object:
    the own property, else the inherited one, else [undefined].  The only
    keys the pages read from strings, numbers, booleans and arrays are
    field names of the backend contract, which none of them has, so there
    the lookup is [undefined]. *)
Definition getv (v : jsval) (k : string) : jsval :=
  match v with
  | JObj ps =>
      match own_property ps k with
      | Some x => x
      | None => default JUndefined (Object_prototype k)
      end
  | _ => JUndefined
  end.

(** [v.k]: a TypeError on [null] and [undefined]. *)
Definition Get (v : jsval) (k : string) : result jsval :=
  if is_nullish v then Throw (TypeError "Cannot read properties of null or undefined")
  else Ok (getv v k).

(** [v?.k] *)
Definition optGet (v : jsval) (k : string) : jsval := getv v k.

(** *** ToString and ToNumber *)

Definition sep_concat (sep : string) (a b : string) : string := a +:+ sep +:+ b.

(** ToString (ECMA-262, 7.1.17).  An array joins its elements with commas,
    [null] and [undefined] elements as empty strings.  A plain object goes
    through OrdinaryToPrimitive: the inherited [toString] gives
    ["[object Object]"]; an own [toString] property decoded from JSON is
    not callable and the inherited [valueOf] returns the object itself, so
    the conversion ends in a TypeError. *)
Fixpoint ToString (v : jsval) : result string :=
  match v with
  | JUndefined => Ok "undefined"
  | JNull => Ok "null"
  | JBool b => Ok (if b then "true" else "false")
  | JNum x => Ok (Number_toString x)
  | JStr s => Ok s
  | JArr l =>
      (fix join (l : list jsval) : result string :=
         match l with
         | [] => Ok ""
         | x :: r =>
             s ← match x with
                 | JUndefined | JNull => Ok ""
                 | _ => ToString x
                 end;
             match r with
             | [] => Ok s
             | _ => t ← join r; Ok (sep_concat "," s t)
             end
         end) l
  | JObj ps =>
      if has_own ps "toString"
      then Throw (TypeError "Cannot convert object to primitive value")
      else Ok "[object Object]"
  | JNative name => Ok ("function " +:+ name +:+ "() { [native code] }")
  end.

(** ToNumber (ECMA-262, 7.1.4); an object is first converted to a primitive,
    which for the values of this model is its string. *)
Definition ToNumber (v : jsval) : result jsnum :=
  match v with
  | JUndefined => Ok NaN
  | JNull => Ok pos_zero
  | JBool b => Ok (if b then Fin false 1 0 else pos_zero)
  | JNum x => Ok x
  | JStr s => Ok (StringToNumber s)
  | JArr _ | JObj _ | JNative _ => s ← ToString v; Ok (StringToNumber s)
  end.

(** [Number(value)] *)
Definition Number (v : jsval) : result jsval := x ← ToNumber v; Ok (JNum x).

(** ** JSON *)

(** *** JSON.parse (ECMA-262, 25.5.1; the grammar of ECMA-404) *)

Inductive parsed (A : Type) :=
| Parsed (a : A) (rest : list ascii)
| Malformed
| NoFuel.
Arguments Parsed {A} a rest.
Arguments Malformed {A}.
Arguments NoFuel {A}.

Definition is_json_ws (c : ascii) : bool :=
  let n := N_of_ascii c in
  (n =? 32)%N || (n =? 9)%N || (n =? 10)%N || (n =? 13)%N.

Fixpoint skip_ws (cs : list ascii) : list ascii :=
  match cs with
  | c :: r => if is_json_ws c then skip_ws r else cs
  | [] => []
  end.

Definition dquote : ascii := "034"%char.
Definition backslash : ascii := "092"%char.

(** A UTF-16 code unit written [\uXXXX], as bytes. *)
Definition encode_unit (u : N) : list ascii :=
  if (u <? 128)%N then [ascii_of_N u]
  else if (u <? 2048)%N then [ascii_of_N (192 + u / 64); ascii_of_N (128 + u mod 64)]
  else [ascii_of_N (224 + u / 4096); ascii_of_N (128 + (u / 64) mod 64);
        ascii_of_N (128 + u mod 64)].

Definition simple_escape (c : ascii) : option ascii :=
  if Ascii.eqb c dquote then Some dquote
  else if Ascii.eqb c backslash then Some backslash
  else if Ascii.eqb c "/" then Some "/"%char
  else if Ascii.eqb c "b" then Some "008"%char
  else if Ascii.eqb c "f" then Some "012"%char
  else if Ascii.eqb c "n" then Some "010"%char
  else if Ascii.eqb c "r" then Some "013"%char
  else if Ascii.eqb c "t" then Some "009"%char
  else None.

Definition hex4 (a b c d : ascii) : option N :=
  match hex_digit_of a, hex_digit_of b, hex_digit_of c, hex_digit_of d with
  | Some x, Some y, Some z, Some w => Some (digits_value 16 [x; y; z; w])
  | _, _, _, _ => None
  end.

(** The characters of a string literal after its opening quote, up to and
    without the closing quote. *)
Fixpoint parse_string_body (cs : list ascii) : option (list ascii * list ascii) :=
  match cs with
  | [] => None
  | c :: r =>
      if Ascii.eqb c dquote then Some ([], r)
      else if Ascii.eqb c backslash then
        match r with
        | [] => None
        | e :: r' =>
            if Ascii.eqb e "u" then
              match r' with
              | h1 :: h2 :: h3 :: h4 :: r'' =>
                  match hex4 h1 h2 h3 h4, parse_string_body r'' with
                  | Some u, Some (s, rest) => Some (encode_unit u ++ s, rest)
                  | _, _ => None
                  end
              | _ => None
              end
            else
              match simple_escape e, parse_string_body r' with
              | Some x, Some (s, rest) => Some (x :: s, rest)
              | _, _ => None
              end
        end
      else if (N_of_ascii c <? 32)%N then None
      else match parse_string_body r with
           | Some (s, rest) => Some (c :: s, rest)
           | None => None
           end
  end.

Definition nonempty {A} (l : list A) : bool :=
  match l with [] => false | _ => true end.

(** At least one digit. *)
Definition digits1 (cs : list ascii) : option (list N * list ascii) :=
  match span_digits digit_of cs with
  | ([], _) => None
  | (ds, r) => Some (ds, r)
  end.

Definition leading_zero (ds : list N) : bool :=
  match ds with
  | d :: _ :: _ => (d =? 0)%N
  | _ => false
  end.

(** frac?: a point and at least one digit, or nothing. *)
Definition fraction_part (cs : list ascii) : option (list N * list ascii) :=
  match starts_with "." cs with
  | Some r => digits1 r
  | None => Some ([], cs)
  end.

(** exp?: [e] or [E], an optional sign and at least one digit, or nothing. *)
Definition exponent_part (cs : list ascii) : option (Z * list ascii) :=
  match cs with
  | c :: r =>
      if Ascii.eqb c "e" || Ascii.eqb c "E" then
        let '(eneg, r') := split_sign r in
        match digits1 r' with
        | Some (es, rest) =>
            let v := Z.of_N (digits_value 10 es) in
            Some (if eneg then (- v)%Z else v, rest)
        | None => None
        end
      else Some (0%Z, cs)
  | [] => Some (0%Z, [])
  end.

(** A number token: [-]? int frac? exp?, with no leading zero in [int]. *)
Definition parse_json_number (cs : list ascii) : parsed jsval :=
  let '(neg, r0) :=
    match starts_with "-" cs with Some r => (true, r) | None => (false, cs) end in
  match digits1 r0 with
  | None => Malformed
  | Some (ip, r1) =>
      if leading_zero ip then Malformed
      else
        match fraction_part r1 with
        | None => Malformed
        | Some (fp, r2) =>
            match exponent_part r2 with
            | None => Malformed
            | Some (ex, r3) =>
                Parsed (JNum (mk_num neg (digits_value 10 (ip ++ fp))
                                (ex - Z.of_nat (length fp)))) r3
            end
        end
  end.

(** A literal name at the head of the input. *)
Fixpoint strip_prefix (name cs : list ascii) : option (list ascii) :=
  match name with
  | [] => Some cs
  | c :: name' =>
      match cs with
      | c' :: r => if Ascii.eqb c' c then strip_prefix name' r else None
      | [] => None
      end
  end.

Definition parse_literal (cs : list ascii) : parsed jsval :=
  match strip_prefix (chars "null") cs with
  | Some rest => Parsed JNull rest
  | None =>
      match strip_prefix (chars "true") cs with
      | Some rest => Parsed (JBool true) rest
      | None =>
          match strip_prefix (chars "false") cs with
          | Some rest => Parsed (JBool false) rest
          | None => Malformed
          end
      end
  end.

(** Property keys that are array indices enumerate first, in ascending
    order; the other keys follow in creation order. *)
Definition array_index (k : string) : option N :=
  match span_digits digit_of (chars k) with
  | (d :: ds, []) =>
      if (d =? 0)%N && nonempty ds then None
      else let n := digits_value 10 (d :: ds) in
           if (n <? 2 ^ 32 - 1)%N then Some n else None
  | _ => None
  end.

Definition enumerates_before (k k' : string) : bool :=
  match array_index k, array_index k' with
  | Some n, Some n' => (n <? n')%N
  | Some _, None => true
  | None, _ => false
  end.

Fixpoint obj_replace (ps : list (string * jsval)) (k : string) (v : jsval)
  : list (string * jsval) :=
  match ps with
  | [] => []
  | (k', v') :: r =>
      if String.eqb k' k then (k', v) :: r else (k', v') :: obj_replace r k v
  end.

Fixpoint obj_insert (ps : list (string * jsval)) (k : string) (v : jsval)
  : list (string * jsval) :=
  match ps with
  | [] => [(k, v)]
  | (k', v') :: r =>
      if enumerates_before k k' then (k, v) :: ps else (k', v') :: obj_insert r k v
  end.

(** CreateDataProperty: a repeated key keeps its place and takes the new
    value. *)
Definition obj_define (ps : list (string * jsval)) (k : string) (v : jsval)
  : list (string * jsval) :=
  if has_own ps k then obj_replace ps k v else obj_insert ps k v.

Fixpoint parse_value (fuel : nat) (cs : list ascii) : parsed jsval :=
  match fuel with
  | O => NoFuel
  | S f =>
      match skip_ws cs with
      | [] => Malformed
      | c :: r =>
          if Ascii.eqb c dquote then
            match parse_string_body r with
            | Some (s, rest) => Parsed (JStr (str s)) rest
            | None => Malformed
            end
          else if Ascii.eqb c "[" then
            match starts_with "]" (skip_ws r) with
            | Some rest => Parsed (JArr []) rest
            | None => parse_elements f (skip_ws r) []
            end
          else if Ascii.eqb c "{" then
            match starts_with "}" (skip_ws r) with
            | Some rest => Parsed (JObj []) rest
            | None => parse_members f (skip_ws r) []
            end
          else if Ascii.eqb c "-" || bool_decide (is_Some (digit_of c)) then
            parse_json_number (c :: r)
          else parse_literal (c :: r)
      end
  end
with parse_elements (fuel : nat) (cs : list ascii) (acc : list jsval) : parsed jsval :=
  match fuel with
  | O => NoFuel
  | S f =>
      match parse_value f cs with
      | Parsed v r =>
          match starts_with "," (skip_ws r) with
          | Some r' => parse_elements f r' (v :: acc)
          | None =>
              match starts_with "]" (skip_ws r) with
              | Some r' => Parsed (JArr (rev (v :: acc))) r'
              | None => Malformed
              end
          end
      | Malformed => Malformed
      | NoFuel => NoFuel
      end
  end
with parse_members (fuel : nat) (cs : list ascii) (acc : list (string * jsval))
  : parsed jsval :=
  match fuel with
  | O => NoFuel
  | S f =>
      match starts_with dquote (skip_ws cs) with
      | Some r =>
          match parse_string_body r with
          | Some (k, r1) =>
              match starts_with ":" (skip_ws r1) with
              | Some r2 =>
                  match parse_value f r2 with
                  | Parsed v r3 =>
                      match starts_with "," (skip_ws r3) with
                      | Some r4 => parse_members f r4 (obj_define acc (str k) v)
                      | None =>
                          match starts_with "}" (skip_ws r3) with
                          | Some r4 => Parsed (JObj (obj_define acc (str k) v)) r4
                          | None => Malformed
                          end
                      end
                  | Malformed => Malformed
                  | NoFuel => NoFuel
                  end
              | None => Malformed
              end
          | None => Malformed
          end
      | None => Malformed
      end
  end.

(** Two units of fuel per character are enough ([parse_value_fuel] below),
    so that [NoFuel] never comes out of [JSON_parse]. *)
Definition parse_fuel (cs : list ascii) : nat := 2 * length cs + 2.

(** [JSON.parse(text)]; [None] stands for the SyntaxError. *)
Definition JSON_parse (text : string) : option jsval :=
  let cs := chars text in
  match parse_value (parse_fuel cs) cs with
  | Parsed v rest => match skip_ws rest with [] => Some v | _ => None end
  | Malformed | NoFuel => None
  end.

(** *** JSON.stringify (ECMA-262, 25.5.2), without replacer or indent *)

(** SerializeJSONProperty at the level of values: [None] is the
    [undefined] that makes the caller drop the property. *)
Fixpoint JSON_serialize (v : jsval) : option jsval :=
  match v with
  | JUndefined | JNative _ => None
  | JNull => Some JNull
  | JBool b => Some (JBool b)
  | JNum x => Some (if isFinite x then JNum x else JNull)
  | JStr s => Some (JStr s)
  | JArr l =>
      Some (JArr ((fix elems (l : list jsval) : list jsval :=
                     match l with
                     | [] => []
                     | x :: r => default JNull (JSON_serialize x) :: elems r
                     end) l))
  | JObj ps =>
      Some (JObj ((fix members (ps : list (string * jsval)) : list (string * jsval) :=
                     match ps with
                     | [] => []
                     | (k, x) :: r =>
                         match JSON_serialize x with
                         | Some y => (k, y) :: members r
                         | None => members r
                         end
                     end) ps))
  end.

Definition hex_char (d : N) : ascii :=
  if (d <? 10)%N then ascii_of_N (48 + d) else ascii_of_N (87 + d).

(** QuoteJSONString, one character at a time. *)
Definition quote_char (c : ascii) : list ascii :=
  let n := N_of_ascii c in
  if Ascii.eqb c dquote then [backslash; dquote]
  else if Ascii.eqb c backslash then [backslash; backslash]
  else if (n =? 8)%N then [backslash; "b"%char]
  else if (n =? 12)%N then [backslash; "f"%char]
  else if (n =? 10)%N then [backslash; "n"%char]
  else if (n =? 13)%N then [backslash; "r"%char]
  else if (n =? 9)%N then [backslash; "t"%char]
  else if (n <? 32)%N
       then [backslash; "u"%char; "0"%char; "0"%char; hex_char (n / 16); hex_char (n mod 16)]
  else [c].

Definition quote_string (s : string) : list ascii :=
  dquote :: concat (map quote_char (chars s)) ++ [dquote].

(** The text of a serialised value. *)
Fixpoint JSON_text (v : jsval) : list ascii :=
  match v with
  | JUndefined | JNull | JNative _ => chars "null"
  | JBool b => chars (if b then "true" else "false")
  | JNum x => chars (Number_toString x)
  | JStr s => quote_string s
  | JArr l =>
      "["%char ::
        (fix elems (l : list jsval) : list ascii :=
           match l with
           | [] => []
           | x :: r =>
               JSON_text x ++ match r with [] => [] | _ => ","%char :: elems r end
           end) l ++ ["]"%char]
  | JObj ps =>
      "{"%char ::
        (fix members (ps : list (string * jsval)) : list ascii :=
           match ps with
           | [] => []
           | (k, x) :: r =>
               quote_string k ++ ":"%char :: JSON_text x
                 ++ match r with [] => [] | _ => ","%char :: members r end
           end) ps ++ ["}"%char]
  end.

Definition JSON_stringify (v : jsval) : option string :=
  y ← JSON_serialize v; Some (str (JSON_text y)).

(** A double-quoted literal, for writing JSON text. *)
Definition quoted (s : string) : string := str (dquote :: chars s ++ [dquote]).

(** [JSON.parse] as the pages call it. *)
Definition JSON_parse_or_throw (text : string) : result jsval :=
  match JSON_parse text with
  | Some v => Ok v
  | None => Throw (SyntaxError "Unexpected token in JSON")
  end.

(** [localStorage.setItem(key, JSON.stringify(value))]; the argument is
    converted to a string, [undefined] included. *)
Definition setItem_JSON (key : string) (value : jsval) (storage : gmap string string)
  : gmap string string :=
  <[key := default "undefined" (JSON_stringify value)]> storage.

(** [a ?? b] where the operands may throw and [b] is evaluated on demand. *)
Definition nullish_orM (a b : result jsval) : result jsval :=
  x ← a; if is_nullish x then b else Ok x.

Fixpoint mapM {A B} (f : A → result B) (l : list A) : result (list B) :=
  match l with
  | [] => Ok []
  | x :: r => y ← f x; ys ← mapM f r; Ok (y :: ys)
  end.

(** [strings.join(sep)] *)
Fixpoint join (sep : string) (l : list string) : string :=
  match l with
  | [] => ""
  | [s] => s
  | s :: r => s +:+ sep +:+ join sep r
  end.

(** [Object.entries(value)] of an object or an array. *)
Definition Object_entries (value : jsval) : list (string * jsval) :=
  match value with
  | JObj ps => ps
  | JArr l => imap (λ i x, (str (digits_of_N (N.of_nat i)), x)) l
  | _ => []
  end.

(** ** More of the value model *)

Definition is_undefined (v : jsval) : bool :=
  match v with JUndefined => true | _ => false end.

(** The elements of a list with their indices. *)
Definition indexed {A} (l : list A) : list (nat * A) := imap (λ i x, (i, x)) l.

Definition index_string (i : nat) : string := str (digits_of_N (N.of_nat i)).

(** The own enumerable properties of a value, in enumeration order: those
    of an object, the elements of an array under their indices, the
    characters of a string under their indices, and none for the other
    values. *)
Definition own_enumerable (v : jsval) : list (string * jsval) :=
  match v with
  | JStr s => imap (λ i c, (index_string i, JStr (String c ""))) (chars s)
  | _ => Object_entries v
  end.

(** [{ ...target, ...source }]: CopyDataProperties (ECMA-262, 7.3.26) onto
    the properties collected so far. *)
Definition spread (target : list (string * jsval)) (source : jsval)
  : list (string * jsval) :=
  fold_left (λ acc p, obj_define acc (fst p) (snd p)) (own_enumerable source) target.

(** ** The report preference, shared by the two pages *)

Inductive ReportType := full | single.

Definition ReportType_string (t : ReportType) : string :=
  match t with full => "full" | single => "single" end.

Record ReportPreference := {
  reportType : ReportType;
  investmentType : jsval
}.

Definition defaultPreference : ReportPreference :=
  {| reportType := full; investmentType := JStr "" |}.

(** The body of the [try] block of the load effect, the same text on both
    pages. *)
Definition readPreference (storedPreference : string) : result ReportPreference :=
  parsed ← JSON_parse_or_throw storedPreference;
  rt ← Get parsed "reportType";
  it ← Get parsed "investmentType";
  Ok {| reportType := if is_string rt "single" then single else full;
        investmentType := or_else it (JStr "") |}.

(** [if (storedPreference)] on the result of [localStorage.getItem]. *)
Definition stored_item (storage : gmap string string) (key : string) : option string :=
  match storage !! key with
  | Some s => if String.eqb s "" then None else Some s
  | None => None
  end.

(** ** src/pages/OptionalDetailsPage.tsx *)

Module OptionalDetailsPage.

Record FormData := {
  monthlyIncome : string;
  savings : string;
  timeHorizon : string;
  investmentExperience : string;
  financialGoals : string;
  monthlyExpenses : string
}.

Record state := {
  formData : FormData;
  reportPreference : ReportPreference;
  reportError : string
}.

(** What the handlers act on outside the component. *)
Record world := {
  localStorage : gmap string string;
  navigated : list string
}.

Definition initial : state :=
  {| formData := {| monthlyIncome := ""; savings := ""; timeHorizon := "";
                    investmentExperience := ""; financialGoals := "";
                    monthlyExpenses := "" |};
     reportPreference := defaultPreference;
     reportError := "" |}.

Definition setReportPreference (p : ReportPreference) (st : state) : state :=
  {| formData := formData st; reportPreference := p; reportError := reportError st |}.

Definition setReportError (e : string) (st : state) : state :=
  {| formData := formData st; reportPreference := reportPreference st; reportError := e |}.

(** The load effect: a parse error is ignored and the defaults stay. *)
Definition loadPreference (storage : gmap string string) (st : state) : state :=
  match stored_item storage "reportPreference" with
  | Some storedPreference =>
      match readPreference storedPreference with
      | Ok p => setReportPreference p st
      | Throw _ => st
      end
  | None => st
  end.

Inductive PreferenceKey := key_reportType | key_investmentType.

(** The radio buttons supply ['full'] or ['single'] for [reportType]; the
    select supplies the category for [investmentType]. *)

Definition handleReportPreferenceChange (key : PreferenceKey) (value : string)
    (st : state) : state :=
  let prev := reportPreference st in
  let next :=
    match key with
    | key_reportType =>
        {| reportType := if String.eqb value "single" then single else full;
           investmentType := investmentType prev |}
    | key_investmentType =>
        {| reportType := reportType prev; investmentType := JStr value |}
    end in
  let st' := setReportPreference next st in
  if negb (String.eqb (reportError st) "") then setReportError "" st' else st'.

Definition category_required : string :=
  "Please choose a category for the single-investment report.".

Definition validateReportPreference (st : state) : bool * state :=
  match reportType (reportPreference st) with
  | single =>
      if negb (ToBoolean (investmentType (reportPreference st)))
      then (false, setReportError category_required st)
      else (true, setReportError "" st)
  | full => (true, setReportError "" st)
  end.

Definition persistReportPreference (st : state) (w : world) : world :=
  {| localStorage :=
       setItem_JSON "reportPreference"
         (JObj [("reportType", JStr (ReportType_string (reportType (reportPreference st))));
                ("investmentType", investmentType (reportPreference st))])
         (localStorage w);
     navigated := navigated w |}.

Definition navigate (route : string) (w : world) : world :=
  {| localStorage := localStorage w; navigated := navigated w ++ [route] |}.

Definition formData_value (f : FormData) : jsval :=
  JObj [("monthlyIncome", JStr (monthlyIncome f)); ("savings", JStr (savings f));
        ("timeHorizon", JStr (timeHorizon f));
        ("investmentExperience", JStr (investmentExperience f));
        ("financialGoals", JStr (financialGoals f));
        ("monthlyExpenses", JStr (monthlyExpenses f))].

Definition handleSubmit (st : state) (w : world) : state * world :=
  let '(valid, st') := validateReportPreference st in
  if negb valid then (st', w)
  else
    let w1 := {| localStorage :=
                   setItem_JSON "optionalDetails" (formData_value (formData st'))
                     (localStorage w);
                 navigated := navigated w |} in
    (st', navigate "/recommendation" (persistReportPreference st' w1)).

Definition handleSkip (st : state) (w : world) : state * world :=
  let '(valid, st') := validateReportPreference st in
  if negb valid then (st', w)
  else (st', navigate "/recommendation" (persistReportPreference st' w)).

(** The [name] props of the six inputs of the form. *)
Inductive FormField :=
| field_monthlyIncome
| field_savings
| field_timeHorizon
| field_investmentExperience
| field_financialGoals
| field_monthlyExpenses.

Definition handleInputChange (name : FormField) (value : string) (st : state) : state :=
  let prev := formData st in
  let next :=
    match name with
    | field_monthlyIncome =>
        {| monthlyIncome := value; savings := savings prev;
           timeHorizon := timeHorizon prev;
           investmentExperience := investmentExperience prev;
           financialGoals := financialGoals prev;
           monthlyExpenses := monthlyExpenses prev |}
    | field_savings =>
        {| monthlyIncome := monthlyIncome prev; savings := value;
           timeHorizon := timeHorizon prev;
           investmentExperience := investmentExperience prev;
           financialGoals := financialGoals prev;
           monthlyExpenses := monthlyExpenses prev |}
    | field_timeHorizon =>
        {| monthlyIncome := monthlyIncome prev; savings := savings prev;
           timeHorizon := value;
           investmentExperience := investmentExperience prev;
           financialGoals := financialGoals prev;
           monthlyExpenses := monthlyExpenses prev |}
    | field_investmentExperience =>
        {| monthlyIncome := monthlyIncome prev; savings := savings prev;
           timeHorizon := timeHorizon prev;
           investmentExperience := value;
           financialGoals := financialGoals prev;
           monthlyExpenses := monthlyExpenses prev |}
    | field_financialGoals =>
        {| monthlyIncome := monthlyIncome prev; savings := savings prev;
           timeHorizon := timeHorizon prev;
           investmentExperience := investmentExperience prev;
           financialGoals := value;
           monthlyExpenses := monthlyExpenses prev |}
    | field_monthlyExpenses =>
        {| monthlyIncome := monthlyIncome prev; savings := savings prev;
           timeHorizon := timeHorizon prev;
           investmentExperience := investmentExperience prev;
           financialGoals := financialGoals prev;
           monthlyExpenses := value |}
    end in
  {| formData := next; reportPreference := reportPreference st;
     reportError := reportError st |}.

(** The message under the category select:
    [{reportPreference.reportType === 'single' && (... {reportError &&
    <p>{reportError}</p>} ...)}]. *)
Definition reportErrorLine (st : state) : option string :=
  match reportType (reportPreference st) with
  | single => if negb (String.eqb (reportError st) "") then Some (reportError st) else None
  | full => None
  end.

End OptionalDetailsPage.

(** ** src/pages/RecommendationPage.tsx *)

Module RecommendationPage.

Record state := {
  userDetails : jsval;
  recommendationResults : jsval;
  recommendationLoading : bool;
  recommendationError : option string;
  reportPreference : ReportPreference;
  preferenceLoaded : bool;
  reportMode : ReportType;
  singleReportData : jsval
}.

Definition initial : state :=
  {| userDetails := JNull; recommendationResults := JNull;
     recommendationLoading := false; recommendationError := None;
     reportPreference := defaultPreference; preferenceLoaded := false;
     reportMode := full; singleReportData := JNull |}.

Definition setRecommendationResults (v : jsval) (st : state) : state :=
  {| userDetails := userDetails st; recommendationResults := v;
     recommendationLoading := recommendationLoading st;
     recommendationError := recommendationError st;
     reportPreference := reportPreference st; preferenceLoaded := preferenceLoaded st;
     reportMode := reportMode st; singleReportData := singleReportData st |}.

Definition setRecommendationLoading (b : bool) (st : state) : state :=
  {| userDetails := userDetails st; recommendationResults := recommendationResults st;
     recommendationLoading := b;
     recommendationError := recommendationError st;
     reportPreference := reportPreference st; preferenceLoaded := preferenceLoaded st;
     reportMode := reportMode st; singleReportData := singleReportData st |}.

Definition setRecommendationError (e : option string) (st : state) : state :=
  {| userDetails := userDetails st; recommendationResults := recommendationResults st;
     recommendationLoading := recommendationLoading st;
     recommendationError := e;
     reportPreference := reportPreference st; preferenceLoaded := preferenceLoaded st;
     reportMode := reportMode st; singleReportData := singleReportData st |}.

Definition setReportPreference (p : ReportPreference) (st : state) : state :=
  {| userDetails := userDetails st; recommendationResults := recommendationResults st;
     recommendationLoading := recommendationLoading st;
     recommendationError := recommendationError st;
     reportPreference := p; preferenceLoaded := preferenceLoaded st;
     reportMode := reportMode st; singleReportData := singleReportData st |}.

Definition setPreferenceLoaded (b : bool) (st : state) : state :=
  {| userDetails := userDetails st; recommendationResults := recommendationResults st;
     recommendationLoading := recommendationLoading st;
     recommendationError := recommendationError st;
     reportPreference := reportPreference st; preferenceLoaded := b;
     reportMode := reportMode st; singleReportData := singleReportData st |}.

Definition setReportMode (m : ReportType) (st : state) : state :=
  {| userDetails := userDetails st; recommendationResults := recommendationResults st;
     recommendationLoading := recommendationLoading st;
     recommendationError := recommendationError st;
     reportPreference := reportPreference st; preferenceLoaded := preferenceLoaded st;
     reportMode := m; singleReportData := singleReportData st |}.

Definition setSingleReportData (v : jsval) (st : state) : state :=
  {| userDetails := userDetails st; recommendationResults := recommendationResults st;
     recommendationLoading := recommendationLoading st;
     recommendationError := recommendationError st;
     reportPreference := reportPreference st; preferenceLoaded := preferenceLoaded st;
     reportMode := reportMode st; singleReportData := v |}.

(** The load effect: a parse error resets the preference to the default. *)
Definition loadPreference (storage : gmap string string) (st : state) : state :=
  let st' :=
    match stored_item storage "reportPreference" with
    | Some storedPreference =>
        match readPreference storedPreference with
        | Ok p => setReportPreference p st
        | Throw _ => setReportPreference defaultPreference st
        end
    | None => st
    end in
  setPreferenceLoaded true st'.

Definition parseOptionalNumber (value : jsval) : result jsval :=
  match value with
  | JUndefined | JNull => Ok JUndefined
  | _ =>
      if is_string value "" then Ok JUndefined
      else parsed ← ToNumber value;
           Ok (if isNaN parsed then JUndefined else JNum parsed)
  end.

(** *** fetchRecommendations *)

Definition num (n : N) : jsval := JNum (num_of_N n).

Definition buildPayload (details : jsval) (preference : ReportPreference) : result jsval :=
  age ← (v ← nullish_orM (Get details "age")
               (nullish_orM (Get details "userAge") (Ok (num 30)));
         Number v);
  investment_amount ←
    (v ← nullish_orM (Get details "investmentAmount")
           (nullish_orM (Get details "investment_amount") (Ok (num 0)));
     Number v);
  risk_preference ←
    nullish_orM (Get details "riskPreference")
      (nullish_orM (Get details "risk_preference") (Ok (JStr "Medium")));
  monthly_income ←
    (v ← nullish_orM (Get details "monthlyIncome") (Get details "monthly_income");
     parseOptionalNumber v);
  savings ←
    (v ← nullish_orM (Get details "savings")
           (nullish_orM (Get details "totalSavings") (Get details "netWorth"));
     parseOptionalNumber v);
  time_horizon ← nullish_orM (Get details "timeHorizon") (Get details "time_horizon");
  experience_level ←
    nullish_orM (Get details "experienceLevel") (Get details "experience_level");
  financial_goals ←
    nullish_orM (Get details "financialGoals") (Get details "financial_goals");
  monthly_expenses ←
    (v ← nullish_orM (Get details "monthlyExpenses") (Get details "monthly_expenses");
     parseOptionalNumber v);
  Ok (JObj [("age", age); ("investment_amount", investment_amount);
            ("risk_preference", risk_preference); ("monthly_income", monthly_income);
            ("savings", savings); ("time_horizon", time_horizon);
            ("experience_level", experience_level);
            ("financial_goals", financial_goals);
            ("monthly_expenses", monthly_expenses);
            ("report_type", JStr (ReportType_string (reportType preference)));
            ("investment_type", or_else (investmentType preference) JUndefined)]).

Record request := {
  url : string;
  method : string;
  body : string
}.

(** How the awaited [fetch] ends: the promise rejects, or it resolves to
    a response with its [ok] flag and its body text. *)
Inductive fetch_outcome :=
| Rejected (e : exn)
| Resolved (ok : bool) (text : string).

(** [response.json()] after the [ok] check: the [try] block up to [data]. *)
Definition awaitData (outcome : fetch_outcome) : result jsval :=
  match outcome with
  | Rejected e => Throw e
  | Resolved ok text =>
      if negb ok then Throw (Error "Unable to fetch recommendations")
      else JSON_parse_or_throw text
  end.

Definition onData (data : jsval) (st : state) : state :=
  let normalized := nullish_or (optGet data "recommendations") data in
  let st := setRecommendationResults normalized st in
  let serverReportType :=
    if is_string (optGet data "report_type") "single" then single else full in
  let st := setReportMode serverReportType st in
  setSingleReportData (nullish_or (optGet data "single_report") JNull) st.

Definition onError (error : exn) (st : state) : state :=
  let shown :=
    if String.eqb (message error) "" then "Failed to load recommendations"
    else message error in
  let st := setRecommendationError (Some shown) st in
  let st := setRecommendationResults JNull st in
  let st := setReportMode full st in
  setSingleReportData JNull st.

(** The two statements before the payload. *)
Definition fetchStart (st : state) : state :=
  setRecommendationError None (setRecommendationLoading true st).

(** [try { ... } catch { ... } finally { ... }] once the fetch has ended. *)
Definition fetchSettle (outcome : fetch_outcome) (st : state) : state :=
  let st' :=
    match awaitData outcome with
    | Ok data => onData data st
    | Throw error => onError error st
    end in
  setRecommendationLoading false st'.

Definition recommendRequest (apiBaseUrl : string) (payload : jsval) : request :=
  {| url := apiBaseUrl +:+ "/api/recommend"; method := "POST";
     body := default "undefined" (JSON_stringify payload) |}.

(** One call, against a network that answers each request with an
    outcome.  The payload is built outside the [try]: when that throws,
    the call ends there, with the state [fetchStart] left. *)
Definition fetchRecommendations (network : request → fetch_outcome)
    (apiBaseUrl : string) (details : jsval) (preference : ReportPreference)
    (st : state) : state * result request :=
  let st1 := fetchStart st in
  match buildPayload details preference with
  | Throw e => (st1, Throw e)
  | Ok payload =>
      let req := recommendRequest apiBaseUrl payload in
      (fetchSettle (network req) st1, Ok req)
  end.

(** [userDetails?.riskPreference ?? 'Medium'] *)
Definition riskPreference (st : state) : jsval :=
  nullish_or (optGet (userDetails st) "riskPreference") (JStr "Medium").

(** *** Full mode *)

Definition is_nonempty_array (v : jsval) : bool :=
  match v with JArr (_ :: _) => true | _ => false end.

Definition getCategoryItems (recommendationResults : jsval) (keys : list string)
  : list jsval :=
  if negb (ToBoolean recommendationResults) then []
  else
    (fix scan (keys : list string) : list jsval :=
       match keys with
       | [] => []
       | key :: rest =>
           match getv recommendationResults key with
           | JArr (x :: l) => x :: l
           | _ => scan rest
           end
       end) keys.

Record categoryConfig := {
  label : string;
  keys : list string
}.

Definition categoryConfigs : list categoryConfig :=
  [ {| label := "Equity Funds"; keys := ["equity"; "equity_funds"] |};
    {| label := "Debt Funds"; keys := ["debt"; "debt_funds"] |};
    {| label := "Hybrid Funds"; keys := ["hybrid"; "hybrid_funds"] |};
    {| label := "Gold ETFs"; keys := ["gold"; "gold_etf"; "gold_etfs"] |};
    {| label := "Stocks"; keys := ["stocks"; "equity_stocks"] |} ].

Definition recommendationSections (recommendationResults : jsval)
  : list (categoryConfig * list jsval) :=
  map (λ config, (config, getCategoryItems recommendationResults (keys config)))
    categoryConfigs.

(** The items of the section with a given label. *)
Definition sectionItems (recommendationResults : jsval) (l : string) : option (list jsval) :=
  snd <$> find (λ s, String.eqb (label (fst s)) l)
            (recommendationSections recommendationResults).

Definition riskNarratives : jsval :=
  JObj [("Low", JStr "prioritize stability, capital protection, and steady income.");
        ("Medium", JStr "balance long-term growth with reasonable stability.");
        ("High", JStr "maximize long-term growth even if short-term volatility increases.")].

Definition defaultNarrative : string :=
  "deliver a balanced mix of growth and stability.".

Definition buildExplanation (riskPreference : jsval) (categoryLabel : string)
    (custom : jsval) : result jsval :=
  if ToBoolean custom then Ok custom
  else
    key ← ToString riskPreference;
    let narrative := nullish_or (getv riskNarratives key) (JStr defaultNarrative) in
    text ← ToString narrative;
    Ok (JStr (categoryLabel +:+ " are selected to " +:+ text)).

(** *** Single mode *)

Definition formatSingleMetricValue (value : jsval) : result jsval :=
  match value with
  | JNull | JUndefined => Ok (JStr "NA")
  | JNum x => Ok (JStr (Number_toLocaleString_enIN 2 x))
  | JArr _ | JObj _ =>
      pairs ← mapM (λ '(key, val), text ← ToString val; Ok (key +:+ ": " +:+ text))
                (Object_entries value);
      Ok (JStr (join ", " pairs))
  | _ => Ok value
  end.

Definition push (parts : list string) (part : string) : list string := parts ++ [part].

(** [if (typeof v === 'number') parts.push(`<before>${v}<after>`)] *)
Definition pushIfNumber (v : jsval) (before after : string) (parts : list string)
  : list string :=
  match v with
  | JNum x => push parts (before +:+ Number_toString x +:+ after)
  | _ => parts
  end.

Definition bullet : string := " • ".

Definition buildSingleItemExplanation (item : jsval) : result jsval :=
  let extras := or_else (optGet item "extra_metrics") (JObj []) in
  let parts : list string := [] in
  let returns5y := nullish_or (optGet item "5y_return") (optGet item "return_5yr") in
  let returns3y := nullish_or (optGet item "3y_return") (optGet item "return_3yr") in
  parts ←
    (if ToBoolean returns5y
     then text ← ToString returns5y; Ok (push parts ("5Y CAGR " +:+ text +:+ "%"))
     else if ToBoolean returns3y
     then text ← ToString returns3y; Ok (push parts ("3Y CAGR " +:+ text +:+ "%"))
     else Ok parts);
  let parts := pushIfNumber (getv extras "yield") "Yield " "%" parts in
  let parts := pushIfNumber (getv extras "expense_ratio") "Expense Ratio " "%" parts in
  let parts := pushIfNumber (getv extras "consistency") "Consistency " "%" parts in
  let parts := pushIfNumber (getv extras "volatility") "Volatility " "%" parts in
  let parts := pushIfNumber (getv extras "duration") "Duration " " yrs" parts in
  let parts := pushIfNumber (getv extras "beta") "Beta " "" parts in
  Ok (if nonempty parts then JStr (join bullet parts) else JUndefined).

(** *** Which section the page shows *)

Inductive section :=
| FullRecommendationSection
| SingleRecommendationSection (data : jsval)
| NoSection.

Definition renderSingleRecommendationSection (st : state) : section :=
  if negb (ToBoolean (singleReportData st)) then NoSection
  else SingleRecommendationSection (singleReportData st).

(** [reportMode === 'single' ? renderSingle...() : renderFull...()] *)
Definition renderSection (st : state) : section :=
  match reportMode st with
  | single => renderSingleRecommendationSection st
  | full => FullRecommendationSection
  end.

(** *** The stored profile *)

Definition setUserDetails (v : jsval) (st : state) : state :=
  {| userDetails := v; recommendationResults := recommendationResults st;
     recommendationLoading := recommendationLoading st;
     recommendationError := recommendationError st;
     reportPreference := reportPreference st; preferenceLoaded := preferenceLoaded st;
     reportMode := reportMode st; singleReportData := singleReportData st |}.

(** The first effect: the stored mandatory details with the optional ones
    spread over them, or a redirect to the details page.  Neither
    [JSON.parse] is inside a [try]. *)
Definition loadUserDetails (storage : gmap string string) (st : state)
  : result (state * option string) :=
  match stored_item storage "mandatoryDetails" with
  | Some mandatory =>
      m ← JSON_parse_or_throw mandatory;
      o ← match stored_item storage "optionalDetails" with
          | Some optional => JSON_parse_or_throw optional
          | None => Ok (JObj [])
          end;
      Ok (setUserDetails (JObj (spread (spread [] m) o)) st, None)
  | None => Ok (st, Some "/details")
  end.

(** The third effect: [if (userDetails && preferenceLoaded)]. *)
Definition fetchEffect (network : request → fetch_outcome) (apiBaseUrl : string)
    (st : state) : state * option (result request) :=
  if ToBoolean (userDetails st) && preferenceLoaded st then
    let '(st', req) :=
      fetchRecommendations network apiBaseUrl (userDetails st) (reportPreference st) st in
    (st', Some req)
  else (st, None).

(** What happens when the page is mounted: the two load effects run on the
    initial state, and the fetch effect runs on the state they leave. *)
Definition mount (network : request → fetch_outcome) (apiBaseUrl : string)
    (storage : gmap string string)
  : result (state * option string * option (result request)) :=
  loaded ← loadUserDetails storage initial;
  let st := loadPreference storage (fst loaded) in
  let '(st', req) := fetchEffect network apiBaseUrl st in
  Ok (st', snd loaded, req).

(** *** The dummy recommendation and the loading placeholder *)

Definition recommendations : jsval :=
  JObj
    [("Low",
      JObj
        [("expectedReturn", JStr "8-10%");
         ("allocation",
          JObj [("labels", JArr [JStr "Fixed Deposits";
                                 JStr "Government Bonds";
                                 JStr "Debt Funds";
                                 JStr "Gold ETF"]);
                ("values", JArr [num 40; num 30; num 20; num 10])]);
         ("features",
          JArr [JStr "Capital protection";
                JStr "Steady returns";
                JStr "Low volatility";
                JStr "Tax efficient options"]);
         ("explanation",
          JStr ("This conservative portfolio is designed for investors "
                +:+ "who prioritize capital preservation over high returns. "
                +:+ "With 70% allocation to fixed-income securities (FDs "
                +:+ "and bonds), your investment is protected from market "
                +:+ "volatility. The remaining 30% in debt funds and gold "
                +:+ "ETF provides modest growth potential while maintaining "
                +:+ "stability. This approach is ideal for investors "
                +:+ "nearing retirement or those who cannot afford "
                +:+ "significant losses."))]);
     ("Medium",
      JObj
        [("expectedReturn", JStr "10-12%");
         ("allocation",
          JObj [("labels", JArr [JStr "Equity Funds";
                                 JStr "Debt Funds";
                                 JStr "Hybrid Funds";
                                 JStr "Gold ETF";
                                 JStr "FD"]);
                ("values", JArr [num 40; num 25; num 20; num 10; num 5])]);
         ("features",
          JArr [JStr "Balanced growth";
                JStr "Moderate risk";
                JStr "Diversified portfolio";
                JStr "Professional management"]);
         ("explanation",
          JStr ("This balanced portfolio offers the best of both worlds "
                +:+ "- growth potential through equity exposure (60% in "
                +:+ "equity and hybrid funds) while maintaining stability "
                +:+ "through debt instruments (30%). This diversified "
                +:+ "approach helps smooth out market volatility while "
                +:+ "targeting inflation-beating returns. The 10% gold "
                +:+ "allocation acts as a hedge against economic "
                +:+ "uncertainty, making this suitable for investors with a "
                +:+ "5-10 year investment horizon."))]);
     ("High",
      JObj
        [("expectedReturn", JStr "12-15%");
         ("allocation",
          JObj [("labels", JArr [JStr "Equity Funds";
                                 JStr "Small Cap Funds";
                                 JStr "International Funds";
                                 JStr "Debt Funds"]);
                ("values", JArr [num 50; num 25; num 15; num 10])]);
         ("features",
          JArr [JStr "High growth potential";
                JStr "Long-term wealth creation";
                JStr "Market-linked returns";
                JStr "Tax benefits available"]);
         ("explanation",
          JStr ("This aggressive growth portfolio is designed for "
                +:+ "long-term wealth creation with 90% equity exposure "
                +:+ "across different market segments. The large allocation "
                +:+ "to small-cap funds (25%) and international funds (15%) "
                +:+ "provides exposure to high-growth opportunities. While "
                +:+ "this portfolio carries higher volatility, it has the "
                +:+ "potential to significantly outperform inflation over "
                +:+ "10+ years. The minimal debt allocation (10%) provides "
                +:+ "some stability during market downturns. This strategy "
                +:+ "is ideal for young investors with high risk tolerance "
                +:+ "and long investment horizons."))])].

(** [parseFloat] converts its argument to a string first; its result is
    not used. *)
Definition getDummyRecommendation (st : state) : result jsval :=
  if negb (ToBoolean (userDetails st)) then Ok JNull
  else
    let riskLevel := getv (userDetails st) "riskPreference" in
    _ ← ToString (getv (userDetails st) "investmentAmount");
    key ← ToString riskLevel;
    Ok (getv recommendations key).

(** [if (!userDetails || !recommendation) return <div>Loading...</div>]:
    [true] when the component goes on to the page itself. *)
Definition pastLoadingPlaceholder (st : state) : result bool :=
  recommendation ← getDummyRecommendation st;
  Ok (ToBoolean (userDetails st) && ToBoolean recommendation).

(** *** Cards *)

Definition getItemName (item : jsval) : jsval :=
  or_else
    (or_else
       (or_else (or_else (optGet item "name") (optGet item "scheme_name"))
          (optGet item "schemeName"))
       (optGet item "fund_name"))
    (JStr "Unnamed Product").

Definition getItemScore (item : jsval) : jsval :=
  if negb (is_undefined (optGet item "score")) then getv item "score"
  else if negb (is_undefined (optGet item "combined_score")) then getv item "combined_score"
  else if negb (is_undefined (optGet item "rating")) then getv item "rating"
  else JNull.

(** The props of a [RecommendationCard], with its [key]. *)
Record card := {
  card_key : string;
  card_name : jsval;
  card_category : jsval;
  card_score : jsval;
  card_explanation : jsval
}.

(** The callback of [section.items.slice(0, 5).map] in the full section. *)
Definition fullCard (riskPreference : jsval) (sectionLabel : string) (idx : nat)
    (item : jsval) : result card :=
  nameText ← ToString (getItemName item);
  explanation ← buildExplanation riskPreference sectionLabel (optGet item "explanation");
  Ok {| card_key := sectionLabel +:+ "-" +:+ index_string idx +:+ "-" +:+ nameText;
        card_name := getItemName item;
        card_category := JStr sectionLabel;
        card_score := getItemScore item;
        card_explanation := explanation |}.

Definition sectionCards (riskPreference : jsval) (sectionLabel : string)
    (items : list jsval) : result (list card) :=
  mapM (λ p, fullCard riskPreference sectionLabel (fst p) (snd p)) (indexed (take 5 items)).

(** The blocks of the full section: one per section that has items
    ([section.items.length > 0 && ...]), in the order of the sections. *)
Definition fullSectionBlocks (riskPreference : jsval) (recommendationResults : jsval)
  : result (list (string * list card)) :=
  mapM (λ s, cards ← sectionCards riskPreference (label (fst s)) (snd s);
             Ok (label (fst s), cards))
    (filter (λ s, nonempty (snd s) = true) (recommendationSections recommendationResults)).

(** The callback of [topItems.map] in the single section. *)
Definition singleCard (sectionLabel : jsval) (idx : nat) (item : jsval) : result card :=
  labelText ← ToString sectionLabel;
  name ← Get item "name";
  nameText ← ToString name;
  score ← Get item "score";
  explanation ← buildSingleItemExplanation item;
  Ok {| card_key := labelText +:+ "-" +:+ index_string idx +:+ "-" +:+ nameText;
        card_name := name;
        card_category := sectionLabel;
        card_score := score;
        card_explanation := explanation |}.

(** [topItems.map(...)] for an array of top items. *)
Definition singleCards (sectionLabel : jsval) (topItems : list jsval) : result (list card) :=
  mapM (λ p, singleCard sectionLabel (fst p) (snd p)) (indexed topItems).

(** *** The banner and the empty-state line of the full section *)

(** [recommendationError && ...] *)
Definition errorBanner (st : state) : option string :=
  match recommendationError st with
  | Some m => if String.eqb m "" then None else Some m
  | None => None
  end.

Definition fetching_line : string := "Fetching live recommendations...".
Definition nothing_line : string :=
  "No live recommendations available. Please try again in a moment.".

(** [!recommendationError && recommendationSections.every(...) && ...] *)
Definition emptyStateLine (st : state) : option string :=
  match errorBanner st with
  | Some _ => None
  | None =>
      if forallb (λ s, negb (nonempty (snd s)))
           (recommendationSections (recommendationResults st))
      then Some (if recommendationLoading st then fetching_line else nothing_line)
      else None
  end.

(** *** The label of the single section *)

Definition SINGLE_CATEGORY_LABELS : jsval :=
  JObj [("mutualfunds", JStr "Mutual Funds"); ("stocks", JStr "Stocks");
        ("bonds", JStr "Government Bonds"); ("gold", JStr "Gold");
        ("sip", JStr "Systematic Investment Plan")].

(** [singleReportData.label || SINGLE_CATEGORY_LABELS[singleReportData.category]
    || 'Selected Category'], for the truthy [singleReportData] the section
    is rendered for. *)
Definition singleLabel (singleReportData : jsval) : result jsval :=
  if ToBoolean (getv singleReportData "label") then Ok (getv singleReportData "label")
  else
    key ← ToString (getv singleReportData "category");
    Ok (or_else (getv SINGLE_CATEGORY_LABELS key) (JStr "Selected Category")).

(** The label in the mode line under the page title:
    [singleReportData.label || SINGLE_CATEGORY_LABELS[singleReportData.category || '']
    || 'Selected Category']. *)
Definition modeLineLabel (singleReportData : jsval) : result jsval :=
  if ToBoolean (getv singleReportData "label") then Ok (getv singleReportData "label")
  else
    key ← ToString (or_else (getv singleReportData "category") (JStr ""));
    Ok (or_else (getv SINGLE_CATEGORY_LABELS key) (JStr "Selected Category")).

(** *** The page *)

(** [v.toLowerCase()], as far as it can fail: of the values of the model
    only a string has the method, so the call is a TypeError on every
    other value.  The lowered text itself is not modelled. *)
Definition toLowerCase_call (v : jsval) : result unit :=
  match v with
  | JStr _ => Ok tt
  | JUndefined | JNull => Throw (TypeError "Cannot read properties of null or undefined")
  | _ => Throw (TypeError "toLowerCase is not a function")
  end.

(** What the component returns, down to the report section: the
    placeholder of line 534, or the page with its mode line, when it has
    one, and the section line 578 asks for, with the data that section is
    built from.  What the two section functions evaluate in turn is the
    subject of the definitions above ([fullSectionBlocks], [errorBanner],
    [singleLabel], [singleCards], ...) and is not part of this value. *)
Inductive view :=
| LoadingPlaceholder
| Page (modeLine : option jsval) (reportSection : section).

(** The component body from the placeholder gate to the report section:
    the gate (lines 533-535), the subtitle, which calls
    [userDetails.riskPreference.toLowerCase()] and
    [parseInt(userDetails.investmentAmount)] (line 549), the mode line
    (lines 551-555) and the choice of the section (line 578).  The summary
    cards in between (lines 559-576) read properties of the profile and of
    the dummy recommendation, neither of them nullish there, and convert
    the amount once more: they cannot fail where the subtitle has not. *)
Definition renderPage (st : state) : result view :=
  past ← pastLoadingPlaceholder st;
  if negb past then Ok LoadingPlaceholder
  else
    _ ← toLowerCase_call (getv (userDetails st) "riskPreference");
    _ ← ToString (getv (userDetails st) "investmentAmount");
    modeLine ←
      match reportMode st with
      | single =>
          if ToBoolean (singleReportData st)
          then l ← modeLineLabel (singleReportData st); Ok (Some l)
          else Ok None
      | full => Ok None
      end;
    Ok (Page modeLine (renderSection st)).


End RecommendationPage.

(** ** src/components/Navbar.tsx *)

Module Navbar.

(** [handleLogout]: four keys are removed and the browser goes to the
    landing page. *)
Definition handleLogout (storage : gmap string string) : gmap string string * string :=
  (delete "optionalDetails"
     (delete "mandatoryDetails" (delete "userPhone" (delete "isAuthenticated" storage))),
   "/").

End Navbar.

(** * Specification-side definitions *)

Import RecommendationPage.

(** The resolution rule in the words of the specification: the first
    alias, in the order of the list, whose value is a non-empty sequence;
    the empty list when there is none. *)
Definition resolveCategory_spec (response : jsval) (aliases : list string) : list jsval :=
  match find (λ alias, is_nonempty_array (getv response alias)) aliases with
  | Some alias =>
      match getv response alias with
      | JArr items => items
      | _ => []
      end
  | None => []
  end.

(** The single-mode explanation in the words of the specification: the
    5-year return is preferred over the 3-year return, then one labelled
    fragment per numeric extra metric, in the fixed order of this table. *)
Definition extraMetricLabels : list (string * (string * string)) :=
  [("yield", ("Yield ", "%")); ("expense_ratio", ("Expense Ratio ", "%"));
   ("consistency", ("Consistency ", "%")); ("volatility", ("Volatility ", "%"));
   ("duration", ("Duration ", " yrs")); ("beta", ("Beta ", ""))].

Definition returnFragment_spec (item : jsval) : result (option string) :=
  let returns5y := nullish_or (optGet item "5y_return") (optGet item "return_5yr") in
  let returns3y := nullish_or (optGet item "3y_return") (optGet item "return_3yr") in
  if ToBoolean returns5y
  then text ← ToString returns5y; Ok (Some ("5Y CAGR " +:+ text +:+ "%"))
  else if ToBoolean returns3y
  then text ← ToString returns3y; Ok (Some ("3Y CAGR " +:+ text +:+ "%"))
  else Ok None.

Definition metricFragment_spec (extras : jsval) (entry : string * (string * string))
  : option string :=
  match getv extras (fst entry) with
  | JNum x => Some (fst (snd entry) +:+ Number_toString x +:+ snd (snd entry))
  | _ => None
  end.

Definition extraFragments_spec (item : jsval) : list string :=
  omap (metricFragment_spec (or_else (optGet item "extra_metrics") (JObj [])))
    extraMetricLabels.

Definition explanation_spec (item : jsval) : result jsval :=
  first ← returnFragment_spec item;
  match option_list first ++ extraFragments_spec item with
  | [] => Ok JUndefined
  | fragments => Ok (JStr (join " • " fragments))
  end.

(** The digits after the decimal point of a formatted number. *)
Fixpoint after_point (cs : list ascii) : option (list ascii) :=
  match cs with
  | [] => None
  | c :: r => if Ascii.eqb c "." then Some r else after_point r
  end.

Definition fraction_digits (s : string) : nat :=
  match after_point (chars s) with
  | Some r => length r
  | None => 0
  end.

(** The texts of the values of the entries of an object or array. *)
Definition entryTexts (value : jsval) : result (list string) :=
  mapM ToString (map snd (Object_entries value)).

Definition entryPairs (value : jsval) (texts : list string) : list string :=
  zip_with (λ key text, key +:+ ": " +:+ text) (map fst (Object_entries value)) texts.

(** The properties [JSON.stringify] writes for an object. *)
Definition serialize_members (ps : list (string * jsval)) : list (string * jsval) :=
  omap (λ p, pair (fst p) <$> JSON_serialize (snd p)) ps.

(** The value a request carries under a key; [None] when the key is not in
    the body. *)
Definition request_field (payload : jsval) (k : string) : option jsval :=
  match JSON_serialize payload with
  | Some (JObj ps) => own_property ps k
  | _ => None
  end.

Definition sentField (details : jsval) (preference : ReportPreference) (k : string)
  : option jsval :=
  match buildPayload details preference with
  | Ok payload => request_field payload k
  | Throw _ => None
  end.

(** The profile of scenario A. *)
Definition profileA : jsval :=
  JObj [("age", num 30); ("investmentAmount", num 50000); ("riskPreference", JStr "Medium")].

(** The preference a load ends with, field by field. *)
Definition loadedPreference_spec (stored : option string) : ReportPreference :=
  match stored with
  | None => defaultPreference
  | Some text =>
      match JSON_parse text with
      | None => defaultPreference
      | Some parsed =>
          if is_nullish parsed then defaultPreference
          else {| reportType :=
                    if is_string (getv parsed "reportType") "single" then single else full;
                  investmentType := or_else (getv parsed "investmentType") (JStr "") |}
      end
  end.

(** A fetch that ends in a network failure or a non-success status. *)
Definition failed (outcome : fetch_outcome) : bool :=
  match outcome with
  | Rejected _ => true
  | Resolved ok _ => negb ok
  end.

(** The page state once the stored profile has been read. *)
Definition withUserDetails (details : jsval) : state :=
  {| userDetails := details; recommendationResults := JNull;
     recommendationLoading := false; recommendationError := None;
     reportPreference := defaultPreference; preferenceLoaded := false;
     reportMode := full; singleReportData := JNull |}.

(** Risk values that reach a member of [Object.prototype]. *)
Definition inherited (k : string) : bool :=
  match Object_prototype k with Some _ => true | None => false end.


(** The four sentences the specification allows for a category. *)
Definition narrative_sentences (categoryLabel : string) : list jsval :=
  map (λ clause, JStr (categoryLabel +:+ " are selected to " +:+ clause))
    ["prioritize stability, capital protection, and steady income.";
     "balance long-term growth with reasonable stability.";
     "maximize long-term growth even if short-term volatility increases.";
     defaultNarrative].

(** The digits of a number, and the grouping commas, are not the point. *)
Definition not_point (c : ascii) : Prop := Ascii.eqb c "." = false.

(** What a successful parse leaves is shorter than its input. *)
Definition consumes (p : parsed jsval) (cs : list ascii) : Prop :=
  match p with
  | Parsed _ r => length r < length cs
  | _ => True
  end.

Ltac bind_inv H :=
  match type of H with
  | mbind _ ?m = Ok _ =>
      let v := fresh "v" in
      destruct m as [v|] eqn:?; cbn [mbind result_bind] in H; [|discriminate H]
  end.

(** The aliases an item's name and score are read from, in order. *)
Definition nameAliases : list string := ["name"; "scheme_name"; "schemeName"; "fund_name"].
Definition scoreAliases : list string := ["score"; "combined_score"; "rating"].

(** A fetch whose response has no non-empty bucket under any alias. *)
Definition no_bucket (results : jsval) : bool :=
  forallb (λ s, negb (nonempty (snd s))) (recommendationSections results).

(** The three risk levels the page has a dummy recommendation for. *)
Definition riskLevels : list string := ["Low"; "Medium"; "High"].

(** The members of an object as [JSON_text] writes them. *)
Fixpoint members_text (ps : list (string * jsval)) : list ascii :=
  match ps with
  | [] => []
  | (k, x) :: r =>
      quote_string k ++ ":"%char :: JSON_text x
        ++ match r with [] => [] | _ => ","%char :: members_text r end
  end.

(** An object whose values are all strings. *)
Definition strings_object (ps : list (string * string)) : list (string * jsval) :=
  map (λ p, (fst p, JStr (snd p))) ps.

(** One step of [parse_string_body], over what reads the rest. *)
Definition string_step (rest_of : list ascii → option (list ascii * list ascii))
    (cs : list ascii) : option (list ascii * list ascii) :=
  match cs with
  | [] => None
  | c :: r =>
      if Ascii.eqb c dquote then Some ([], r)
      else if Ascii.eqb c backslash then
        match r with
        | [] => None
        | e :: r' =>
            if Ascii.eqb e "u" then
              match r' with
              | h1 :: h2 :: h3 :: h4 :: r'' =>
                  match hex4 h1 h2 h3 h4, rest_of r'' with
                  | Some u, Some (s, rest) => Some (encode_unit u ++ s, rest)
                  | _, _ => None
                  end
              | _ => None
              end
            else
              match simple_escape e, rest_of r' with
              | Some x, Some (s, rest) => Some (x :: s, rest)
              | _, _ => None
              end
        end
      else if (N_of_ascii c <? 32)%N then None
      else match rest_of r with
           | Some (s, rest) => Some (c :: s, rest)
           | None => None
           end
  end.

(** The keys the optional form stores. *)
Definition formKeys : list string :=
  ["monthlyIncome"; "savings"; "timeHorizon"; "investmentExperience"; "financialGoals";
   "monthlyExpenses"].

(** The form as the list of its fields. *)
Definition formFields (f : OptionalDetailsPage.FormData) : list (string * string) :=
  [("monthlyIncome", OptionalDetailsPage.monthlyIncome f);
   ("savings", OptionalDetailsPage.savings f);
   ("timeHorizon", OptionalDetailsPage.timeHorizon f);
   ("investmentExperience", OptionalDetailsPage.investmentExperience f);
   ("financialGoals", OptionalDetailsPage.financialGoals f);
   ("monthlyExpenses", OptionalDetailsPage.monthlyExpenses f)].

(** What the request carries for an optional number typed as [s]. *)
Definition optionalNumber_sent (s : string) : option jsval :=
  if String.eqb s "" then None
  else match StringToNumber s with
       | NaN => None
       | Inf _ => Some JNull
       | Fin neg m e => Some (JNum (Fin neg m e))
       end.

(** The object [persistReportPreference] stringifies. *)
Definition preference_value (p : ReportPreference) : jsval :=
  JObj [("reportType", JStr (ReportType_string (reportType p)));
        ("investmentType", investmentType p)].

(** The profile assembled from mandatory details [m] and a stored form:
    the form spread over the mandatory details. *)
Definition profile_of (m : list (string * jsval)) (f : OptionalDetailsPage.FormData)
  : jsval :=
  JObj (spread (spread [] (JObj m)) (OptionalDetailsPage.formData_value f)).

(** * Properties *)

(** ** JSON.parse: the fuel is enough *)

Lemma skip_ws_length (cs : list ascii) : length (skip_ws cs) ≤ length cs.
Proof.
  induction cs as [|c r IH]; simpl; [lia|]. destruct (is_json_ws c); simpl; lia.
Qed.

Lemma starts_with_length (c : ascii) (cs r : list ascii) :
  starts_with c cs = Some r → length cs = S (length r).
Proof.
  destruct cs as [|c' r']; simpl; [discriminate|].
  destruct (Ascii.eqb c' c); [|discriminate]. by intros [= ->].
Qed.

Lemma span_digits_length (dig : ascii → option N) (cs : list ascii) :
  length (fst (span_digits dig cs)) + length (snd (span_digits dig cs)) = length cs.
Proof.
  induction cs as [|c r IH]; simpl; [reflexivity|].
  destruct (dig c); simpl; [|reflexivity].
  destruct (span_digits dig r); simpl in *. lia.
Qed.

Lemma digits1_length (cs r : list ascii) (ds : list N) :
  digits1 cs = Some (ds, r) → length r < length cs.
Proof.
  unfold digits1. pose proof (span_digits_length digit_of cs) as H.
  destruct (span_digits digit_of cs) as [[|d ds'] r']; [discriminate|].
  intros [= <- <-]. simpl in H. lia.
Qed.

Lemma split_sign_length (cs : list ascii) : length (snd (split_sign cs)) ≤ length cs.
Proof.
  unfold split_sign.
  destruct (starts_with "-" cs) eqn:E1; simpl.
  - apply starts_with_length in E1. lia.
  - destruct (starts_with "+" cs) eqn:E2; simpl; [|lia].
    apply starts_with_length in E2. lia.
Qed.

Lemma fraction_part_length (cs r : list ascii) (fp : list N) :
  fraction_part cs = Some (fp, r) → length r ≤ length cs.
Proof.
  unfold fraction_part. destruct (starts_with "." cs) as [r'|] eqn:E.
  - intros H. apply digits1_length in H. apply starts_with_length in E. lia.
  - by intros [= <- <-].
Qed.

Lemma exponent_part_length (cs r : list ascii) (ex : Z) :
  exponent_part cs = Some (ex, r) → length r ≤ length cs.
Proof.
  unfold exponent_part. destruct cs as [|c r0]; [by intros [= <- <-]|].
  destruct (Ascii.eqb c "e" || Ascii.eqb c "E"); [|by intros [= <- <-]].
  pose proof (split_sign_length r0) as Hs.
  destruct (split_sign r0) as [eneg r']. simpl in Hs.
  destruct (digits1 r') as [[es rest]|] eqn:E; [|discriminate].
  intros [= <- <-]. apply digits1_length in E. simpl. lia.
Qed.

Lemma parse_json_number_consumes (cs r : list ascii) (v : jsval) :
  parse_json_number cs = Parsed v r → length r < length cs.
Proof.
  unfold parse_json_number.
  set (sgn := match starts_with "-" cs with Some r => (true, r) | None => (false, cs) end).
  assert (Hs : length (snd sgn) ≤ length cs).
  { unfold sgn. destruct (starts_with "-" cs) eqn:E; simpl; [|lia].
    apply starts_with_length in E. lia. }
  destruct sgn as [neg r0]. simpl in Hs.
  destruct (digits1 r0) as [[ip r1]|] eqn:E1; [|discriminate].
  destruct (leading_zero ip); [discriminate|].
  destruct (fraction_part r1) as [[fp r2]|] eqn:E2; [|discriminate].
  destruct (exponent_part r2) as [[ex r3]|] eqn:E3; [|discriminate].
  intros [= _ <-].
  apply digits1_length in E1. apply fraction_part_length in E2.
  apply exponent_part_length in E3. lia.
Qed.

Lemma parse_json_number_fuel (cs : list ascii) : parse_json_number cs ≠ NoFuel.
Proof.
  unfold parse_json_number.
  destruct (match starts_with "-" cs with Some r => (true, r) | None => (false, cs) end)
    as [neg r0].
  destruct (digits1 r0) as [[ip r1]|]; [|discriminate].
  destruct (leading_zero ip); [discriminate|].
  destruct (fraction_part r1) as [[fp r2]|]; [|discriminate].
  destruct (exponent_part r2) as [[ex r3]|]; discriminate.
Qed.

Lemma strip_prefix_length (name cs r : list ascii) :
  strip_prefix name cs = Some r → length cs = length name + length r.
Proof.
  revert cs. induction name as [|c name IH]; intros cs; simpl.
  - by intros [= ->].
  - destruct cs as [|c' r']; [discriminate|].
    destruct (Ascii.eqb c' c); [|discriminate].
    intros H. apply IH in H. simpl. lia.
Qed.

Lemma parse_literal_consumes (cs r : list ascii) (v : jsval) :
  parse_literal cs = Parsed v r → length r < length cs.
Proof.
  unfold parse_literal.
  destruct (strip_prefix (chars "null") cs) eqn:E1.
  { intros [= _ <-]. apply strip_prefix_length in E1. simpl in E1. lia. }
  destruct (strip_prefix (chars "true") cs) eqn:E2.
  { intros [= _ <-]. apply strip_prefix_length in E2. simpl in E2. lia. }
  destruct (strip_prefix (chars "false") cs) eqn:E3; [|discriminate].
  intros [= _ <-]. apply strip_prefix_length in E3. simpl in E3. lia.
Qed.

Lemma parse_literal_fuel (cs : list ascii) : parse_literal cs ≠ NoFuel.
Proof.
  unfold parse_literal.
  repeat match goal with |- context [strip_prefix ?n ?c] => destruct (strip_prefix n c) end;
    discriminate.
Qed.

Lemma parse_string_body_length (cs s r : list ascii) :
  parse_string_body cs = Some (s, r) → length r < length cs.
Proof.
  remember (length cs) as n eqn:Hn. revert cs s r Hn.
  induction n as [n IH] using lt_wf_ind. intros cs s r Hn.
  destruct cs as [|c r0]; [discriminate|]. cbn [parse_string_body].
  destruct (Ascii.eqb c dquote); [intros [= _ <-]; simpl in *; lia|].
  destruct (Ascii.eqb c backslash).
  - destruct r0 as [|e r1]; [discriminate|].
    destruct (Ascii.eqb e "u").
    + destruct r1 as [|h1 [|h2 [|h3 [|h4 r2]]]]; try discriminate.
      destruct (hex4 h1 h2 h3 h4); [|discriminate].
      destruct (parse_string_body r2) as [[s' rest]|] eqn:E; [|discriminate].
      intros [= _ <-]. apply (IH (length r2)) in E; simpl in *; lia.
    + destruct (simple_escape e); [|discriminate].
      destruct (parse_string_body r1) as [[s' rest]|] eqn:E; [|discriminate].
      intros [= _ <-]. apply (IH (length r1)) in E; simpl in *; lia.
  - destruct (N_of_ascii c <? 32)%N; [discriminate|].
    destruct (parse_string_body r0) as [[s' rest]|] eqn:E; [|discriminate].
    intros [= _ <-]. apply (IH (length r0)) in E; simpl in *; lia.
Qed.

Lemma parse_value_S (f : nat) (cs : list ascii) :
  parse_value (S f) cs =
  match skip_ws cs with
  | [] => Malformed
  | c :: r =>
      if Ascii.eqb c dquote then
        match parse_string_body r with
        | Some (s, rest) => Parsed (JStr (str s)) rest
        | None => Malformed
        end
      else if Ascii.eqb c "[" then
        match starts_with "]" (skip_ws r) with
        | Some rest => Parsed (JArr []) rest
        | None => parse_elements f (skip_ws r) []
        end
      else if Ascii.eqb c "{" then
        match starts_with "}" (skip_ws r) with
        | Some rest => Parsed (JObj []) rest
        | None => parse_members f (skip_ws r) []
        end
      else if Ascii.eqb c "-" || bool_decide (is_Some (digit_of c)) then
        parse_json_number (c :: r)
      else parse_literal (c :: r)
  end.
Proof. reflexivity. Qed.

Lemma parse_elements_S (f : nat) (cs : list ascii) (acc : list jsval) :
  parse_elements (S f) cs acc =
  match parse_value f cs with
  | Parsed v r =>
      match starts_with "," (skip_ws r) with
      | Some r' => parse_elements f r' (v :: acc)
      | None =>
          match starts_with "]" (skip_ws r) with
          | Some r' => Parsed (JArr (rev (v :: acc))) r'
          | None => Malformed
          end
      end
  | Malformed => Malformed
  | NoFuel => NoFuel
  end.
Proof. reflexivity. Qed.

Lemma parse_members_S (f : nat) (cs : list ascii) (acc : list (string * jsval)) :
  parse_members (S f) cs acc =
  match starts_with dquote (skip_ws cs) with
  | Some r =>
      match parse_string_body r with
      | Some (k, r1) =>
          match starts_with ":" (skip_ws r1) with
          | Some r2 =>
              match parse_value f r2 with
              | Parsed v r3 =>
                  match starts_with "," (skip_ws r3) with
                  | Some r4 => parse_members f r4 (obj_define acc (str k) v)
                  | None =>
                      match starts_with "}" (skip_ws r3) with
                      | Some r4 => Parsed (JObj (obj_define acc (str k) v)) r4
                      | None => Malformed
                      end
                  end
              | Malformed => Malformed
              | NoFuel => NoFuel
              end
          | None => Malformed
          end
      | None => Malformed
      end
  | None => Malformed
  end.
Proof. reflexivity. Qed.

(** Whatever is parsed is read off the front of the input. *)
Lemma parse_consumes (f : nat) :
  (∀ cs, consumes (parse_value f cs) cs) ∧
  (∀ cs acc, consumes (parse_elements f cs acc) cs) ∧
  (∀ cs acc, consumes (parse_members f cs acc) cs).
Proof.
  induction f as [|f (IHv & IHe & IHm)]; [repeat split; intros; exact I|].
  split; [|split].
  - intros cs. rewrite parse_value_S.
    pose proof (skip_ws_length cs) as Hws.
    destruct (skip_ws cs) as [|c r]; [exact I|]. simpl in Hws.
    destruct (Ascii.eqb c dquote).
    { destruct (parse_string_body r) as [[s rest]|] eqn:E; [|exact I].
      apply parse_string_body_length in E. simpl. lia. }
    pose proof (skip_ws_length r) as Hr.
    destruct (Ascii.eqb c "[").
    { destruct (starts_with "]" (skip_ws r)) eqn:E.
      - apply starts_with_length in E. simpl. lia.
      - specialize (IHe (skip_ws r) []).
        destruct (parse_elements f (skip_ws r) []); try exact I. simpl in *. lia. }
    destruct (Ascii.eqb c "{").
    { destruct (starts_with "}" (skip_ws r)) eqn:E.
      - apply starts_with_length in E. simpl. lia.
      - specialize (IHm (skip_ws r) []).
        destruct (parse_members f (skip_ws r) []); try exact I. simpl in *. lia. }
    destruct (Ascii.eqb c "-" || bool_decide (is_Some (digit_of c))).
    { destruct (parse_json_number (c :: r)) eqn:E; try exact I.
      apply parse_json_number_consumes in E. simpl in *. lia. }
    destruct (parse_literal (c :: r)) eqn:E; try exact I.
    apply parse_literal_consumes in E. simpl in *. lia.
  - intros cs acc. rewrite parse_elements_S.
    specialize (IHv cs). destruct (parse_value f cs) as [v r| |]; try exact I.
    simpl in IHv. pose proof (skip_ws_length r) as Hr.
    destruct (starts_with "," (skip_ws r)) as [r'|] eqn:E1.
    { apply starts_with_length in E1. specialize (IHe r' (v :: acc)).
      destruct (parse_elements f r' (v :: acc)); try exact I. simpl in *. lia. }
    destruct (starts_with "]" (skip_ws r)) as [r'|] eqn:E2; [|exact I].
    apply starts_with_length in E2. simpl. lia.
  - intros cs acc. rewrite parse_members_S.
    pose proof (skip_ws_length cs) as Hws.
    destruct (starts_with dquote (skip_ws cs)) as [r|] eqn:E0; [|exact I].
    apply starts_with_length in E0.
    destruct (parse_string_body r) as [[k r1]|] eqn:E1; [|exact I].
    apply parse_string_body_length in E1.
    pose proof (skip_ws_length r1) as Hr1.
    destruct (starts_with ":" (skip_ws r1)) as [r2|] eqn:E2; [|exact I].
    apply starts_with_length in E2.
    specialize (IHv r2). destruct (parse_value f r2) as [v r3| |]; try exact I.
    simpl in IHv. pose proof (skip_ws_length r3) as Hr3.
    destruct (starts_with "," (skip_ws r3)) as [r4|] eqn:E3.
    { apply starts_with_length in E3. specialize (IHm r4 (obj_define acc (str k) v)).
      destruct (parse_members f r4 _); try exact I. simpl in *. lia. }
    destruct (starts_with "}" (skip_ws r3)) as [r4|] eqn:E4; [|exact I].
    apply starts_with_length in E4. simpl. lia.
Qed.

Lemma parse_enough_fuel (f : nat) :
  (∀ cs, 2 * length cs + 1 ≤ f → parse_value f cs ≠ NoFuel) ∧
  (∀ cs acc, 2 * length cs + 2 ≤ f → parse_elements f cs acc ≠ NoFuel) ∧
  (∀ cs acc, 2 * length cs + 2 ≤ f → parse_members f cs acc ≠ NoFuel).
Proof.
  induction f as [|f (IHv & IHe & IHm)]; [repeat split; intros; lia|].
  split; [|split].
  - intros cs Hf. rewrite parse_value_S.
    pose proof (skip_ws_length cs) as Hws.
    destruct (skip_ws cs) as [|c r]; [discriminate|]. simpl in Hws.
    destruct (Ascii.eqb c dquote).
    { destruct (parse_string_body r) as [[s rest]|]; discriminate. }
    pose proof (skip_ws_length r) as Hr.
    destruct (Ascii.eqb c "[").
    { destruct (starts_with "]" (skip_ws r)); [discriminate|]. apply IHe. lia. }
    destruct (Ascii.eqb c "{").
    { destruct (starts_with "}" (skip_ws r)); [discriminate|]. apply IHm. lia. }
    destruct (Ascii.eqb c "-" || bool_decide (is_Some (digit_of c))).
    { apply parse_json_number_fuel. }
    apply parse_literal_fuel.
  - intros cs acc Hf. rewrite parse_elements_S.
    pose proof (proj1 (parse_consumes f) cs) as Hc.
    pose proof (IHv cs ltac:(lia)) as Hv.
    destruct (parse_value f cs) as [v r| |]; [|discriminate|done].
    simpl in Hc. pose proof (skip_ws_length r) as Hr.
    destruct (starts_with "," (skip_ws r)) as [r'|] eqn:E1.
    { apply starts_with_length in E1. apply IHe. lia. }
    destruct (starts_with "]" (skip_ws r)); discriminate.
  - intros cs acc Hf. rewrite parse_members_S.
    pose proof (skip_ws_length cs) as Hws.
    destruct (starts_with dquote (skip_ws cs)) as [r|] eqn:E0; [|discriminate].
    apply starts_with_length in E0.
    destruct (parse_string_body r) as [[k r1]|] eqn:E1; [|discriminate].
    apply parse_string_body_length in E1.
    pose proof (skip_ws_length r1) as Hr1.
    destruct (starts_with ":" (skip_ws r1)) as [r2|] eqn:E2; [|discriminate].
    apply starts_with_length in E2.
    pose proof (proj1 (parse_consumes f) r2) as Hc.
    pose proof (IHv r2 ltac:(lia)) as Hv.
    destruct (parse_value f r2) as [v r3| |]; [|discriminate|done].
    simpl in Hc. pose proof (skip_ws_length r3) as Hr3.
    destruct (starts_with "," (skip_ws r3)) as [r4|] eqn:E3.
    { apply starts_with_length in E3. apply IHm. lia. }
    destruct (starts_with "}" (skip_ws r3)); discriminate.
Qed.

(** [JSON_parse] never stops for lack of fuel: [None] is a syntax error. *)
Lemma parse_value_fuel (cs : list ascii) : parse_value (parse_fuel cs) cs ≠ NoFuel.
Proof. apply (proj1 (parse_enough_fuel _)). unfold parse_fuel. lia. Qed.

(** ** Conversions, on examples *)

Example StringToNumber_ex :
  StringToNumber "0" = pos_zero ∧ StringToNumber "  12.50 " = Fin false 125 (-1) ∧
  StringToNumber "abc" = NaN ∧ StringToNumber "-Infinity" = Inf true ∧
  StringToNumber "1e999" = Inf false ∧ StringToNumber "0x1F" = Fin false 31 0 ∧
  StringToNumber "1e-400" = pos_zero ∧ StringToNumber "5e3" = Fin false 5 3 ∧
  StringToNumber "1e" = NaN ∧ StringToNumber "." = NaN ∧
  StringToNumber ".5" = Fin false 5 (-1).
Proof. vm_compute. repeat split. Qed.

Example Number_toString_ex :
  Number_toString (Fin false 125 (-1)) = "12.5" ∧ Number_toString (Fin true 5 3) = "-5000" ∧
  Number_toString (Fin false 1 21) = "1e+21" ∧ Number_toString (Fin false 15 (-8)) = "1.5e-7" ∧
  Number_toString (Fin false 1 (-6)) = "0.000001" ∧ Number_toString (Fin false 120 0) = "120" ∧
  Number_toString (Fin true 0 0) = "0".
Proof. vm_compute. repeat split. Qed.

Example Number_toLocaleString_ex :
  Number_toLocaleString_enIN 2 (Fin false 1234567891 (-3)) = "12,34,567.89" ∧
  Number_toLocaleString_enIN 2 (Fin false 1005 (-3)) = "1.01" ∧
  Number_toLocaleString_enIN 2 (Fin false 15 (-1)) = "1.5" ∧
  Number_toLocaleString_enIN 2 (Fin false 100000 0) = "1,00,000" ∧
  Number_toLocaleString_enIN 2 (Fin false 1 3) = "1,000" ∧
  Number_toLocaleString_enIN 2 (Fin false 999 0) = "999" ∧
  Number_toLocaleString_enIN 2 (Fin true 1 (-3)) = "-0" ∧
  Number_toLocaleString_enIN 2 (Fin false 7 (-2)) = "0.07" ∧
  Number_toLocaleString_enIN 2 (Fin false 1 7) = "1,00,00,000".
Proof. vm_compute. repeat split. Qed.

Example JSON_parse_ex :
  JSON_parse ("{" +:+ quoted "reportType" +:+ ":" +:+ quoted "single" +:+ ", "
                +:+ quoted "n" +:+ ": [1, -2.50e1, null, true]}")
  = Some (JObj [("reportType", JStr "single");
                ("n", JArr [JNum (Fin false 1 0); JNum (Fin true 25 0); JNull; JBool true])]) ∧
  JSON_parse "{bad" = None ∧ JSON_parse "" = None ∧ JSON_parse "null" = Some JNull ∧
  JSON_parse " 012" = None ∧ JSON_parse "[1,]" = None ∧
  JSON_parse "[[[]]]" = Some (JArr [JArr [JArr []]]) ∧
  JSON_parse ("{" +:+ quoted "b" +:+ ":1," +:+ quoted "2" +:+ ":2," +:+ quoted "1" +:+ ":3,"
                +:+ quoted "b" +:+ ":4}")
  = Some (JObj [("1", JNum (Fin false 3 0)); ("2", JNum (Fin false 2 0));
                ("b", JNum (Fin false 4 0))]) ∧
  JSON_parse "1e999" = Some (JNum (Inf false)) ∧ JSON_parse "nul" = None ∧
  JSON_parse "true false" = None.
Proof. vm_compute. repeat split. Qed.

Example JSON_stringify_ex :
  JSON_stringify
    (JObj [("a", JUndefined); ("b", JArr [JUndefined; JNum NaN; JStr "x"]);
           ("c", JNum (Fin false 125 (-1)))])
  = Some ("{" +:+ quoted "b" +:+ ":[null,null," +:+ quoted "x" +:+ "]," +:+ quoted "c"
              +:+ ":12.5}").
Proof. vm_compute. reflexivity. Qed.

(** ** Full-mode category resolution *)


Lemma getv_falsy (v : jsval) (k : string) : ToBoolean v = false → getv v k = JUndefined.
Proof. destruct v; simpl; try reflexivity; discriminate. Qed.

Lemma getCategoryItems_scan (results : jsval) (keys : list string) :
  ToBoolean results = true →
  getCategoryItems results keys = resolveCategory_spec results keys.
Proof.
  intros Ht. unfold getCategoryItems, resolveCategory_spec. rewrite Ht. simpl.
  induction keys as [|key rest IH]; simpl; [reflexivity|].
  destruct (getv results key) as [| | | | |[|x l]| |] eqn:E; simpl; try exact IH.
  rewrite E. reflexivity.
Qed.

Lemma resolveCategory_spec_falsy (results : jsval) (keys : list string) :
  ToBoolean results = false → resolveCategory_spec results keys = [].
Proof.
  intros Hf. unfold resolveCategory_spec.
  induction keys as [|key rest IH]; simpl; [reflexivity|].
  rewrite (getv_falsy _ _ Hf). simpl. exact IH.
Qed.

(** C1 (amended).  For every response, the items of a category are those of
    the first alias of its list, in list order, whose value is a non-empty
    array, and the empty list when no alias has one; every section of the
    page is resolved this way from its own alias list.  For the response
    [{gold_etf: [x], gold: [y]}] the Gold ETFs bucket is [[y]]: [gold]
    comes before [gold_etf] in the alias list, whatever the key order. *)
Theorem getCategoryItems_first_alias :
  (∀ (response : jsval) (aliases : list string),
     getCategoryItems response aliases = resolveCategory_spec response aliases) ∧
  (∀ response : jsval,
     recommendationSections response =
     map (λ config, (config, resolveCategory_spec response (keys config))) categoryConfigs) ∧
  (∀ x y : jsval,
     sectionItems (JObj [("gold_etf", JArr [x]); ("gold", JArr [y])]) "Gold ETFs" = Some [y]).
Proof.
  assert (H : ∀ response aliases,
             getCategoryItems response aliases = resolveCategory_spec response aliases).
  { intros response aliases. destruct (ToBoolean response) eqn:Ht.
    - by apply getCategoryItems_scan.
    - rewrite resolveCategory_spec_falsy by done.
      unfold getCategoryItems. by rewrite Ht. }
  split; [exact H|]. split.
  - intros response. unfold recommendationSections.
    apply map_ext. intros config. by rewrite H.
  - intros x y. reflexivity.
Qed.

(** C1, as stated, fails: with [x = "x"] and [y = "y"], the bucket of
    [{gold_etf: [x], gold: [y]}] is [[y]], not [[x]]. *)
Lemma gold_bucket_follows_alias_order :
  sectionItems (JObj [("gold_etf", JArr [JStr "x"]); ("gold", JArr [JStr "y"])]) "Gold ETFs"
    = Some [JStr "y"] ∧
  sectionItems (JObj [("gold_etf", JArr [JStr "x"]); ("gold", JArr [JStr "y"])]) "Gold ETFs"
    ≠ Some [JStr "x"].
Proof. split; [reflexivity | discriminate]. Qed.

(** ** parseOptionalNumber *)

Lemma parseOptionalNumber_string (s : string) :
  parseOptionalNumber (JStr s) =
  Ok (if String.eqb s "" then JUndefined
      else if isNaN (StringToNumber s) then JUndefined
      else JNum (StringToNumber s)).
Proof.
  unfold parseOptionalNumber. simpl. destruct (String.eqb s ""); reflexivity.
Qed.

(** C4 (amended).  [parseOptionalNumber] maps the empty string, [null] and
    [undefined] to absent.  Every other value is converted by [Number]: it
    gives absent exactly when the conversion is NaN, and the converted
    number otherwise, so ["0"] gives the number 0 and a string that
    converts to an infinity gives that infinity.  It returns on every
    string, number and boolean, on [null] and on [undefined]; on an object
    or an array it returns exactly when [Number] does, which throws when
    the value cannot be converted to a primitive. *)
Theorem parseOptionalNumber_absent_iff_NaN :
  parseOptionalNumber (JStr "") = Ok JUndefined ∧
  parseOptionalNumber JNull = Ok JUndefined ∧
  parseOptionalNumber JUndefined = Ok JUndefined ∧
  (∀ s : string,
     parseOptionalNumber (JStr s) =
     Ok (if String.eqb s "" then JUndefined
         else if isNaN (StringToNumber s) then JUndefined
         else JNum (StringToNumber s))) ∧
  parseOptionalNumber (JStr "abc") = Ok JUndefined ∧
  parseOptionalNumber (JStr "0") = Ok (JNum pos_zero) ∧
  parseOptionalNumber (JStr "1e999") = Ok (JNum (Inf false)) ∧
  (∀ (v : jsval) (x : jsnum),
     is_nullish v = false → v ≠ JStr "" → ToNumber v = Ok x →
     parseOptionalNumber v = Ok (if isNaN x then JUndefined else JNum x)) ∧
  (∀ v : jsval, returns (parseOptionalNumber v) = returns (ToNumber v)) ∧
  (∀ v : jsval,
     match v with
     | JArr _ | JObj _ | JNative _ => True
     | _ => returns (parseOptionalNumber v) = true
     end).
Proof.
  split; [reflexivity|]. split; [reflexivity|]. split; [reflexivity|].
  split; [exact parseOptionalNumber_string|].
  split; [reflexivity|]. split; [reflexivity|]. split; [vm_compute; reflexivity|].
  split; [|split].
  - intros v x Hn He Hx. unfold parseOptionalNumber.
    assert (Hs : is_string v "" = false).
    { destruct v as [| | | |s| | |]; try reflexivity. cbn [is_string].
      apply String.eqb_neq. congruence. }
    rewrite Hs, Hx. destruct v; try discriminate; reflexivity.
  - intros v. unfold parseOptionalNumber.
    destruct v as [| |b|x|s|l|ps|f]; try reflexivity.
    + destruct (is_string (JStr s) ""); reflexivity.
    + cbn [is_string]. destruct (ToNumber (JArr l)); reflexivity.
    + cbn [is_string]. destruct (ToNumber (JObj ps)); reflexivity.
  - intros v. destruct v as [| |b|x|s|l|ps|f]; try reflexivity; try exact I.
    rewrite parseOptionalNumber_string. destruct (String.eqb s ""); reflexivity.
Qed.

(** C4, as stated, fails twice.  The string ["Infinity"] does not parse to
    a finite number, and it is not mapped to absent; and the function is
    not total: on an object that has an own [toString] property, as JSON
    can carry it, [Number] throws.  A stored profile with such a value
    under [monthlyIncome] gets the page as far as the payload, where the
    call throws before any request is sent and leaves the loading flag
    set. *)
Lemma parseOptionalNumber_Infinity_and_throw :
  isFinite (StringToNumber "Infinity") = false ∧
  parseOptionalNumber (JStr "Infinity") = Ok (JNum (Inf false)) ∧
  parseOptionalNumber (JStr "Infinity") ≠ Ok JUndefined ∧
  parseOptionalNumber (JObj [("toString", num 1)])
    = Throw (TypeError "Cannot convert object to primitive value") ∧
  let stored :=
    "{" +:+ quoted "age" +:+ ":30," +:+ quoted "investmentAmount" +:+ ":50000,"
        +:+ quoted "riskPreference" +:+ ":" +:+ quoted "Medium" +:+ ","
        +:+ quoted "monthlyIncome" +:+ ":{" +:+ quoted "toString" +:+ ":1}}" in
  match mount (λ _, Resolved true "{}") "http://localhost:8000"
          (<["mandatoryDetails" := stored]> ∅) with
  | Ok (st', redirect, sent) => (recommendationLoading st', redirect, sent)
  | Throw _ => (false, None, None)
  end
  = (true, None, Some (Throw (TypeError "Cannot convert object to primitive value"))).
Proof.
  split; [vm_compute; reflexivity|]. split; [vm_compute; reflexivity|].
  split; [vm_compute; discriminate|]. split; [reflexivity|].
  vm_compute. reflexivity.
Qed.

(** ** buildExplanation *)

(** For a risk value that names a member every object inherits, the
    lookup in [riskNarratives] reaches that member, which is not nullish:
    the default clause is not used. *)
Lemma buildExplanation_inherited_key :
  riskPreference (withUserDetails (JObj [("riskPreference", JStr "constructor")]))
    = JStr "constructor" ∧
  buildExplanation (JStr "constructor") "Gold ETFs" JUndefined
    = Ok (JStr "Gold ETFs are selected to function Object() { [native code] }") ∧
  Forall (λ sentence,
            buildExplanation (JStr "constructor") "Gold ETFs" JUndefined ≠ Ok sentence)
    (narrative_sentences "Gold ETFs").
Proof.
  split; [reflexivity|]. split; [reflexivity|].
  unfold narrative_sentences. cbn [map].
  repeat constructor; vm_compute; discriminate.
Qed.

(** Risk values that are own keys of [riskNarratives], and those that are
    neither own nor inherited. *)
Lemma buildExplanation_narratives (categoryLabel : string) :
  buildExplanation (JStr "Low") categoryLabel JUndefined
    = Ok (JStr (categoryLabel +:+ " are selected to "
                  +:+ "prioritize stability, capital protection, and steady income.")) ∧
  buildExplanation (JStr "Medium") categoryLabel JUndefined
    = Ok (JStr (categoryLabel +:+ " are selected to "
                  +:+ "balance long-term growth with reasonable stability.")) ∧
  buildExplanation (JStr "High") categoryLabel JUndefined
    = Ok (JStr (categoryLabel +:+ " are selected to "
                  +:+ "maximize long-term growth even if short-term volatility increases.")) ∧
  ∀ risk : string,
    risk ≠ "Low" → risk ≠ "Medium" → risk ≠ "High" → inherited risk = false →
    buildExplanation (JStr risk) categoryLabel JUndefined
      = Ok (JStr (categoryLabel +:+ " are selected to " +:+ defaultNarrative)).
Proof.
  repeat split; try reflexivity.
  intros risk HL HM HH Hinh. unfold buildExplanation, riskNarratives, getv.
  cbn [ToBoolean ToString mbind result_bind own_property].
  apply String.eqb_neq in HL, HM, HH.
  rewrite String.eqb_sym in HL. rewrite String.eqb_sym in HM. rewrite String.eqb_sym in HH.
  rewrite HL, HM, HH. unfold inherited in Hinh.
  destruct (Object_prototype risk); [discriminate|]. reflexivity.
Qed.







(** ** buildSingleItemExplanation *)

Lemma pushIfNumber_fragment (extras : jsval) (k before after : string) (parts : list string) :
  pushIfNumber (getv extras k) before after parts
  = parts ++ option_list (metricFragment_spec extras (k, (before, after))).
Proof.
  unfold pushIfNumber, metricFragment_spec, push. simpl.
  destruct (getv extras k); simpl; try (symmetry; apply app_nil_r); reflexivity.
Qed.

Lemma omap_cons_app {A B} (f : A → option B) (x : A) (l : list A) :
  omap f (x :: l) = option_list (f x) ++ omap f l.
Proof. simpl. destruct (f x); reflexivity. Qed.

Lemma explanation_of_parts (parts : list string) :
  (if nonempty parts then JStr (join bullet parts) else JUndefined)
  = match parts with [] => JUndefined | _ => JStr (join bullet parts) end.
Proof. destruct parts; reflexivity. Qed.

Lemma buildSingleItemExplanation_refines (item : jsval) :
  buildSingleItemExplanation item = explanation_spec item.
Proof.
  unfold buildSingleItemExplanation, explanation_spec, returnFragment_spec,
    extraFragments_spec, extraMetricLabels.
  rewrite !omap_cons_app. simpl omap. rewrite app_nil_r.
  set (extras := or_else (optGet item "extra_metrics") (JObj [])).
  set (r5 := nullish_or (optGet item "5y_return") (optGet item "return_5yr")).
  set (r3 := nullish_or (optGet item "3y_return") (optGet item "return_3yr")).
  destruct (ToBoolean r5); [destruct (ToString r5)|
    destruct (ToBoolean r3); [destruct (ToString r3)|]];
    cbn [mbind result_bind option_list]; try reflexivity;
    rewrite !pushIfNumber_fragment, explanation_of_parts, <- !app_assoc;
    unfold push; cbn [app option_list]; try reflexivity.
  match goal with |- Ok (match ?l with _ => _ end) = _ => destruct l; reflexivity end.
Qed.

Lemma join_nonempty (sep first : string) (others : list string) :
  first ≠ "" → join sep (first :: others) ≠ "".
Proof.
  intros Hne. destruct first as [|c s]; [done|].
  destruct others; simpl; discriminate.
Qed.

Lemma metricFragment_nonempty (extras : jsval) (entry : string * (string * string)) (s : string) :
  fst (snd entry) ≠ "" → metricFragment_spec extras entry = Some s → s ≠ "".
Proof.
  unfold metricFragment_spec. intros Hne.
  destruct (getv extras (fst entry)); try discriminate.
  intros [= <-]. destruct (fst (snd entry)); [done|discriminate].
Qed.

Lemma extraFragments_nonempty (item : jsval) :
  Forall (λ s, s ≠ "") (extraFragments_spec item).
Proof.
  unfold extraFragments_spec.
  set (extras := or_else _ _).
  assert (Hlabels : Forall (λ entry, fst (snd entry) ≠ "") extraMetricLabels).
  { unfold extraMetricLabels. repeat constructor; discriminate. }
  induction Hlabels as [|entry rest Hentry _ IH]; simpl; [constructor|].
  destruct (metricFragment_spec extras entry) eqn:E; [|exact IH].
  constructor; [|exact IH]. by eapply metricFragment_nonempty.
Qed.

Lemma returnFragment_nonempty (item : jsval) (s : string) :
  returnFragment_spec item = Ok (Some s) → s ≠ "".
Proof.
  unfold returnFragment_spec.
  repeat match goal with
         | |- context [if ?b then _ else _] => destruct b
         | |- context [ToString ?v] => destruct (ToString v); cbn [mbind result_bind]
         end; intros [= <-] || discriminate; discriminate.
Qed.

(** C9.  For every top item the built explanation is the one the
    specification describes: the 5-year return when it is set, else the
    3-year return when it is set (never both), then a labelled fragment for
    each of yield, expense ratio, consistency, volatility, duration and
    beta, in this order, only when its value is a number, all joined with
    the separator [" • "] (a space, the three bytes of the bullet U+2022,
    a space): a single fragment stands alone, and two or more have the
    separator between each two.  When no fragment applies the result is
    [undefined]; it is never the empty string. *)
Theorem buildSingleItemExplanation_fragments :
  (∀ item : jsval, buildSingleItemExplanation item = explanation_spec item) ∧
  (∀ item : jsval,
     returnFragment_spec item = Ok None → extraFragments_spec item = [] →
     buildSingleItemExplanation item = Ok JUndefined) ∧
  (∀ item : jsval, buildSingleItemExplanation item ≠ Ok (JStr "")) ∧
  (∀ (item : jsval) (first : option string) (only : string),
     returnFragment_spec item = Ok first →
     option_list first ++ extraFragments_spec item = [only] →
     buildSingleItemExplanation item = Ok (JStr only)) ∧
  (∀ (item : jsval) (first : option string) (a b : string) (others : list string),
     returnFragment_spec item = Ok first →
     option_list first ++ extraFragments_spec item = a :: b :: others →
     buildSingleItemExplanation item
     = Ok (JStr (a +:+ " • " +:+ join " • " (b :: others)))) ∧
  map N_of_ascii (chars bullet) = [32; 226; 128; 162; 32]%N.
Proof.
  split; [exact buildSingleItemExplanation_refines|]. split; [|split; [|split; [|split]]].
  - intros item Hr He. rewrite buildSingleItemExplanation_refines.
    unfold explanation_spec. rewrite Hr, He. reflexivity.
  - intros item. rewrite buildSingleItemExplanation_refines. unfold explanation_spec.
    destruct (returnFragment_spec item) as [[s|]|e] eqn:Hr; cbn [mbind result_bind];
      [| |discriminate].
    + cbn [option_list app]. intros [= H]. revert H.
      apply join_nonempty. by eapply returnFragment_nonempty.
    + cbn [option_list app].
      pose proof (extraFragments_nonempty item) as Hall.
      destruct (extraFragments_spec item) as [|s rest]; [discriminate|].
      intros [= H]. revert H. apply join_nonempty. by inversion Hall.
  - intros item first only Hr Hfragments. rewrite buildSingleItemExplanation_refines.
    unfold explanation_spec. rewrite Hr. cbn [mbind result_bind].
    rewrite Hfragments. reflexivity.
  - intros item first a b others Hr Hfragments.
    rewrite buildSingleItemExplanation_refines.
    unfold explanation_spec. rewrite Hr. cbn [mbind result_bind].
    rewrite Hfragments. reflexivity.
  - reflexivity.
Qed.

(** An item with a 5-year and a 3-year return, a yield, a beta and a
    volatility that is not a number: three fragments, the separator
    between each two. *)
Lemma buildSingleItemExplanation_witness :
  buildSingleItemExplanation
    (JObj [("name", JStr "Fund A"); ("5y_return", JNum (Fin false 125 (-1)));
           ("3y_return", JNum (Fin false 9 0));
           ("extra_metrics",
            JObj [("beta", JNum (Fin false 11 (-1))); ("yield", JNum (Fin false 7 0));
                  ("volatility", JStr "low")])])
  = Ok (JStr "5Y CAGR 12.5% • Yield 7% • Beta 1.1").
Proof.
  apply (proj1 (proj2 (proj2 (proj2 (proj2 buildSingleItemExplanation_fragments))))
           _ (Some "5Y CAGR 12.5%") "5Y CAGR 12.5%" "Yield 7%" ["Beta 1.1"]);
    vm_compute; reflexivity.
Defined.

Example buildSingleItemExplanation_ex :
  buildSingleItemExplanation
    (JObj [("name", JStr "Fund A"); ("5y_return", JNum (Fin false 125 (-1)));
           ("3y_return", JNum (Fin false 9 0));
           ("extra_metrics",
            JObj [("beta", JNum (Fin false 11 (-1))); ("yield", JNum (Fin false 7 0));
                  ("volatility", JStr "low")])])
  = Ok (JStr "5Y CAGR 12.5% • Yield 7% • Beta 1.1") ∧
  buildSingleItemExplanation
    (JObj [("5y_return", JNum pos_zero); ("return_3yr", JStr "9.5")])
  = Ok (JStr "3Y CAGR 9.5%").
Proof. vm_compute. split; reflexivity. Qed.

(** ** formatSingleMetricValue *)

Lemma mapM_entries (ps : list (string * jsval)) :
  mapM (λ '(key, val), text ← ToString val; Ok (key +:+ ": " +:+ text)) ps
  = (texts ← mapM ToString (map snd ps);
     Ok (zip_with (λ key text, key +:+ ": " +:+ text) (map fst ps) texts)).
Proof.
  induction ps as [|[k v] r IH]; [reflexivity|].
  cbn [mapM map fst snd mbind result_bind].
  destruct (ToString v) as [t|e]; [|reflexivity].
  change (result_bind _ _ ?f ?m) with (mbind f m). rewrite IH.
  cbn [mbind result_bind].
  destruct (mapM ToString (map snd r)); reflexivity.
Qed.

Lemma formatSingleMetricValue_object (value : jsval) :
  typeof value = "object" → value ≠ JNull →
  formatSingleMetricValue value
  = (texts ← entryTexts value; Ok (JStr (join ", " (entryPairs value texts)))).
Proof.
  intros Ht Hn. unfold entryTexts, entryPairs.
  destruct value; try discriminate; try done; unfold formatSingleMetricValue;
    rewrite mapM_entries; cbn [mbind result_bind];
    destruct (mapM ToString _); reflexivity.
Qed.

Lemma string_of_uint_not_point (d : Decimal.uint) :
  Forall not_point (chars (NilEmpty.string_of_uint d)).
Proof. induction d; simpl; constructor; done. Qed.

Lemma digits_of_N_not_point (n : N) : Forall not_point (digits_of_N n).
Proof.
  unfold digits_of_N, NilZero.string_of_uint.
  destruct (N.to_uint n) eqn:E; try (rewrite <- E; apply string_of_uint_not_point).
  repeat constructor.
Qed.

Lemma group_twos_not_point (rds : list ascii) :
  Forall not_point rds → Forall not_point (group_twos rds).
Proof.
  assert (H : ∀ n (l : list ascii), length l ≤ n → Forall not_point l →
                Forall not_point (group_twos l)).
  { induction n as [|n IH]; intros l Hlen Hall.
    - destruct l; [constructor|simpl in Hlen; lia].
    - destruct l as [|a [|b [|c r]]]; try done.
      change (group_twos (a :: b :: c :: r))
        with (a :: b :: ","%char :: group_twos (c :: r)).
      inversion Hall as [|? ? Ha Hall1]; subst.
      inversion Hall1 as [|? ? Hb Hall2]; subst.
      repeat constructor; try done.
      apply IH; [simpl in *; lia|done]. }
  apply (H (length rds)). lia.
Qed.

Lemma group_indian_not_point (ds : list ascii) :
  Forall not_point ds → Forall not_point (group_indian ds).
Proof.
  intros Hall. unfold group_indian.
  assert (Hrev : Forall not_point (rev ds)) by (by apply Forall_rev).
  destruct (rev ds) as [|a [|b [|c [|d r]]]]; try done.
  apply Forall_rev.
  inversion Hrev as [|? ? Ha H1]; subst. inversion H1 as [|? ? Hb H2]; subst.
  inversion H2 as [|? ? Hc H3]; subst.
  repeat constructor; try done. by apply group_twos_not_point.
Qed.

Lemma after_point_app (pre rest : list ascii) :
  Forall not_point pre → after_point (pre ++ rest) = after_point rest.
Proof.
  induction 1 as [|c r Hc _ IH]; [reflexivity|].
  simpl. unfold not_point in Hc. rewrite Hc. exact IH.
Qed.

Lemma after_point_none (cs : list ascii) : Forall not_point cs → after_point cs = None.
Proof.
  intros H. rewrite <- (app_nil_r cs). by rewrite after_point_app.
Qed.

Lemma drop_zero_chars_length (cs : list ascii) : length (drop_zero_chars cs) ≤ length cs.
Proof.
  induction cs as [|c r IH]; simpl; [lia|]. destruct (Ascii.eqb c "0"); simpl; lia.
Qed.

Lemma strip_trailing_zero_chars_length (cs : list ascii) :
  length (strip_trailing_zero_chars cs) ≤ length cs.
Proof.
  unfold strip_trailing_zero_chars. rewrite length_rev.
  etransitivity; [apply drop_zero_chars_length|]. by rewrite length_rev.
Qed.

Lemma fixed_digits_length (k : nat) (f : N) : length (fixed_digits k f) = k.
Proof. induction k; simpl; congruence. Qed.

Lemma chars_str (cs : list ascii) : chars (str cs) = cs.
Proof. apply list_ascii_of_string_of_list_ascii. Qed.

Lemma toLocaleString_fraction_digits (maxFrac : N) (x : jsnum) :
  fraction_digits (Number_toLocaleString_enIN maxFrac x) ≤ N.to_nat maxFrac.
Proof.
  destruct x as [|neg|neg m e]; unfold fraction_digits.
  - simpl. lia.
  - destruct neg; simpl; lia.
  - unfold Number_toLocaleString_enIN, locale_parts. rewrite chars_str.
    set (ip := group_indian _). set (fd := strip_trailing_zero_chars _).
    assert (Hip : Forall not_point (sign_prefix neg ++ ip)).
    { apply Forall_app. split.
      - destruct neg; repeat constructor.
      - apply group_indian_not_point, digits_of_N_not_point. }
    assert (Hfd : length fd ≤ N.to_nat maxFrac).
    { unfold fd. etransitivity; [apply strip_trailing_zero_chars_length|].
      by rewrite fixed_digits_length. }
    unfold with_fraction. destruct fd as [|c r] eqn:Efd.
    + rewrite after_point_none by done. lia.
    + rewrite app_assoc, after_point_app by done. simpl. simpl in Hfd. lia.
Qed.

(** C10 (amended).  [formatSingleMetricValue] renders [null] and
    [undefined] as ['NA'], a number through the en-IN locale format with at
    most two fraction digits, an object or array as its ['key: value'] pairs
    joined by [', '], and returns any other value unchanged.  It returns
    normally exactly when the values of the entries of an object or array
    argument convert to strings; a nested object with an own [toString]
    property makes that conversion, and so the formatter, throw. *)
Theorem formatSingleMetricValue_cases :
  (∀ value : jsval,
     formatSingleMetricValue value =
     match value with
     | JNull | JUndefined => Ok (JStr "NA")
     | JNum x => Ok (JStr (Number_toLocaleString_enIN 2 x))
     | JArr _ | JObj _ =>
         texts ← entryTexts value; Ok (JStr (join ", " (entryPairs value texts)))
     | _ => Ok value
     end) ∧
  (∀ x : jsnum, fraction_digits (Number_toLocaleString_enIN 2 x) ≤ 2) ∧
  (∀ value : jsval,
     returns (formatSingleMetricValue value) = returns (entryTexts value)).
Proof.
  assert (H : ∀ value : jsval,
     formatSingleMetricValue value =
     match value with
     | JNull | JUndefined => Ok (JStr "NA")
     | JNum x => Ok (JStr (Number_toLocaleString_enIN 2 x))
     | JArr _ | JObj _ =>
         texts ← entryTexts value; Ok (JStr (join ", " (entryPairs value texts)))
     | _ => Ok value
     end).
  { intros value.
    destruct value; try reflexivity; by apply formatSingleMetricValue_object. }
  split; [exact H|]. split.
  - intros x. apply (toLocaleString_fraction_digits 2).
  - intros value. rewrite H.
    destruct value; try reflexivity;
      destruct (entryTexts _); reflexivity.
Qed.

(** C10, as stated, fails: the metric [{"ratio": {"toString": 1}}], which
    [JSON.parse] produces from the text of a response, makes the formatter
    throw. *)
Lemma formatSingleMetricValue_throws :
  JSON_parse ("{" +:+ quoted "ratio" +:+ ": {" +:+ quoted "toString" +:+ ": 1}}")
    = Some (JObj [("ratio", JObj [("toString", JNum (Fin false 1 0))])]) ∧
  formatSingleMetricValue (JObj [("ratio", JObj [("toString", JNum (Fin false 1 0))])])
    = Throw (TypeError "Cannot convert object to primitive value").
Proof. vm_compute. split; reflexivity. Qed.

Example formatSingleMetricValue_ex :
  formatSingleMetricValue (JNum (Fin false 1234567891 (-3))) = Ok (JStr "12,34,567.89") ∧
  formatSingleMetricValue (JObj [("min", JNum (Fin false 5 (-1))); ("max", JStr "high")])
    = Ok (JStr "min: 0.5, max: high") ∧
  formatSingleMetricValue (JArr [JStr "a"; JNull]) = Ok (JStr "0: a, 1: null") ∧
  formatSingleMetricValue (JStr "steady") = Ok (JStr "steady") ∧
  formatSingleMetricValue (JBool true) = Ok (JBool true).
Proof. vm_compute. repeat split. Qed.

(** ** The request payload *)

Lemma JSON_serialize_object (ps : list (string * jsval)) :
  JSON_serialize (JObj ps) = Some (JObj (serialize_members ps)).
Proof.
  cbn [JSON_serialize]. do 2 f_equal.
  induction ps as [|[k x] r IH]; [reflexivity|].
  unfold serialize_members. cbn [omap list_omap fst snd].
  destruct (JSON_serialize x); cbn [fmap option_fmap option_map]; by rewrite IH.
Qed.

Lemma own_property_absent (ps : list (string * jsval)) (k : string) :
  k ∉ map fst ps → own_property ps k = None.
Proof.
  induction ps as [|[k' x] r IH]; [reflexivity|].
  cbn [map fst own_property]. intros Hnot.
  apply not_elem_of_cons in Hnot as [Hne Hnot].
  destruct (String.eqb k' k) eqn:E; [apply String.eqb_eq in E; congruence|].
  by apply IH.
Qed.

Lemma serialize_members_keys (ps : list (string * jsval)) (k : string) :
  k ∉ map fst ps → k ∉ map fst (serialize_members ps).
Proof.
  induction ps as [|[k' x] r IH]; [done|].
  cbn [map fst]. intros Hnot. apply not_elem_of_cons in Hnot as [Hne Hnot].
  unfold serialize_members. cbn [omap list_omap fst snd].
  destruct (JSON_serialize x); cbn [fmap option_fmap option_map map fst].
  - apply not_elem_of_cons. split; [done|by apply IH].
  - by apply IH.
Qed.

Lemma own_property_serialized (ps : list (string * jsval)) (k : string) :
  NoDup (map fst ps) →
  own_property (serialize_members ps) k = own_property ps k ≫= JSON_serialize.
Proof.
  induction ps as [|[k' x] r IH]; [reflexivity|].
  cbn [map fst]. intros Hnd. apply NoDup_cons in Hnd as [Hk' Hnd].
  unfold serialize_members. cbn [omap list_omap fst snd own_property].
  destruct (JSON_serialize x) as [y|] eqn:Ex;
    cbn [fmap option_fmap option_map own_property];
    destruct (String.eqb k' k) eqn:E.
  - cbn [mbind option_bind]. by rewrite Ex.
  - by apply IH.
  - apply String.eqb_eq in E. subst k'. cbn [mbind option_bind]. rewrite Ex.
    apply own_property_absent. by apply serialize_members_keys.
  - by apply IH.
Qed.

Lemma buildPayload_shape (details : jsval) (preference : ReportPreference) (payload : jsval) :
  buildPayload details preference = Ok payload →
  ∃ fields : list (string * jsval),
    map fst fields =
      ["age"; "investment_amount"; "risk_preference"; "monthly_income"; "savings";
       "time_horizon"; "experience_level"; "financial_goals"; "monthly_expenses"] ∧
    payload =
      JObj (fields ++
            [("report_type", JStr (ReportType_string (reportType preference)));
             ("investment_type", or_else (investmentType preference) JUndefined)]).
Proof.
  unfold buildPayload. intros H. do 9 bind_inv H.
  injection H as <-.
  eexists [(_, _); (_, _); (_, _); (_, _); (_, _); (_, _); (_, _); (_, _); (_, _)].
  split; reflexivity.
Qed.

Lemma request_field_payload (fields : list (string * jsval)) (rt it : jsval) (k : string) :
  map fst fields =
    ["age"; "investment_amount"; "risk_preference"; "monthly_income"; "savings";
     "time_horizon"; "experience_level"; "financial_goals"; "monthly_expenses"] →
  request_field (JObj (fields ++ [("report_type", rt); ("investment_type", it)])) k
  = own_property (fields ++ [("report_type", rt); ("investment_type", it)]) k
      ≫= JSON_serialize.
Proof.
  intros Hkeys. unfold request_field. rewrite JSON_serialize_object.
  apply own_property_serialized. rewrite map_app, Hkeys. cbn [map fst app].
  apply (bool_decide_unpack _). vm_compute. reflexivity.
Qed.

Lemma own_property_app_absent (ps qs : list (string * jsval)) (k : string) :
  k ∉ map fst ps → own_property (ps ++ qs) k = own_property qs k.
Proof.
  induction ps as [|[k' x] r IH]; [reflexivity|].
  cbn [map fst app own_property]. intros Hnot.
  apply not_elem_of_cons in Hnot as [Hne Hnot].
  destruct (String.eqb k' k) eqn:E; [apply String.eqb_eq in E; congruence|].
  by apply IH.
Qed.

(** C5 (amended).  In the request built from a profile and a preference,
    [report_type] is the preference's report type, and [investment_type]
    is the preference's investment type, carried verbatim, when that is
    not empty; the [investment_type] key is omitted exactly when the
    preference's investment type is empty (falsy), whatever the report
    type.  For the preference [{full, ''}] the request carries
    [report_type: 'full'] and no [investment_type] key. *)
Theorem payload_report_fields (details : jsval) (preference : ReportPreference)
    (payload : jsval) :
  buildPayload details preference = Ok payload →
  request_field payload "report_type"
    = Some (JStr (ReportType_string (reportType preference))) ∧
  request_field payload "investment_type"
    = (if ToBoolean (investmentType preference)
       then JSON_serialize (investmentType preference) else None) ∧
  (∀ s : string, investmentType preference = JStr s →
     request_field payload "investment_type"
       = if String.eqb s "" then None else Some (JStr s)).
Proof.
  intros H. apply buildPayload_shape in H as (fields & Hkeys & ->).
  assert (Hit : request_field
            (JObj (fields ++
               [("report_type", JStr (ReportType_string (reportType preference)));
                ("investment_type", or_else (investmentType preference) JUndefined)]))
            "investment_type"
          = (if ToBoolean (investmentType preference)
             then JSON_serialize (investmentType preference) else None)).
  { rewrite request_field_payload by done.
    rewrite own_property_app_absent.
    - cbn [own_property]. replace (String.eqb "report_type" "investment_type") with false
        by (vm_compute; reflexivity).
      rewrite String.eqb_refl. cbn [mbind option_bind]. unfold or_else.
      destruct (ToBoolean (investmentType preference)); reflexivity.
    - rewrite Hkeys. apply (bool_decide_unpack _). vm_compute. reflexivity. }
  split; [|split].
  - rewrite request_field_payload by done.
    rewrite own_property_app_absent.
    + cbn [own_property]. rewrite String.eqb_refl. reflexivity.
    + rewrite Hkeys. apply (bool_decide_unpack _). vm_compute. reflexivity.
  - exact Hit.
  - intros s Hs. rewrite Hit, Hs. cbn [ToBoolean JSON_serialize].
    destruct (String.eqb s ""); reflexivity.
Qed.

(** Scenario A: the preference [{full, ''}]. *)
Lemma payload_scenarioA :
  request_field
    (JObj [("age", num 30); ("investment_amount", num 50000);
           ("risk_preference", JStr "Medium"); ("monthly_income", JUndefined);
           ("savings", JUndefined); ("time_horizon", JUndefined);
           ("experience_level", JUndefined); ("financial_goals", JUndefined);
           ("monthly_expenses", JUndefined); ("report_type", JStr "full");
           ("investment_type", JUndefined)])
    "report_type" = Some (JStr "full") ∧
  request_field
    (JObj [("age", num 30); ("investment_amount", num 50000);
           ("risk_preference", JStr "Medium"); ("monthly_income", JUndefined);
           ("savings", JUndefined); ("time_horizon", JUndefined);
           ("experience_level", JUndefined); ("financial_goals", JUndefined);
           ("monthly_expenses", JUndefined); ("report_type", JStr "full");
           ("investment_type", JUndefined)])
    "investment_type" = None.
Proof.
  assert (H : buildPayload profileA defaultPreference
              = Ok (JObj [("age", num 30); ("investment_amount", num 50000);
                          ("risk_preference", JStr "Medium"); ("monthly_income", JUndefined);
                          ("savings", JUndefined); ("time_horizon", JUndefined);
                          ("experience_level", JUndefined); ("financial_goals", JUndefined);
                          ("monthly_expenses", JUndefined); ("report_type", JStr "full");
                          ("investment_type", JUndefined)]))
    by (vm_compute; reflexivity).
  destruct (payload_report_fields _ _ _ H) as (Hrt & Hit & _).
  split; [exact Hrt | exact Hit].
Defined.

(** C5, as stated, fails: choosing Single and the category [gold], then
    going back to Full, leaves the preference [{full, 'gold'}]; it passes
    validation, is persisted and loaded, and the request then carries
    [investment_type: 'gold'] although the report type is not Single. *)
Lemma investment_type_sent_in_full_mode :
  let chosen :=
    OptionalDetailsPage.handleReportPreferenceChange OptionalDetailsPage.key_reportType "full"
      (OptionalDetailsPage.handleReportPreferenceChange
         OptionalDetailsPage.key_investmentType "gold"
         (OptionalDetailsPage.handleReportPreferenceChange
            OptionalDetailsPage.key_reportType "single" OptionalDetailsPage.initial)) in
  let submitted :=
    OptionalDetailsPage.handleSubmit chosen
      {| OptionalDetailsPage.localStorage := ∅; OptionalDetailsPage.navigated := [] |} in
  let preference :=
    reportPreference
      (loadPreference (OptionalDetailsPage.localStorage (snd submitted)) initial) in
  preference = {| reportType := full; investmentType := JStr "gold" |} ∧
  sentField profileA preference "report_type" = Some (JStr "full") ∧
  sentField profileA preference "investment_type" = Some (JStr "gold").
Proof. vm_compute. repeat split. Qed.

(** ** Loading the persisted preference *)

Lemma readPreference_spec (text : string) :
  match readPreference text with
  | Ok p => p
  | Throw _ => defaultPreference
  end = loadedPreference_spec (Some text).
Proof.
  unfold readPreference, loadedPreference_spec, JSON_parse_or_throw, Get.
  destruct (JSON_parse text) as [parsed|]; cbn [mbind result_bind]; [|reflexivity].
  destruct (is_nullish parsed); reflexivity.
Qed.

Lemma loadPreference_recommendation (storage : gmap string string) :
  reportPreference (loadPreference storage initial)
  = loadedPreference_spec (stored_item storage "reportPreference").
Proof.
  unfold loadPreference.
  destruct (stored_item storage "reportPreference") as [text|]; [|reflexivity].
  rewrite <- readPreference_spec. destruct (readPreference text); reflexivity.
Qed.

Lemma loadPreference_optional (storage : gmap string string) :
  OptionalDetailsPage.reportPreference
    (OptionalDetailsPage.loadPreference storage OptionalDetailsPage.initial)
  = loadedPreference_spec (stored_item storage "reportPreference").
Proof.
  unfold OptionalDetailsPage.loadPreference.
  destruct (stored_item storage "reportPreference") as [text|]; [|reflexivity].
  rewrite <- readPreference_spec. destruct (readPreference text); reflexivity.
Qed.

(** C6 (amended).  On both pages the load returns, without throwing, the
    default [{full, ''}] when the persisted value is absent or is not
    parseable JSON, and also when it parses to [null] or to a value that has
    neither a [reportType] equal to ['single'] nor a non-empty
    [investmentType].  Otherwise each field falls back on its own: the
    report type is ['single'] exactly when the parsed [reportType] is
    ['single'] and ['full'] for any other value, and the investment type is
    the parsed [investmentType] when it is truthy and [''] when it is
    missing.  The load leaves the error state of either page as it was. *)
Theorem loadPreference_fail_soft :
  (∀ storage : gmap string string,
     reportPreference (loadPreference storage initial)
     = loadedPreference_spec (stored_item storage "reportPreference")) ∧
  (∀ storage : gmap string string,
     OptionalDetailsPage.reportPreference
       (OptionalDetailsPage.loadPreference storage OptionalDetailsPage.initial)
     = loadedPreference_spec (stored_item storage "reportPreference")) ∧
  (∀ storage : gmap string string,
     storage !! "reportPreference" = None →
     reportPreference (loadPreference storage initial) = defaultPreference) ∧
  (∀ (storage : gmap string string) (text : string),
     storage !! "reportPreference" = Some text → JSON_parse text = None →
     reportPreference (loadPreference storage initial) = defaultPreference) ∧
  (∀ (storage : gmap string string) (text : string) (parsed : jsval),
     storage !! "reportPreference" = Some text → JSON_parse text = Some parsed →
     is_string (getv parsed "reportType") "single" = false →
     ToBoolean (getv parsed "investmentType") = false →
     reportPreference (loadPreference storage initial) = defaultPreference) ∧
  (∀ (storage : gmap string string) (st : state),
     recommendationError (loadPreference storage st) = recommendationError st) ∧
  (∀ (storage : gmap string string) (st : OptionalDetailsPage.state),
     OptionalDetailsPage.reportError (OptionalDetailsPage.loadPreference storage st)
     = OptionalDetailsPage.reportError st).
Proof.
  split; [exact loadPreference_recommendation|].
  split; [exact loadPreference_optional|].
  split; [|split; [|split; [|split]]].
  - intros storage Hnone. rewrite loadPreference_recommendation.
    unfold stored_item. by rewrite Hnone.
  - intros storage text Hsome Hbad. rewrite loadPreference_recommendation.
    unfold stored_item. rewrite Hsome.
    destruct (String.eqb text ""); [reflexivity|].
    unfold loadedPreference_spec. by rewrite Hbad.
  - intros storage text parsed Hsome Hparsed Hrt Hit.
    rewrite loadPreference_recommendation.
    unfold stored_item. rewrite Hsome.
    destruct (String.eqb text ""); [reflexivity|].
    unfold loadedPreference_spec. rewrite Hparsed.
    destruct (is_nullish parsed); [reflexivity|].
    unfold or_else. by rewrite Hrt, Hit.
  - intros storage st. unfold loadPreference.
    destruct (stored_item storage "reportPreference") as [text|]; [|reflexivity].
    destruct (readPreference text); reflexivity.
  - intros storage st. unfold OptionalDetailsPage.loadPreference.
    destruct (stored_item storage "reportPreference") as [text|]; [|reflexivity].
    destruct (readPreference text); reflexivity.
Qed.

Lemma loadPreference_fail_soft_witness :
  reportPreference (loadPreference {[ "reportPreference" := "{not json" ]} initial)
    = defaultPreference ∧
  reportPreference (loadPreference ∅ initial) = defaultPreference ∧
  reportPreference
    (loadPreference
       {[ "reportPreference" := "{" +:+ quoted "reportType" +:+ ":" +:+ quoted "weekly" +:+ "}" ]}
       initial)
    = defaultPreference.
Proof.
  destruct loadPreference_fail_soft as (_ & _ & Habsent & Hbad & Hfields & _).
  split; [|split].
  - apply (Hbad _ "{not json"); [reflexivity | vm_compute; reflexivity].
  - apply Habsent. reflexivity.
  - eapply (Hfields _ _ (JObj [("reportType", JStr "weekly")]));
      [reflexivity | vm_compute; reflexivity | reflexivity | reflexivity].
Defined.

(** C6, as stated, fails: a stored preference with an unrecognised
    [reportType] and the category [gold] loads as [{full, 'gold'}], and one
    without [investmentType] loads as [{single, ''}]; neither is the
    default. *)
Lemma loadPreference_keeps_other_field :
  reportPreference
    (loadPreference
       {[ "reportPreference" :=
            "{" +:+ quoted "reportType" +:+ ":" +:+ quoted "weekly" +:+ ","
                +:+ quoted "investmentType" +:+ ":" +:+ quoted "gold" +:+ "}" ]}
       initial)
    = {| reportType := full; investmentType := JStr "gold" |} ∧
  reportPreference
    (loadPreference
       {[ "reportPreference" := "{" +:+ quoted "reportType" +:+ ":" +:+ quoted "single" +:+ "}" ]}
       initial)
    = {| reportType := single; investmentType := JStr "" |} ∧
  {| reportType := full; investmentType := JStr "gold" |} ≠ defaultPreference ∧
  {| reportType := single; investmentType := JStr "" |} ≠ defaultPreference.
Proof. vm_compute. repeat split; discriminate. Qed.

(** ** Validation of the preference *)

Lemma validate_fails_iff (st : OptionalDetailsPage.state) :
  fst (OptionalDetailsPage.validateReportPreference st) = false ↔
  reportType (OptionalDetailsPage.reportPreference st) = single ∧
  ToBoolean (investmentType (OptionalDetailsPage.reportPreference st)) = false.
Proof.
  unfold OptionalDetailsPage.validateReportPreference.
  destruct (reportType (OptionalDetailsPage.reportPreference st));
    [|destruct (ToBoolean (investmentType (OptionalDetailsPage.reportPreference st)))];
    simpl; split; try done; intros [? ?]; done.
Qed.

(** C7.  Validation fails exactly when the report type is ['single'] and
    the investment type is empty.  When it fails the message 'Please choose
    a category for the single-investment report.' is set and shown under
    the category select, and neither submit nor skip writes to storage or
    navigates, so no request follows; when it passes no message is left,
    and submit persists the preference and navigates to the recommendation
    page.  A message is left exactly when validation fails.
    [{single, ''}] fails, [{single, 'gold'}] passes, and [{full, x}] passes
    for every [x]. *)
Theorem validateReportPreference_gate :
  (∀ st : OptionalDetailsPage.state,
     fst (OptionalDetailsPage.validateReportPreference st) = false ↔
     reportType (OptionalDetailsPage.reportPreference st) = single ∧
     ToBoolean (investmentType (OptionalDetailsPage.reportPreference st)) = false) ∧
  (∀ (st : OptionalDetailsPage.state) (s : string),
     OptionalDetailsPage.reportPreference st
       = {| reportType := single; investmentType := JStr s |} →
     fst (OptionalDetailsPage.validateReportPreference st) = negb (String.eqb s "")) ∧
  (∀ (st : OptionalDetailsPage.state) (x : jsval),
     OptionalDetailsPage.reportPreference st
       = {| reportType := full; investmentType := x |} →
     fst (OptionalDetailsPage.validateReportPreference st) = true) ∧
  (∀ (st : OptionalDetailsPage.state) (w : OptionalDetailsPage.world),
     fst (OptionalDetailsPage.validateReportPreference st) = false →
     OptionalDetailsPage.reportError (snd (OptionalDetailsPage.validateReportPreference st))
       = "Please choose a category for the single-investment report." ∧
     OptionalDetailsPage.reportErrorLine (fst (OptionalDetailsPage.handleSubmit st w))
       = Some "Please choose a category for the single-investment report." ∧
     OptionalDetailsPage.reportErrorLine (fst (OptionalDetailsPage.handleSkip st w))
       = Some "Please choose a category for the single-investment report." ∧
     snd (OptionalDetailsPage.handleSubmit st w) = w ∧
     snd (OptionalDetailsPage.handleSkip st w) = w) ∧
  (∀ (st : OptionalDetailsPage.state) (w : OptionalDetailsPage.world),
     fst (OptionalDetailsPage.validateReportPreference st) = true →
     OptionalDetailsPage.reportError (fst (OptionalDetailsPage.handleSubmit st w)) = "" ∧
     OptionalDetailsPage.reportErrorLine (fst (OptionalDetailsPage.handleSubmit st w))
       = None ∧
     OptionalDetailsPage.navigated (snd (OptionalDetailsPage.handleSubmit st w))
       = OptionalDetailsPage.navigated w ++ ["/recommendation"] ∧
     OptionalDetailsPage.localStorage (snd (OptionalDetailsPage.handleSubmit st w))
       !! "reportPreference"
       = Some (default "undefined"
                 (JSON_stringify
                    (JObj [("reportType",
                            JStr (ReportType_string
                                    (reportType (OptionalDetailsPage.reportPreference st))));
                           ("investmentType",
                            investmentType (OptionalDetailsPage.reportPreference st))])))) ∧
  (∀ st : OptionalDetailsPage.state,
     OptionalDetailsPage.reportError (snd (OptionalDetailsPage.validateReportPreference st))
       ≠ "" ↔
     fst (OptionalDetailsPage.validateReportPreference st) = false).
Proof.
  split; [exact validate_fails_iff|]. split; [|split; [|split; [|split]]].
  - intros st s Hp. unfold OptionalDetailsPage.validateReportPreference. rewrite Hp.
    cbn [reportType investmentType ToBoolean]. destruct (String.eqb s ""); reflexivity.
  - intros st x Hp. unfold OptionalDetailsPage.validateReportPreference. rewrite Hp.
    reflexivity.
  - intros st w Hfail.
    unfold OptionalDetailsPage.handleSubmit, OptionalDetailsPage.handleSkip,
      OptionalDetailsPage.reportErrorLine.
    revert Hfail. unfold OptionalDetailsPage.validateReportPreference.
    destruct (reportType (OptionalDetailsPage.reportPreference st)) eqn:Ert;
      [discriminate|].
    destruct (ToBoolean (investmentType (OptionalDetailsPage.reportPreference st)));
      [discriminate|]. intros _.
    cbn [negb fst snd OptionalDetailsPage.setReportError
           OptionalDetailsPage.reportPreference OptionalDetailsPage.reportError].
    rewrite Ert. repeat split.
  - intros st w Hok.
    unfold OptionalDetailsPage.handleSubmit, OptionalDetailsPage.reportErrorLine.
    revert Hok. unfold OptionalDetailsPage.validateReportPreference.
    destruct (reportType (OptionalDetailsPage.reportPreference st)) eqn:Ert;
      [|destruct (ToBoolean (investmentType (OptionalDetailsPage.reportPreference st)));
        [|discriminate]];
      intros _; cbn [negb fst snd]; (split; [reflexivity|]);
      (split; [cbn [OptionalDetailsPage.setReportError
                      OptionalDetailsPage.reportPreference
                      OptionalDetailsPage.reportError]; rewrite Ert; reflexivity|]);
      (split; [reflexivity|]);
      unfold OptionalDetailsPage.navigate, OptionalDetailsPage.persistReportPreference,
        setItem_JSON; cbn [OptionalDetailsPage.localStorage
        OptionalDetailsPage.reportPreference OptionalDetailsPage.setReportError];
      rewrite lookup_insert_eq, ?Ert; reflexivity.
  - intros st. unfold OptionalDetailsPage.validateReportPreference.
    destruct (reportType (OptionalDetailsPage.reportPreference st));
      [|destruct (ToBoolean (investmentType (OptionalDetailsPage.reportPreference st)))];
      cbn [negb fst snd OptionalDetailsPage.setReportError
             OptionalDetailsPage.reportError]; split; try done.
Qed.

Lemma validateReportPreference_witness :
  let st := OptionalDetailsPage.setReportPreference
              {| reportType := single; investmentType := JStr "" |}
              OptionalDetailsPage.initial in
  let w := {| OptionalDetailsPage.localStorage := ∅; OptionalDetailsPage.navigated := [] |} in
  fst (OptionalDetailsPage.validateReportPreference st) = false ∧
  OptionalDetailsPage.reportErrorLine (fst (OptionalDetailsPage.handleSubmit st w))
    = Some "Please choose a category for the single-investment report." ∧
  snd (OptionalDetailsPage.handleSubmit st w) = w ∧
  fst (OptionalDetailsPage.validateReportPreference
         (OptionalDetailsPage.setReportPreference
            {| reportType := single; investmentType := JStr "gold" |}
            OptionalDetailsPage.initial)) = true.
Proof.
  intros st w.
  destruct validateReportPreference_gate as (Hiff & Hsingle & _ & Hfail & _).
  assert (Hf : fst (OptionalDetailsPage.validateReportPreference st) = false)
    by (apply Hiff; split; reflexivity).
  split; [exact Hf|]. split; [|split].
  - apply (Hfail st w Hf).
  - apply (Hfail st w Hf).
  - apply (Hsingle _ "gold"). reflexivity.
Defined.

(** ** fetchRecommendations *)

Lemma is_string_true (v : jsval) (lit : string) :
  is_string v lit = true ↔ v = JStr lit.
Proof.
  destruct v; simpl; try (split; [discriminate|intros [=]]).
  rewrite String.eqb_eq. split; [congruence|by intros [= ->]].
Qed.

Lemma fetchRecommendations_settles (network : request → fetch_outcome)
    (apiBaseUrl : string) (details : jsval) (preference : ReportPreference)
    (st : state) (payload : jsval) :
  buildPayload details preference = Ok payload →
  fetchRecommendations network apiBaseUrl details preference st
  = (fetchSettle (network (recommendRequest apiBaseUrl payload)) (fetchStart st),
     Ok (recommendRequest apiBaseUrl payload)).
Proof. intros H. unfold fetchRecommendations. by rewrite H. Qed.

(** The placeholder gate reads the stored profile only. *)
Lemma pastLoadingPlaceholder_userDetails (st1 st2 : state) :
  userDetails st1 = userDetails st2 →
  pastLoadingPlaceholder st1 = pastLoadingPlaceholder st2.
Proof.
  intros H. unfold pastLoadingPlaceholder, getDummyRecommendation. by rewrite H.
Qed.

Lemma pastLoadingPlaceholder_amount (st : state) :
  pastLoadingPlaceholder st = Ok true →
  ∃ amount : string, ToString (getv (userDetails st) "investmentAmount") = Ok amount.
Proof.
  unfold pastLoadingPlaceholder, getDummyRecommendation.
  destruct (ToBoolean (userDetails st)); cbn [negb mbind result_bind andb];
    [|discriminate].
  destruct (ToString (getv (userDetails st) "investmentAmount")) as [amount|];
    [by exists amount|discriminate].
Qed.

(** C2 (amended).  After every successful fetch the report mode is the one
    the response states: ['single'] exactly when its [report_type] is
    ['single'], ['full'] otherwise, whatever the preference sent with the
    request and whatever the state before.  The page then takes the
    single-mode branch exactly in the first case; it shows the single-mode
    section there only when the response also carries a truthy
    [single_report], and no report section at all when it does not.  The
    response has no part in the placeholder gate: a page that was held at
    'Loading...' stays there, and whatever the page shows besides is the
    placeholder or the page with the section just described. *)
Theorem server_report_type_decides_mode (network : request → fetch_outcome)
    (apiBaseUrl : string) (details : jsval) (preference : ReportPreference)
    (st : state) (payload : jsval) (text : string) (data : jsval) :
  buildPayload details preference = Ok payload →
  network (recommendRequest apiBaseUrl payload) = Resolved true text →
  JSON_parse text = Some data →
  let st' := fst (fetchRecommendations network apiBaseUrl details preference st) in
  reportMode st' = (if is_string (optGet data "report_type") "single" then single else full) ∧
  (reportMode st' = single ↔ optGet data "report_type" = JStr "single") ∧
  renderSection st'
  = (if is_string (optGet data "report_type") "single"
     then if ToBoolean (optGet data "single_report")
          then SingleRecommendationSection (optGet data "single_report")
          else NoSection
     else FullRecommendationSection) ∧
  pastLoadingPlaceholder st' = pastLoadingPlaceholder st ∧
  (pastLoadingPlaceholder st = Ok false → renderPage st' = Ok LoadingPlaceholder) ∧
  (∀ v : view,
     renderPage st' = Ok v →
     v = LoadingPlaceholder ∨ ∃ modeLine, v = Page modeLine (renderSection st')) ∧
  (∀ (r : string) (l : jsval),
     pastLoadingPlaceholder st = Ok true →
     getv (userDetails st) "riskPreference" = JStr r →
     optGet data "report_type" = JStr "single" →
     ToBoolean (optGet data "single_report") = true →
     modeLineLabel (optGet data "single_report") = Ok l →
     renderPage st'
     = Ok (Page (Some l) (SingleRecommendationSection (optGet data "single_report")))) ∧
  (∀ r : string,
     pastLoadingPlaceholder st = Ok true →
     getv (userDetails st) "riskPreference" = JStr r →
     optGet data "report_type" = JStr "single" →
     ToBoolean (optGet data "single_report") = false →
     renderPage st' = Ok (Page None NoSection)).
Proof.
  intros Hp Hnet Hparse st'. subst st'.
  rewrite (fetchRecommendations_settles _ _ _ _ _ _ Hp), Hnet.
  unfold fetchSettle, awaitData, JSON_parse_or_throw. rewrite Hparse.
  cbn [negb fst].
  set (st' := setRecommendationLoading false (onData data (fetchStart st))).
  assert (Hud : userDetails st' = userDetails st) by reflexivity.
  assert (Hmode : reportMode st'
                  = if is_string (optGet data "report_type") "single" then single else full)
    by reflexivity.
  assert (Hsingle : singleReportData st' = nullish_or (optGet data "single_report") JNull)
    by reflexivity.
  assert (Htruthy : ToBoolean (singleReportData st')
                    = ToBoolean (optGet data "single_report")).
  { rewrite Hsingle. unfold nullish_or.
    destruct (optGet data "single_report"); reflexivity. }
  assert (Hdata : ToBoolean (optGet data "single_report") = true →
                  singleReportData st' = optGet data "single_report").
  { rewrite Hsingle. unfold nullish_or.
    destruct (optGet data "single_report"); try discriminate; reflexivity. }
  assert (Hsection : renderSection st'
                     = if is_string (optGet data "report_type") "single"
                       then if ToBoolean (optGet data "single_report")
                            then SingleRecommendationSection (optGet data "single_report")
                            else NoSection
                       else FullRecommendationSection).
  { unfold renderSection, renderSingleRecommendationSection. rewrite Hmode, Htruthy.
    destruct (is_string (optGet data "report_type") "single"); [|reflexivity].
    destruct (ToBoolean (optGet data "single_report")) eqn:E; [|reflexivity].
    cbn [negb]. by rewrite Hdata. }
  assert (Hgate : pastLoadingPlaceholder st' = pastLoadingPlaceholder st)
    by (by apply pastLoadingPlaceholder_userDetails).
  split; [exact Hmode|]. split.
  { rewrite Hmode, <- is_string_true.
    destruct (is_string (optGet data "report_type") "single"); split; done. }
  split; [exact Hsection|]. split; [exact Hgate|]. split.
  { intros Hheld. unfold renderPage. rewrite Hgate, Hheld. reflexivity. }
  split.
  { intros v. unfold renderPage.
    destruct (pastLoadingPlaceholder st') as [[|]|]; cbn [mbind result_bind negb];
      [|intros [= <-]; by left|discriminate].
    destruct (toLowerCase_call _); cbn [mbind result_bind]; [|discriminate].
    destruct (ToString _); cbn [mbind result_bind]; [|discriminate].
    destruct (match reportMode st' with full => _ | single => _ end) as [modeLine|];
      cbn [mbind result_bind]; [|discriminate].
    intros [= <-]. right. by exists modeLine. }
  split.
  - intros r l Hpast Hr Htype Hreport Hlabel.
    destruct (pastLoadingPlaceholder_amount st Hpast) as [amount Hamount].
    unfold renderPage. rewrite Hgate, Hpast, Hud, Hr, Hamount.
    cbn [mbind result_bind negb toLowerCase_call].
    rewrite Hsection, Hmode, Htype. cbn [is_string String.eqb Ascii.eqb Bool.eqb].
    rewrite Htruthy, Hreport, (Hdata Hreport), Hlabel. reflexivity.
  - intros r Hpast Hr Htype Hreport.
    destruct (pastLoadingPlaceholder_amount st Hpast) as [amount Hamount].
    unfold renderPage. rewrite Hgate, Hpast, Hud, Hr, Hamount.
    cbn [mbind result_bind negb toLowerCase_call].
    rewrite Hsection, Hmode, Htype. cbn [is_string String.eqb Ascii.eqb Bool.eqb].
    rewrite Htruthy, Hreport. reflexivity.
Qed.

(** Scenario D: the preference is Full and the server answers
    [report_type: 'single'] with a report. *)
Lemma server_report_type_witness :
  let network := λ _ : request,
    Resolved true
      ("{" +:+ quoted "report_type" +:+ ":" +:+ quoted "single" +:+ ","
           +:+ quoted "single_report" +:+ ":{" +:+ quoted "label" +:+ ":" +:+ quoted "Gold"
           +:+ "}}") in
  renderPage
    (fst (fetchRecommendations network "http://localhost:8000" profileA defaultPreference
            (withUserDetails profileA)))
  = Ok (Page (Some (JStr "Gold"))
          (SingleRecommendationSection (JObj [("label", JStr "Gold")]))).
Proof.
  intros network.
  refine (proj1 (proj2 (proj2 (proj2 (proj2 (proj2 (proj2
    (server_report_type_decides_mode network "http://localhost:8000" profileA
       defaultPreference (withUserDetails profileA) _ _
       (JObj [("report_type", JStr "single");
              ("single_report", JObj [("label", JStr "Gold")])]) _ _ _)))))))
    "Medium" (JStr "Gold") _ _ _ _ _);
    try reflexivity; vm_compute; reflexivity.
Defined.

(** C2, as stated, fails: the preference is Full and the server answers
    [report_type: 'single'] without a [single_report].  The report mode is
    ['single'], and the page, which is past its placeholder, shows neither
    the single-mode section nor the full one. *)
Lemma single_mode_without_report :
  let network := λ _ : request,
    Resolved true ("{" +:+ quoted "report_type" +:+ ":" +:+ quoted "single" +:+ "}") in
  let st' :=
    fst (fetchRecommendations network "http://localhost:8000" profileA defaultPreference
           (withUserDetails profileA)) in
  reportMode st' = single ∧
  renderSingleRecommendationSection st' = NoSection ∧
  renderPage st' = Ok (Page None NoSection).
Proof. vm_compute. repeat split. Qed.

(** C3.  A fetch that ends in a network failure or a non-success status
    leaves an error message, the results [null], the report mode ['full'],
    the single-report data [null] and the loading flag cleared, so that the
    page shows the (empty) full-mode section; for a non-success status the
    message is the generic one.  The loading flag is set when the call
    starts and is cleared when the fetch has ended, however it ended. *)
Theorem failed_fetch_resets_state (network : request → fetch_outcome)
    (apiBaseUrl : string) (details : jsval) (preference : ReportPreference)
    (st : state) (payload : jsval) :
  buildPayload details preference = Ok payload →
  failed (network (recommendRequest apiBaseUrl payload)) = true →
  let st' := fst (fetchRecommendations network apiBaseUrl details preference st) in
  recommendationLoading (fetchStart st) = true ∧
  st' = fetchSettle (network (recommendRequest apiBaseUrl payload)) (fetchStart st) ∧
  (∃ shown : string, recommendationError st' = Some shown ∧ shown ≠ "") ∧
  (∀ text : string,
     network (recommendRequest apiBaseUrl payload) = Resolved false text →
     recommendationError st' = Some "Unable to fetch recommendations") ∧
  recommendationResults st' = JNull ∧
  reportMode st' = full ∧
  singleReportData st' = JNull ∧
  recommendationLoading st' = false ∧
  renderSection st' = FullRecommendationSection ∧
  (∀ keys : list string, getCategoryItems (recommendationResults st') keys = []) ∧
  (∀ (outcome : fetch_outcome) (st0 : state),
     recommendationLoading (fetchSettle outcome st0) = false).
Proof.
  intros Hp Hfail st'. subst st'.
  rewrite (fetchRecommendations_settles _ _ _ _ _ _ Hp). cbn [fst].
  assert (Hthrow : ∃ e, awaitData (network (recommendRequest apiBaseUrl payload)) = Throw e
                        ∧ ∀ text, network (recommendRequest apiBaseUrl payload)
                                     = Resolved false text →
                                   e = Error "Unable to fetch recommendations").
  { destruct (network (recommendRequest apiBaseUrl payload)) as [e|ok text]; simpl in *.
    - exists e. split; [reflexivity|discriminate].
    - destruct ok; [discriminate|]. eexists. split; [reflexivity|]. done. }
  destruct Hthrow as (e & He & Hstatus).
  unfold fetchSettle. rewrite He.
  split; [reflexivity|]. split; [reflexivity|]. split.
  { cbn. destruct (String.eqb (message e) "") eqn:E.
    - eexists. split; [reflexivity|discriminate].
    - eexists. split; [reflexivity|]. by apply String.eqb_neq. }
  split.
  { intros text Ht. rewrite (Hstatus _ Ht). reflexivity. }
  repeat split.
Qed.

(** Scenario C: the backend answers with status 500. *)
Lemma failed_fetch_witness :
  let network := λ _ : request, Resolved false "Internal Server Error" in
  let loaded :=
    {| userDetails := profileA; recommendationResults := JObj [("gold", JArr [JStr "x"])];
       recommendationLoading := false; recommendationError := None;
       reportPreference := {| reportType := single; investmentType := JStr "gold" |};
       preferenceLoaded := true; reportMode := single;
       singleReportData := JObj [("label", JStr "Gold")] |} in
  let st' :=
    fst (fetchRecommendations network "http://localhost:8000" profileA
           (reportPreference loaded) loaded) in
  recommendationError st' = Some "Unable to fetch recommendations" ∧
  recommendationResults st' = JNull ∧ reportMode st' = full ∧
  singleReportData st' = JNull ∧ recommendationLoading st' = false.
Proof.
  intros network loaded.
  pose proof (failed_fetch_resets_state network "http://localhost:8000" profileA
                (reportPreference loaded) loaded
                (JObj [("age", num 30); ("investment_amount", num 50000);
                       ("risk_preference", JStr "Medium"); ("monthly_income", JUndefined);
                       ("savings", JUndefined); ("time_horizon", JUndefined);
                       ("experience_level", JUndefined); ("financial_goals", JUndefined);
                       ("monthly_expenses", JUndefined); ("report_type", JStr "single");
                       ("investment_type", JStr "gold")])
                ltac:(vm_compute; reflexivity) ltac:(reflexivity))
    as (_ & _ & _ & Hmsg & Hres & Hmode & Hsingle & Hload & _).
  split; [exact (Hmsg _ eq_refl)|]. repeat split; assumption.
Defined.

(** * Further properties of the pages *)

(** ** Sequences of fallible steps *)

Lemma mapM_Ok_length {A B} (f : A → result B) (l : list A) (ys : list B) :
  mapM f l = Ok ys → length ys = length l.
Proof.
  revert ys. induction l as [|x r IH]; intros ys; cbn [mapM mbind result_bind].
  - by intros [= <-].
  - destruct (f x) as [y|e]; [|discriminate].
    change (result_bind _ _ ?g ?m) with (mbind g m).
    destruct (mapM f r) as [ys'|e]; cbn [mbind result_bind]; [|discriminate].
    intros [= <-]. simpl. f_equal. by apply IH.
Qed.

Lemma mapM_Ok_lookup {A B} (f : A → result B) (l : list A) (ys : list B) (i : nat) (x : A) :
  mapM f l = Ok ys → l !! i = Some x → ∃ y, ys !! i = Some y ∧ f x = Ok y.
Proof.
  revert ys i. induction l as [|x' r IH]; intros ys i; cbn [mapM mbind result_bind].
  - intros _ H. discriminate H.
  - destruct (f x') as [y|e] eqn:Ef; [|discriminate].
    change (result_bind _ _ ?g ?m) with (mbind g m).
    destruct (mapM f r) as [ys'|e]; cbn [mbind result_bind]; [|discriminate].
    intros [= <-]. destruct i as [|i]; simpl.
    + intros [= <-]. eauto.
    + intros Hi. by eapply IH.
Qed.

Lemma mapM_Throw_elem {A B} (f : A → result B) (l : list A) (x : A) :
  x ∈ l → returns (f x) = false → returns (mapM f l) = false.
Proof.
  induction 1 as [x r|x x' r _ IH]; intros Hx; cbn [mapM mbind result_bind].
  - destruct (f x); [discriminate|reflexivity].
  - destruct (f x'); [|reflexivity].
    change (result_bind _ _ ?g ?m) with (mbind g m).
    specialize (IH Hx). destruct (mapM f r); [discriminate|reflexivity].
Qed.

Lemma indexed_lookup {A} (l : list A) (i : nat) (x : A) :
  l !! i = Some x → indexed l !! i = Some (i, x).
Proof. intros H. unfold indexed. rewrite list_lookup_imap, H. reflexivity. Qed.

Lemma indexed_length {A} (l : list A) : length (indexed l) = length l.
Proof. unfold indexed. apply length_imap. Qed.

(** ** Names and scores of items *)

Lemma or_else_truthy (a b : jsval) : ToBoolean b = true → ToBoolean (or_else a b) = true.
Proof. unfold or_else. intros Hb. destruct (ToBoolean a) eqn:E; done. Qed.

(** X1.  The name shown for an item is never empty: it is the first of
    [name], [scheme_name], [schemeName], [fund_name] that is truthy, and the
    placeholder ['Unnamed Product'] when none is (an empty string counts
    as missing, and so does a missing or [null] item). *)
Theorem getItemName_first_truthy_alias :
  (∀ item : jsval, ToBoolean (getItemName item) = true) ∧
  (∀ item : jsval,
     getItemName item =
     default (JStr "Unnamed Product") (find ToBoolean (map (optGet item) nameAliases))).
Proof.
  split.
  - intros item. unfold getItemName. by apply or_else_truthy.
  - intros item. unfold getItemName, nameAliases, or_else. cbn [map find].
    repeat match goal with
           | |- context [ToBoolean ?v] =>
               match v with
               | optGet _ _ => destruct (ToBoolean v) eqn:?
               end
           end; cbn [default]; try reflexivity; try congruence.
Qed.

(** X2.  The score of an item is the first of [score], [combined_score],
    [rating] that is not [undefined], and [null] when all three are; it is
    never [undefined].  So a score of 0 is kept as 0, and an explicit [null]
    score is kept as [null] even when a rating is present. *)
Theorem getItemScore_first_defined_alias :
  (∀ item : jsval, getItemScore item ≠ JUndefined) ∧
  (∀ item : jsval,
     getItemScore item =
     default JNull (find (λ v, negb (is_undefined v)) (map (optGet item) scoreAliases))) ∧
  (∀ item : jsval,
     optGet item "score" ≠ JUndefined → getItemScore item = optGet item "score").
Proof.
  assert (H : ∀ item : jsval,
     getItemScore item =
     default JNull (find (λ v, negb (is_undefined v)) (map (optGet item) scoreAliases))).
  { intros item. unfold getItemScore, scoreAliases, optGet. cbn [map find].
    destruct (is_undefined (getv item "score")); [|reflexivity].
    destruct (is_undefined (getv item "combined_score")); [|reflexivity].
    destruct (is_undefined (getv item "rating")); reflexivity. }
  split; [|split; [exact H|]].
  - intros item. unfold getItemScore, optGet.
    destruct (getv item "score") eqn:E1; cbn [is_undefined negb]; try discriminate.
    destruct (getv item "combined_score") eqn:E2; cbn [is_undefined negb];
      try discriminate.
    destruct (getv item "rating") eqn:E3; cbn [is_undefined negb]; discriminate.
  - intros item Hs. unfold getItemScore, optGet in *.
    destruct (getv item "score"); cbn [is_undefined negb]; done.
Qed.

Lemma getItemScore_witness :
  getItemScore (JObj [("score", JNum pos_zero); ("rating", JNum (Fin false 4 0))])
    = JNum pos_zero ∧
  getItemScore (JObj [("score", JNull); ("rating", JNum (Fin false 4 0))]) = JNull.
Proof.
  split; apply (proj2 (proj2 getItemScore_first_defined_alias)); discriminate.
Defined.

(** ** The cards of the full section *)

Lemma sectionCards_lookup (risk : jsval) (sectionLabel : string) (items : list jsval)
    (cards : list card) (i : nat) (item : jsval) :
  sectionCards risk sectionLabel items = Ok cards →
  i < 5 → items !! i = Some item →
  ∃ c, cards !! i = Some c ∧ fullCard risk sectionLabel i item = Ok c.
Proof.
  unfold sectionCards. intros Hc Hi Hitem.
  assert (Ht : take 5 items !! i = Some item) by (by rewrite lookup_take_lt).
  apply indexed_lookup in Ht.
  destruct (mapM_Ok_lookup _ _ _ _ _ Hc Ht) as (c & Hlook & Hf). eauto.
Qed.

Lemma fullCard_fields (risk : jsval) (sectionLabel : string) (i : nat) (item : jsval)
    (c : card) :
  fullCard risk sectionLabel i item = Ok c →
  card_name c = getItemName item ∧ card_score c = getItemScore item ∧
  card_category c = JStr sectionLabel.
Proof.
  unfold fullCard. destruct (ToString (getItemName item)); cbn [mbind result_bind];
    [|discriminate].
  destruct (buildExplanation risk sectionLabel (optGet item "explanation"));
    cbn [mbind result_bind]; [|discriminate].
  intros [= <-]. repeat split.
Qed.

(** X3.  A section of the full report shows at most five cards: the cards
    of the first five items of its bucket, in the bucket's order, each with
    the resolved name and score of its item and the section's label as
    category; items after the fifth are not shown.  Every block that is
    shown has between one and five cards. *)
Theorem sectionCards_first_five (risk : jsval) (sectionLabel : string)
    (items : list jsval) (cards : list card) :
  sectionCards risk sectionLabel items = Ok cards →
  length cards = Nat.min 5 (length items) ∧
  (∀ (i : nat) (item : jsval),
     i < 5 → items !! i = Some item →
     ∃ c, cards !! i = Some c ∧ card_name c = getItemName item ∧
          card_score c = getItemScore item ∧ card_category c = JStr sectionLabel) ∧
  (∀ (results : jsval) (blocks : list (string * list card)),
     fullSectionBlocks risk results = Ok blocks →
     Forall (λ b, 1 ≤ length (snd b) ∧ length (snd b) ≤ 5) blocks).
Proof.
  intros Hc. split; [|split].
  - unfold sectionCards in Hc. apply mapM_Ok_length in Hc.
    rewrite Hc, indexed_length, length_take. reflexivity.
  - intros i item Hi Hitem.
    destruct (sectionCards_lookup _ _ _ _ _ _ Hc Hi Hitem) as (c & Hlook & Hf).
    exists c. split; [exact Hlook|]. by eapply fullCard_fields.
  - intros results blocks Hb. unfold fullSectionBlocks in Hb.
    apply Forall_lookup. intros i b Hi.
    assert (Hlen : length blocks
                   = length (filter (λ s, nonempty (snd s) = true)
                               (recommendationSections results)))
      by (by eapply mapM_Ok_length).
    destruct (lookup_lt_is_Some_2
                (filter (λ s, nonempty (snd s) = true) (recommendationSections results)) i)
      as [s Hs].
    { rewrite <- Hlen. by eapply lookup_lt_Some. }
    destruct (mapM_Ok_lookup _ _ _ _ _ Hb Hs) as (b' & Hb' & Hf).
    rewrite Hi in Hb'. injection Hb' as <-.
    apply list_elem_of_lookup_2, list_elem_of_filter in Hs as [Hne _].
    destruct (sectionCards risk (label (fst s)) (snd s)) as [cs|] eqn:Ecs;
      cbn [mbind result_bind] in Hf; [|discriminate].
    injection Hf as <-. cbn [snd].
    unfold sectionCards in Ecs. apply mapM_Ok_length in Ecs.
    rewrite indexed_length, length_take in Ecs.
    destruct (snd s); [discriminate|]. cbn [length] in Ecs. lia.
Qed.

Lemma sectionCards_witness :
  let items := map (λ n, JObj [("name", JStr n)]) ["a"; "b"; "c"; "d"; "e"; "f"; "g"] in
  ∃ cards, sectionCards (JStr "Low") "Stocks" items = Ok cards ∧ length cards = 5.
Proof.
  intros items.
  destruct (sectionCards (JStr "Low") "Stocks" items) as [cards|] eqn:E;
    [|vm_compute in E; discriminate E].
  exists cards. split; [reflexivity|].
  exact (proj1 (sectionCards_first_five _ _ _ _ E)).
Defined.

(** X4.  A missing ([null] or [undefined]) entry is tolerated in a bucket
    of the full report, where it becomes a card named ['Unnamed Product']
    with a [null] score and the synthesized explanation, and is fatal among
    the top items of the single report, where reading its [name] throws;
    one such entry makes the whole list of single-report cards fail. *)
Theorem missing_item_full_and_single (item : jsval) :
  is_nullish item = true →
  (∀ (risk : jsval) (sectionLabel : string) (idx : nat) (explanation : jsval),
     buildExplanation risk sectionLabel JUndefined = Ok explanation →
     fullCard risk sectionLabel idx item
     = Ok {| card_key := sectionLabel +:+ "-" +:+ index_string idx +:+ "-Unnamed Product";
             card_name := JStr "Unnamed Product";
             card_category := JStr sectionLabel;
             card_score := JNull;
             card_explanation := explanation |}) ∧
  (∀ (sectionLabel : jsval) (idx : nat),
     returns (singleCard sectionLabel idx item) = false) ∧
  (∀ (sectionLabel : jsval) (topItems : list jsval),
     item ∈ topItems → returns (singleCards sectionLabel topItems) = false).
Proof.
  intros Hn.
  assert (Hsingle : ∀ (sectionLabel : jsval) (idx : nat),
            returns (singleCard sectionLabel idx item) = false).
  { intros sectionLabel idx. unfold singleCard, Get. rewrite Hn.
    destruct (ToString sectionLabel); reflexivity. }
  split; [|split; [exact Hsingle|]].
  - intros risk sectionLabel idx explanation He.
    assert (Hname : getItemName item = JStr "Unnamed Product")
      by (destruct item; try discriminate; reflexivity).
    assert (Hscore : getItemScore item = JNull)
      by (destruct item; try discriminate; reflexivity).
    assert (Hexp : optGet item "explanation" = JUndefined)
      by (destruct item; try discriminate; reflexivity).
    unfold fullCard. rewrite Hname, Hscore, Hexp.
    cbn [ToString mbind result_bind]. rewrite He. reflexivity.
  - intros sectionLabel topItems Hin. unfold singleCards.
    apply list_elem_of_lookup in Hin as [i Hi].
    apply (mapM_Throw_elem _ _ (i, item)).
    + apply list_elem_of_lookup. exists i. by apply indexed_lookup.
    + apply Hsingle.
Qed.

Lemma missing_item_witness :
  fullCard (JStr "Medium") "Stocks" 2 JNull
  = Ok {| card_key := "Stocks-2-Unnamed Product";
          card_name := JStr "Unnamed Product";
          card_category := JStr "Stocks";
          card_score := JNull;
          card_explanation :=
            JStr "Stocks are selected to balance long-term growth with reasonable stability." |} ∧
  returns (singleCards (JStr "Gold") [JObj [("name", JStr "Fund A")]; JNull]) = false.
Proof.
  destruct (missing_item_full_and_single JNull eq_refl) as (Hfull & _ & Hlist).
  split.
  - apply (Hfull (JStr "Medium") "Stocks" 2). reflexivity.
  - apply Hlist. apply list_elem_of_lookup. exists 1. reflexivity.
Defined.

(** ** The banner and the empty-state line *)

Lemma no_bucket_blocks (risk results : jsval) :
  no_bucket results = true → fullSectionBlocks risk results = Ok [].
Proof.
  unfold no_bucket, fullSectionBlocks. intros H.
  rewrite forallb_forall in H.
  replace (filter (λ s, nonempty (snd s) = true) (recommendationSections results))
    with (@nil (categoryConfig * list jsval)); [reflexivity|].
  symmetry. induction (recommendationSections results) as [|s r IH]; [reflexivity|].
  rewrite filter_cons. destruct (decide (nonempty (snd s) = true)) as [Hne|_].
  - specialize (H s (or_introl eq_refl)). rewrite Hne in H. discriminate.
  - apply IH. intros x Hx. apply H. by right.
Qed.

(** X5.  The full section never shows the error banner and the empty-state
    line together.  After a fetch that failed, which is one that was
    rejected, or answered with a non-success status, or with a body that
    is not JSON, it shows the banner and no card; after a successful fetch
    whose response has no non-empty bucket it shows no banner, no card and
    the line 'No live recommendations available...'; and while a fetch is
    in flight with nothing to show, the line reads 'Fetching live
    recommendations...'. *)
Theorem banner_and_empty_state (outcome : fetch_outcome) (st : state) :
  let st' := fetchSettle outcome (fetchStart st) in
  (errorBanner st' = None ∨ emptyStateLine st' = None) ∧
  (returns (awaitData outcome) = false ↔
   failed outcome = true ∨ ∃ text, outcome = Resolved true text ∧ JSON_parse text = None) ∧
  (returns (awaitData outcome) = false →
   (∃ shown, errorBanner st' = Some shown) ∧ emptyStateLine st' = None ∧
   ∀ risk, fullSectionBlocks risk (recommendationResults st') = Ok []) ∧
  (∀ (text : string) (data : jsval),
     outcome = Resolved true text → JSON_parse text = Some data →
     no_bucket (nullish_or (optGet data "recommendations") data) = true →
     errorBanner st' = None ∧ emptyStateLine st' = Some nothing_line ∧
     ∀ risk, fullSectionBlocks risk (recommendationResults st') = Ok []) ∧
  (no_bucket (recommendationResults st) = true →
   emptyStateLine (fetchStart st) = Some fetching_line).
Proof.
  intros st'. split; [|split; [|split; [|split]]].
  - unfold emptyStateLine. destruct (errorBanner st'); [by right|by left].
  - unfold awaitData, JSON_parse_or_throw, failed.
    destruct outcome as [e|[|] text]; cbn [negb returns].
    + split; [by left|done].
    + destruct (JSON_parse text) eqn:Hparse; split; try done.
      * intros [?|(text' & [= <-] & Hnone)]; congruence.
      * intros _. right. by exists text.
    + split; [by left|done].
  - intros Hfail. subst st'. unfold fetchSettle.
    assert (Hthrow : ∃ e, awaitData outcome = Throw e).
    { destruct (awaitData outcome) as [data|e]; [discriminate|by exists e]. }
    destruct Hthrow as [e ->].
    assert (Hb : ∃ shown,
               errorBanner (setRecommendationLoading false (onError e (fetchStart st)))
               = Some shown).
    { unfold errorBanner. cbn.
      destruct (String.eqb (message e) "") eqn:E; [by eexists|].
      rewrite E. by eexists. }
    split; [exact Hb|]. split.
    + unfold emptyStateLine. destruct Hb as [shown ->]. reflexivity.
    + intros risk. reflexivity.
  - intros text data -> Hparse Hnone. subst st'.
    unfold fetchSettle, awaitData, JSON_parse_or_throw. rewrite Hparse. cbn [negb].
    split; [reflexivity|]. split.
    + unfold emptyStateLine, errorBanner.
      cbn [onData fetchStart setRecommendationLoading setSingleReportData setReportMode
             setRecommendationResults setRecommendationError recommendationError
             recommendationResults recommendationLoading].
      unfold no_bucket in Hnone. rewrite Hnone. reflexivity.
    + intros risk. by apply no_bucket_blocks.
  - intros Hnone. unfold emptyStateLine, errorBanner.
    cbn [fetchStart setRecommendationLoading setRecommendationError recommendationError
           recommendationResults recommendationLoading].
    unfold no_bucket in Hnone. rewrite Hnone. reflexivity.
Qed.

Lemma banner_and_empty_state_witness :
  let st' := fetchSettle (Resolved true ("{" +:+ quoted "gold" +:+ ":[]}")) (fetchStart initial) in
  errorBanner st' = None ∧ emptyStateLine st' = Some nothing_line ∧
  emptyStateLine (fetchStart initial) = Some fetching_line ∧
  errorBanner (fetchSettle (Resolved false "") (fetchStart initial))
    = Some "Unable to fetch recommendations" ∧
  emptyStateLine (fetchSettle (Resolved true "not json") (fetchStart initial)) = None.
Proof.
  intros st'.
  destruct (banner_and_empty_state
              (Resolved true ("{" +:+ quoted "gold" +:+ ":[]}")) initial)
    as (_ & _ & _ & Hok & Hstart).
  destruct (Hok _ (JObj [("gold", JArr [])]) eq_refl) as (Hb & He & _);
    [vm_compute; reflexivity | reflexivity |].
  split; [exact Hb|]. split; [exact He|]. split; [by apply Hstart|].
  split.
  - destruct (banner_and_empty_state (Resolved false "") initial) as (_ & _ & Hfail & _).
    destruct (Hfail eq_refl) as ([shown Hshown] & _). rewrite Hshown.
    vm_compute in Hshown. congruence.
  - destruct (banner_and_empty_state (Resolved true "not json") initial)
      as (_ & _ & Hfail & _).
    exact (proj1 (proj2 (Hfail ltac:(vm_compute; reflexivity)))).
Defined.

(** ** Overlapping fetches *)

(** X6.  Two calls in flight: the first response to arrive clears the
    loading flag although the other request is still pending; the results,
    the report mode and the single-report data are those of the response
    that arrives last; and the message of a first response that failed
    stays on screen when the second succeeds, since only the start of a
    call clears it. *)
Theorem overlapping_fetches (first second : fetch_outcome) (st : state) :
  let started := fetchStart (fetchStart st) in
  let final := fetchSettle second (fetchSettle first started) in
  recommendationLoading (fetchSettle first started) = false ∧
  recommendationResults final = recommendationResults (fetchSettle second started) ∧
  reportMode final = reportMode (fetchSettle second started) ∧
  singleReportData final = singleReportData (fetchSettle second started) ∧
  (returns (awaitData second) = true →
   recommendationError final = recommendationError (fetchSettle first started)) ∧
  (returns (awaitData first) = false → returns (awaitData second) = true →
   ∃ shown, errorBanner final = Some shown).
Proof.
  intros started final. subst final started. unfold fetchSettle.
  split; [reflexivity|].
  destruct (awaitData second) as [data2|e2]; cbn [returns].
  - split; [reflexivity|]. split; [reflexivity|]. split; [reflexivity|].
    split; [reflexivity|].
    intros Hf _. destruct (awaitData first) as [data1|e1]; [discriminate|].
    unfold errorBanner. cbn.
    destruct (String.eqb (message e1) "") eqn:E; [by eexists|].
    rewrite E. by eexists.
  - split; [reflexivity|]. split; [reflexivity|]. split; [reflexivity|].
    split; discriminate.
Qed.

Lemma overlapping_fetches_witness :
  let final :=
    fetchSettle (Resolved true ("{" +:+ quoted "gold" +:+ ":[1]}"))
      (fetchSettle (Resolved false "") (fetchStart (fetchStart initial))) in
  (∃ shown, errorBanner final = Some shown) ∧
  recommendationResults final = JObj [("gold", JArr [JNum (Fin false 1 0)])].
Proof.
  intros final.
  destruct (overlapping_fetches (Resolved false "")
              (Resolved true ("{" +:+ quoted "gold" +:+ ":[1]}")) initial)
    as (_ & Hres & _ & _ & _ & Hbanner).
  split.
  - apply Hbanner; vm_compute; reflexivity.
  - unfold final. rewrite Hres. vm_compute. reflexivity.
Defined.

(** ** The loading placeholder *)

Lemma getv_recommendations_falsy (r : string) :
  existsb (String.eqb r) riskLevels = false → inherited r = false →
  getv recommendations r = JUndefined.
Proof.
  unfold riskLevels, inherited. cbn [existsb]. intros H Hinh.
  apply orb_false_elim in H as [HL H]. apply orb_false_elim in H as [HM H].
  apply orb_false_elim in H as [HH _].
  unfold getv, recommendations. cbn [own_property].
  rewrite (String.eqb_sym "Low"), HL, (String.eqb_sym "Medium"), HM,
    (String.eqb_sym "High"), HH.
  destruct (Object_prototype r); [discriminate|reflexivity].
Qed.

(** X7.  The page leaves the 'Loading...' placeholder only for a profile
    whose risk preference is one the dummy table knows.  A stored profile
    without [riskPreference], or with one that is not Low, Medium or High
    (nor a name every object inherits), never gets past the placeholder,
    whatever the fetch has returned; yet for the profile without a risk
    preference the explanations use, and the request carries, ['Medium'].
    For Low, Medium and High the placeholder is left as soon as the
    profile is there. *)
Theorem loading_placeholder_gate (st : state) (ps : list (string * jsval)) :
  userDetails st = JObj ps →
  (own_property ps "riskPreference" = None →
   pastLoadingPlaceholder st ≠ Ok true ∧ riskPreference st = JStr "Medium") ∧
  (∀ r : string,
     own_property ps "riskPreference" = Some (JStr r) →
     existsb (String.eqb r) riskLevels = false → inherited r = false →
     pastLoadingPlaceholder st ≠ Ok true) ∧
  (∀ r : string,
     own_property ps "riskPreference" = Some (JStr r) →
     existsb (String.eqb r) riskLevels = true →
     returns (ToString (getv (JObj ps) "investmentAmount")) = true →
     pastLoadingPlaceholder st = Ok true).
Proof.
  intros Hd. unfold pastLoadingPlaceholder, getDummyRecommendation, riskPreference, optGet.
  rewrite Hd. cbn [ToBoolean negb andb].
  split; [|split].
  - intros Hnone. unfold getv at 2 4. rewrite Hnone. cbn [Object_prototype String.eqb].
    split; [|reflexivity].
    destruct (ToString (getv (JObj ps) "investmentAmount")); cbn; discriminate.
  - intros r Hr Hlev Hinh. unfold getv at 2. rewrite Hr.
    destruct (ToString (getv (JObj ps) "investmentAmount"));
      cbn [mbind result_bind ToString]; [|discriminate].
    rewrite getv_recommendations_falsy by done. discriminate.
  - intros r Hr Hlev Hret. unfold getv at 2. rewrite Hr.
    destruct (ToString (getv (JObj ps) "investmentAmount"));
      cbn [mbind result_bind ToString]; [|discriminate].
    unfold riskLevels in Hlev. cbn [existsb] in Hlev.
    apply orb_true_iff in Hlev as [HL|Hlev]; [apply String.eqb_eq in HL as ->; reflexivity|].
    apply orb_true_iff in Hlev as [HM|Hlev]; [apply String.eqb_eq in HM as ->; reflexivity|].
    apply orb_true_iff in Hlev as [HH|Hlev]; [apply String.eqb_eq in HH as ->; reflexivity|].
    discriminate.
Qed.

Lemma loading_placeholder_witness :
  let profile := JObj [("age", num 30); ("investmentAmount", num 50000)] in
  let st := fetchSettle (Resolved true ("{" +:+ quoted "gold" +:+ ":[1]}"))
              (fetchStart (setUserDetails profile initial)) in
  pastLoadingPlaceholder st ≠ Ok true ∧ riskPreference st = JStr "Medium" ∧
  pastLoadingPlaceholder (setUserDetails profileA initial) = Ok true.
Proof.
  intros profile st.
  destruct (loading_placeholder_gate st
              [("age", num 30); ("investmentAmount", num 50000)] eq_refl)
    as (Hmissing & _).
  destruct (Hmissing eq_refl) as [Hgate Hrisk].
  split; [exact Hgate|]. split; [exact Hrisk|].
  refine (proj2 (proj2 (loading_placeholder_gate (setUserDetails profileA initial)
                          _ eq_refl)) "Medium" _ _ _); reflexivity.
Defined.

(** ** JSON text of strings and flat objects: writing, then reading *)

Lemma parse_string_body_step (cs : list ascii) :
  parse_string_body cs = string_step parse_string_body cs.
Proof. destruct cs; reflexivity. Qed.

Lemma string_step_quote_char (rest_of : list ascii → option (list ascii * list ascii))
    (c : ascii) (rest : list ascii) :
  string_step rest_of (quote_char c ++ rest)
  = match rest_of rest with
    | Some (s, r) => Some (c :: s, r)
    | None => None
    end.
Proof.
  destruct c as [[] [] [] [] [] [] [] []];
    vm_compute; destruct (rest_of rest) as [[s r]|]; reflexivity.
Qed.

Lemma parse_string_body_quote_char (c : ascii) (rest : list ascii) :
  parse_string_body (quote_char c ++ rest)
  = match parse_string_body rest with
    | Some (s, r) => Some (c :: s, r)
    | None => None
    end.
Proof. rewrite parse_string_body_step. apply string_step_quote_char. Qed.

Lemma parse_quoted_chars (cs rest : list ascii) :
  parse_string_body (concat (map quote_char cs) ++ dquote :: rest) = Some (cs, rest).
Proof.
  induction cs as [|c r IH]; [reflexivity|].
  cbn [map concat]. rewrite <- app_assoc, parse_string_body_quote_char, IH. reflexivity.
Qed.

Lemma str_chars (s : string) : str (chars s) = s.
Proof. apply string_of_list_ascii_of_string. Qed.

Lemma quote_string_app (s : string) (rest : list ascii) :
  quote_string s ++ rest = dquote :: concat (map quote_char (chars s)) ++ dquote :: rest.
Proof. unfold quote_string. cbn [app]. by rewrite <- app_assoc. Qed.

Lemma parse_value_quoted (f : nat) (s : string) (rest : list ascii) :
  parse_value (S f) (quote_string s ++ rest) = Parsed (JStr s) rest.
Proof.
  rewrite parse_value_S, quote_string_app.
  change (skip_ws (dquote :: ?l)) with (dquote :: l). cbv beta iota.
  rewrite Ascii.eqb_refl, parse_quoted_chars, str_chars. reflexivity.
Qed.

Lemma JSON_text_object (ps : list (string * jsval)) :
  JSON_text (JObj ps) = "{"%char :: members_text ps ++ ["}"%char].
Proof.
  reflexivity.
Qed.

Lemma members_text_strings (k s : string) (r : list (string * string)) (rest : list ascii) :
  members_text (strings_object ((k, s) :: r)) ++ rest
  = quote_string k ++ ":"%char :: quote_string s
      ++ match r with
         | [] => rest
         | _ => ","%char :: members_text (strings_object r) ++ rest
         end.
Proof.
  cbn [strings_object map members_text fst snd JSON_text].
  rewrite <- app_assoc. cbn [app]. rewrite <- app_assoc.
  destruct r; reflexivity.
Qed.

Lemma parse_members_strings (ps : list (string * string)) :
  ps ≠ [] →
  ∀ (f : nat) (acc : list (string * jsval)) (rest : list ascii),
    length ps < f →
    parse_members f (members_text (strings_object ps) ++ "}"%char :: rest) acc
    = Parsed (JObj (fold_left (λ a p, obj_define a (fst p) (JStr (snd p))) ps acc)) rest.
Proof.
  induction ps as [|[k s] r IH]; [done|]. intros _ f acc rest Hf.
  destruct f as [|[|f]]; [simpl in Hf; lia..|].
  rewrite parse_members_S, members_text_strings, quote_string_app.
  change (skip_ws (dquote :: ?l)) with (dquote :: l).
  cbn [starts_with]. rewrite Ascii.eqb_refl, parse_quoted_chars.
  change (skip_ws (":"%char :: ?l)) with (":"%char :: l).
  cbn [starts_with]. rewrite Ascii.eqb_refl, parse_value_quoted, str_chars.
  cbv beta iota.
  destruct r as [|p r'].
  - change (skip_ws ("}"%char :: ?l)) with ("}"%char :: l). reflexivity.
  - change (skip_ws (","%char :: ?l)) with (","%char :: l).
    cbn [starts_with]. rewrite Ascii.eqb_refl.
    rewrite IH; [reflexivity|discriminate|simpl in *; lia].
Qed.

Lemma obj_insert_fresh (acc : list (string * jsval)) (k : string) (v : jsval) :
  array_index k = None → obj_insert acc k v = acc ++ [(k, v)].
Proof.
  intros Hk. induction acc as [|[k' v'] r IH]; [reflexivity|].
  cbn [obj_insert app]. unfold enumerates_before. rewrite Hk. by rewrite IH.
Qed.

Lemma obj_define_fresh (acc : list (string * jsval)) (k : string) (v : jsval) :
  own_property acc k = None → array_index k = None →
  obj_define acc k v = acc ++ [(k, v)].
Proof.
  intros Hown Hk. unfold obj_define, has_own. rewrite Hown. by apply obj_insert_fresh.
Qed.

Lemma own_property_app (ps qs : list (string * jsval)) (k : string) :
  own_property (ps ++ qs) k
  = match own_property ps k with
    | Some v => Some v
    | None => own_property qs k
    end.
Proof.
  induction ps as [|[k' v'] r IH]; [reflexivity|].
  cbn [app own_property]. destruct (String.eqb k' k); [reflexivity|exact IH].
Qed.

Lemma define_strings_fresh (ps : list (string * string)) :
  NoDup (map fst ps) → Forall (λ k, array_index k = None) (map fst ps) →
  ∀ acc : list (string * jsval),
    (∀ k, k ∈ map fst ps → own_property acc k = None) →
    fold_left (λ a p, obj_define a (fst p) (JStr (snd p))) ps acc
    = acc ++ strings_object ps.
Proof.
  induction ps as [|[k s] r IH]; intros Hnd Hidx acc Hacc.
  - cbn. by rewrite app_nil_r.
  - cbn [map fst] in Hnd, Hidx. apply NoDup_cons in Hnd as [Hk Hnd].
    apply Forall_cons in Hidx as [Hki Hidx].
    cbn [fold_left fst snd].
    rewrite obj_define_fresh; [|apply Hacc; cbn; left|done].
    rewrite IH; [|done|done|].
    + rewrite <- app_assoc. reflexivity.
    + intros k' Hk'. rewrite own_property_app.
      rewrite Hacc by (cbn; by right). cbn [own_property].
      destruct (String.eqb k k') eqn:E; [|reflexivity].
      apply String.eqb_eq in E. subst. done.
Qed.

Lemma serialize_strings (ps : list (string * string)) :
  serialize_members (strings_object ps) = strings_object ps.
Proof.
  induction ps as [|[k s] r IH]; [reflexivity|].
  change (serialize_members (strings_object ((k, s) :: r)))
    with ((k, JStr s) :: serialize_members (strings_object r)).
  by rewrite IH.
Qed.

Lemma members_text_length (ps : list (string * jsval)) :
  length ps ≤ length (members_text ps).
Proof.
  induction ps as [|[k x] r IH]; [reflexivity|].
  cbn [members_text]. rewrite length_app. cbn [length]. rewrite length_app.
  destruct r as [|p r']; cbn [length] in *; lia.
Qed.

Lemma parse_value_strings_object (ps : list (string * string)) (f : nat) :
  ps ≠ [] → length ps < f →
  parse_value (S f) ("{"%char :: members_text (strings_object ps) ++ ["}"%char])
  = Parsed (JObj (fold_left (λ a p, obj_define a (fst p) (JStr (snd p))) ps [])) [].
Proof.
  intros Hne Hf. rewrite parse_value_S.
  change (skip_ws ("{"%char :: ?l)) with ("{"%char :: l). cbv beta iota.
  change (Ascii.eqb "{" dquote) with false.
  change (Ascii.eqb "{" "[") with false.
  change (Ascii.eqb "{" "{") with true. cbv beta iota.
  assert (Hhead : ∃ tail, members_text (strings_object ps) ++ ["}"%char] = dquote :: tail).
  { destruct ps as [|[k s] r]; [done|].
    rewrite members_text_strings, quote_string_app. by eexists. }
  destruct Hhead as [tail Htail]. rewrite Htail.
  change (skip_ws (dquote :: ?l)) with (dquote :: l).
  change (starts_with "}" (dquote :: tail)) with (@None (list ascii)). cbv beta iota.
  rewrite <- Htail. by apply parse_members_strings.
Qed.

(** Writing an object of strings and reading the text back gives the
    object, when its keys are distinct and none is an array index. *)
Lemma JSON_roundtrip_strings (ps : list (string * string)) :
  NoDup (map fst ps) → Forall (λ k, array_index k = None) (map fst ps) →
  ∃ text : string,
    JSON_stringify (JObj (strings_object ps)) = Some text ∧
    String.eqb text "" = false ∧
    JSON_parse text = Some (JObj (strings_object ps)).
Proof.
  intros Hnd Hidx. unfold JSON_stringify.
  rewrite JSON_serialize_object, serialize_strings. cbn [mbind option_bind].
  eexists. split; [reflexivity|].
  rewrite JSON_text_object. split; [reflexivity|].
  unfold JSON_parse. rewrite chars_str.
  destruct ps as [|p r]; [vm_compute; reflexivity|].
  assert (Hlen : length (p :: r)
                 ≤ length ("{"%char :: members_text (strings_object (p :: r)) ++ ["}"%char])).
  { cbn [length]. rewrite length_app.
    pose proof (members_text_length (strings_object (p :: r))) as H.
    unfold strings_object in H at 1. rewrite length_map in H. cbn [length] in *. lia. }
  unfold parse_fuel.
  replace (2 * length ("{"%char :: members_text (strings_object (p :: r)) ++ ["}"%char]) + 2)
    with (S (2 * length ("{"%char :: members_text (strings_object (p :: r)) ++ ["}"%char])
             + 1)) by lia.
  rewrite parse_value_strings_object; [|discriminate|lia].
  rewrite define_strings_fresh by done. reflexivity.
Qed.

(** ** The fields of the request *)

Lemma nullish_orM_Ok (a : jsval) (b : result jsval) :
  nullish_orM (Ok a) b = if is_nullish a then b else Ok a.
Proof. reflexivity. Qed.

Lemma Get_Ok (v : jsval) (k : string) : is_nullish v = false → Get v k = Ok (getv v k).
Proof. intros H. unfold Get. by rewrite H. Qed.

Lemma nullish_orM_get2 (details : jsval) (k1 k2 : string) :
  is_nullish details = false →
  nullish_orM (Get details k1) (Get details k2)
  = Ok (nullish_or (getv details k1) (getv details k2)).
Proof.
  intros H. rewrite !Get_Ok by done. rewrite nullish_orM_Ok. unfold nullish_or.
  destruct (is_nullish (getv details k1)); reflexivity.
Qed.

Lemma nullish_orM_get2_default (details : jsval) (k1 k2 : string) (d : jsval) :
  is_nullish details = false →
  nullish_orM (Get details k1) (nullish_orM (Get details k2) (Ok d))
  = Ok (nullish_or (getv details k1) (nullish_or (getv details k2) d)).
Proof.
  intros H. rewrite !Get_Ok by done. rewrite !nullish_orM_Ok. unfold nullish_or.
  destruct (is_nullish (getv details k1)); [|reflexivity].
  destruct (is_nullish (getv details k2)); reflexivity.
Qed.

Lemma nullish_orM_get3 (details : jsval) (k1 k2 k3 : string) :
  is_nullish details = false →
  nullish_orM (Get details k1) (nullish_orM (Get details k2) (Get details k3))
  = Ok (nullish_or (getv details k1) (nullish_or (getv details k2) (getv details k3))).
Proof.
  intros H. rewrite !Get_Ok by done. rewrite !nullish_orM_Ok. unfold nullish_or.
  destruct (is_nullish (getv details k1)); [|reflexivity].
  destruct (is_nullish (getv details k2)); reflexivity.
Qed.

(** The payload, field by field. *)
Lemma buildPayload_fields (details : jsval) (preference : ReportPreference)
    (payload : jsval) :
  buildPayload details preference = Ok payload →
  ∃ (age amount : jsnum) (income savings expenses : jsval),
    ToNumber (nullish_or (getv details "age")
                (nullish_or (getv details "userAge") (num 30))) = Ok age ∧
    ToNumber (nullish_or (getv details "investmentAmount")
                (nullish_or (getv details "investment_amount") (num 0))) = Ok amount ∧
    parseOptionalNumber
      (nullish_or (getv details "monthlyIncome") (getv details "monthly_income"))
      = Ok income ∧
    parseOptionalNumber
      (nullish_or (getv details "savings")
         (nullish_or (getv details "totalSavings") (getv details "netWorth")))
      = Ok savings ∧
    parseOptionalNumber
      (nullish_or (getv details "monthlyExpenses") (getv details "monthly_expenses"))
      = Ok expenses ∧
    payload =
      JObj [("age", JNum age); ("investment_amount", JNum amount);
            ("risk_preference",
             nullish_or (getv details "riskPreference")
               (nullish_or (getv details "risk_preference") (JStr "Medium")));
            ("monthly_income", income); ("savings", savings);
            ("time_horizon",
             nullish_or (getv details "timeHorizon") (getv details "time_horizon"));
            ("experience_level",
             nullish_or (getv details "experienceLevel") (getv details "experience_level"));
            ("financial_goals",
             nullish_or (getv details "financialGoals") (getv details "financial_goals"));
            ("monthly_expenses", expenses);
            ("report_type", JStr (ReportType_string (reportType preference)));
            ("investment_type", or_else (investmentType preference) JUndefined)].
Proof.
  unfold buildPayload. intros H.
  destruct (is_nullish details) eqn:Hn.
  { unfold Get in H. rewrite Hn in H. discriminate H. }
  rewrite !nullish_orM_get2_default, !nullish_orM_get3, !nullish_orM_get2 in H by done.
  cbn [mbind result_bind] in H. unfold Number in H. cbn [mbind result_bind] in H.
  destruct (ToNumber (nullish_or (getv details "age") _)) as [age|] eqn:Eage;
    cbn [mbind result_bind] in H; [|discriminate H].
  destruct (ToNumber (nullish_or (getv details "investmentAmount") _)) as [amount|]
    eqn:Eamount; cbn [mbind result_bind] in H; [|discriminate H].
  destruct (parseOptionalNumber (nullish_or (getv details "monthlyIncome") _))
    as [income|] eqn:Eincome; cbn [mbind result_bind] in H; [|discriminate H].
  destruct (parseOptionalNumber (nullish_or (getv details "savings") _))
    as [savings|] eqn:Esavings; cbn [mbind result_bind] in H; [|discriminate H].
  destruct (parseOptionalNumber (nullish_or (getv details "monthlyExpenses") _))
    as [expenses|] eqn:Eexpenses; cbn [mbind result_bind] in H; [|discriminate H].
  injection H as <-.
  exists age, amount, income, savings, expenses. repeat split; assumption.
Qed.

Lemma request_field_object (ps : list (string * jsval)) (k : string) :
  NoDup (map fst ps) →
  request_field (JObj ps) k = own_property ps k ≫= JSON_serialize.
Proof.
  intros Hnd. unfold request_field. rewrite JSON_serialize_object.
  by apply own_property_serialized.
Qed.

Ltac payload_field H :=
  apply buildPayload_fields in H
    as (age & amount & income & savings & expenses
        & Hage & Hamount & Hincome & Hsavings & Hexpenses & ->);
  rewrite request_field_object
    by (apply (bool_decide_unpack _); vm_compute; reflexivity);
  cbn [own_property String.eqb Ascii.eqb Bool.eqb mbind option_bind].

Lemma JSON_serialize_number (x : jsnum) :
  JSON_serialize (JNum x) = Some (if isFinite x then JNum x else JNull).
Proof. reflexivity. Qed.

(** X8.  The two mandatory numbers are never left out of the request.
    [age] is 30 when the profile has neither [age] nor [userAge], and
    [investment_amount] is 0 when it has neither of its two names; a field
    that is present is converted by [Number], so a blank age is sent as 0,
    not as the default, and an age that is not numeric is sent as [null]. *)
Theorem mandatory_numbers_always_sent (details : jsval) (preference : ReportPreference)
    (payload : jsval) :
  buildPayload details preference = Ok payload →
  is_Some (request_field payload "age") ∧
  is_Some (request_field payload "investment_amount") ∧
  (is_nullish (getv details "age") = true → is_nullish (getv details "userAge") = true →
   request_field payload "age" = Some (num 30)) ∧
  (is_nullish (getv details "investmentAmount") = true →
   is_nullish (getv details "investment_amount") = true →
   request_field payload "investment_amount" = Some (num 0)) ∧
  (getv details "age" = JStr "" → request_field payload "age" = Some (JNum pos_zero)) ∧
  (∀ s : string,
     getv details "age" = JStr s → isNaN (StringToNumber s) = true →
     request_field payload "age" = Some JNull).
Proof.
  intros H.
  assert (Hage' : ∃ age : jsnum,
            ToNumber (nullish_or (getv details "age")
                        (nullish_or (getv details "userAge") (num 30))) = Ok age ∧
            request_field payload "age" = Some (if isFinite age then JNum age else JNull)).
  { pose proof H as H'. payload_field H'. eauto. }
  assert (Hamount' : ∃ amount : jsnum,
            ToNumber (nullish_or (getv details "investmentAmount")
                        (nullish_or (getv details "investment_amount") (num 0)))
              = Ok amount ∧
            request_field payload "investment_amount"
              = Some (if isFinite amount then JNum amount else JNull)).
  { pose proof H as H'. payload_field H'. eauto. }
  destruct Hage' as (age & Hage & Hfa). destruct Hamount' as (amount & Hamount & Hfm).
  split; [rewrite Hfa; eauto|]. split; [rewrite Hfm; eauto|].
  split; [|split; [|split]].
  - intros H1 H2. unfold nullish_or in Hage. rewrite H1, H2 in Hage.
    injection Hage as <-. rewrite Hfa. reflexivity.
  - intros H1 H2. unfold nullish_or in Hamount. rewrite H1, H2 in Hamount.
    injection Hamount as <-. rewrite Hfm. reflexivity.
  - intros Hs. rewrite Hs in Hage. injection Hage as <-. rewrite Hfa. reflexivity.
  - intros s Hs Hnan. rewrite Hs in Hage. cbn in Hage. injection Hage as <-.
    rewrite Hfa. destruct (StringToNumber s); try discriminate. reflexivity.
Qed.

Lemma mandatory_numbers_witness :
  request_field
    (JObj [("age", JNum pos_zero); ("investment_amount", num 0);
           ("risk_preference", JStr "Medium"); ("monthly_income", JUndefined);
           ("savings", JUndefined); ("time_horizon", JUndefined);
           ("experience_level", JUndefined); ("financial_goals", JUndefined);
           ("monthly_expenses", JUndefined); ("report_type", JStr "full");
           ("investment_type", JUndefined)])
    "age" = Some (JNum pos_zero).
Proof.
  refine (proj1 (proj2 (proj2 (proj2 (proj2
    (mandatory_numbers_always_sent (JObj [("age", JStr "")]) defaultPreference _ _))))) _);
    [vm_compute; reflexivity | reflexivity].
Defined.

(** ** Optional numbers made of spaces *)

Lemma drop_ws_all (cs : list ascii) : forallb is_ws cs = true → drop_ws cs = [].
Proof.
  induction cs as [|c r IH]; [reflexivity|].
  cbn [forallb drop_ws]. intros H. apply andb_prop in H as [Hc Hr].
  rewrite Hc. by apply IH.
Qed.

(** X9.  An optional number stored as spaces only is not treated as
    blank: [parseOptionalNumber] turns every non-empty string of white
    space into the number 0, and the request then carries
    [monthly_income: 0] instead of leaving the key out. *)
Theorem spaces_are_sent_as_zero (s : string) :
  s ≠ "" → forallb is_ws (chars s) = true →
  parseOptionalNumber (JStr s) = Ok (JNum pos_zero) ∧
  ∀ (details : jsval) (preference : ReportPreference) (payload : jsval),
    getv details "monthlyIncome" = JStr s →
    buildPayload details preference = Ok payload →
    request_field payload "monthly_income" = Some (JNum pos_zero).
Proof.
  intros Hne Hws.
  assert (Hp : parseOptionalNumber (JStr s) = Ok (JNum pos_zero)).
  { rewrite parseOptionalNumber_string.
    apply String.eqb_neq in Hne. rewrite Hne.
    unfold StringToNumber, trim. rewrite (drop_ws_all _ Hws). reflexivity. }
  split; [exact Hp|].
  intros details preference payload Hd H. payload_field H.
  unfold nullish_or in Hincome. rewrite Hd in Hincome. cbn [is_nullish] in Hincome.
  rewrite Hp in Hincome. injection Hincome as <-. reflexivity.
Qed.

Lemma spaces_are_sent_as_zero_witness :
  parseOptionalNumber (JStr "  ") = Ok (JNum pos_zero).
Proof. apply (spaces_are_sent_as_zero "  "); [discriminate|reflexivity]. Defined.

(** ** What a submit stores *)

Lemma validate_keeps (st : OptionalDetailsPage.state) :
  OptionalDetailsPage.formData (snd (OptionalDetailsPage.validateReportPreference st))
    = OptionalDetailsPage.formData st ∧
  OptionalDetailsPage.reportPreference (snd (OptionalDetailsPage.validateReportPreference st))
    = OptionalDetailsPage.reportPreference st.
Proof.
  unfold OptionalDetailsPage.validateReportPreference.
  destruct (reportType (OptionalDetailsPage.reportPreference st));
    [|destruct (ToBoolean (investmentType (OptionalDetailsPage.reportPreference st)))];
    split; reflexivity.
Qed.

Lemma handleSubmit_valid (st : OptionalDetailsPage.state) (w : OptionalDetailsPage.world) :
  fst (OptionalDetailsPage.validateReportPreference st) = true →
  OptionalDetailsPage.localStorage (snd (OptionalDetailsPage.handleSubmit st w))
  = setItem_JSON "reportPreference"
      (preference_value (OptionalDetailsPage.reportPreference st))
      (setItem_JSON "optionalDetails"
         (OptionalDetailsPage.formData_value (OptionalDetailsPage.formData st))
         (OptionalDetailsPage.localStorage w)) ∧
  OptionalDetailsPage.navigated (snd (OptionalDetailsPage.handleSubmit st w))
  = OptionalDetailsPage.navigated w ++ ["/recommendation"].
Proof.
  intros Hv. unfold OptionalDetailsPage.handleSubmit.
  destruct (validate_keeps st) as [Hf Hp].
  destruct (OptionalDetailsPage.validateReportPreference st) as [valid st'].
  cbn [fst snd] in *. subst valid. cbn [negb snd].
  unfold OptionalDetailsPage.persistReportPreference, OptionalDetailsPage.navigate,
    preference_value.
  cbn [OptionalDetailsPage.localStorage OptionalDetailsPage.navigated].
  rewrite Hf, Hp. split; reflexivity.
Qed.

Lemma handleSkip_valid (st : OptionalDetailsPage.state) (w : OptionalDetailsPage.world) :
  fst (OptionalDetailsPage.validateReportPreference st) = true →
  OptionalDetailsPage.localStorage (snd (OptionalDetailsPage.handleSkip st w))
  = setItem_JSON "reportPreference"
      (preference_value (OptionalDetailsPage.reportPreference st))
      (OptionalDetailsPage.localStorage w) ∧
  OptionalDetailsPage.navigated (snd (OptionalDetailsPage.handleSkip st w))
  = OptionalDetailsPage.navigated w ++ ["/recommendation"].
Proof.
  intros Hv. unfold OptionalDetailsPage.handleSkip.
  destruct (validate_keeps st) as [Hf Hp].
  destruct (OptionalDetailsPage.validateReportPreference st) as [valid st'].
  cbn [fst snd] in *. subst valid. cbn [negb snd].
  unfold OptionalDetailsPage.persistReportPreference, OptionalDetailsPage.navigate,
    preference_value.
  cbn [OptionalDetailsPage.localStorage OptionalDetailsPage.navigated].
  rewrite Hp. split; reflexivity.
Qed.

Lemma preference_text (t : ReportType) (s : string) :
  ∃ text : string,
    JSON_stringify (preference_value {| reportType := t; investmentType := JStr s |})
      = Some text ∧
    String.eqb text "" = false ∧
    JSON_parse text
      = Some (preference_value {| reportType := t; investmentType := JStr s |}).
Proof.
  apply (JSON_roundtrip_strings
           [("reportType", ReportType_string t); ("investmentType", s)]).
  - apply (bool_decide_unpack _). vm_compute. reflexivity.
  - repeat constructor.
Qed.

Lemma loaded_from_preference_text (storage : gmap string string) (p : ReportPreference)
    (s : string) :
  investmentType p = JStr s →
  loadedPreference_spec
    (stored_item (setItem_JSON "reportPreference" (preference_value p) storage)
       "reportPreference") = p.
Proof.
  intros Hs. destruct p as [t it]. cbn [investmentType] in Hs. subst it.
  destruct (preference_text t s) as (text & Htext & Hne & Hparse).
  unfold setItem_JSON, stored_item. rewrite lookup_insert_eq, Htext.
  change (default "undefined" (Some text)) with text. rewrite Hne.
  unfold loadedPreference_spec. rewrite Hparse.
  cbn [preference_value is_nullish reportType investmentType].
  unfold getv. cbn [own_property]. cbn.
  assert (Hor : or_else (JStr s) (JStr "") = JStr s).
  { unfold or_else. cbn [ToBoolean]. destruct (String.eqb s "") eqn:E; [|reflexivity].
    apply String.eqb_eq in E. by subst. }
  rewrite Hor. destruct t; reflexivity.
Qed.

(** ** The preference, from one page to the other *)

Lemma preference_survives_storage_lemma (st : OptionalDetailsPage.state)
    (w : OptionalDetailsPage.world) (s : string) :
  investmentType (OptionalDetailsPage.reportPreference st) = JStr s →
  fst (OptionalDetailsPage.validateReportPreference st) = true →
  reportPreference
    (loadPreference
       (OptionalDetailsPage.localStorage (snd (OptionalDetailsPage.handleSubmit st w)))
       initial)
    = OptionalDetailsPage.reportPreference st ∧
  reportPreference
    (loadPreference
       (OptionalDetailsPage.localStorage (snd (OptionalDetailsPage.handleSkip st w)))
       initial)
    = OptionalDetailsPage.reportPreference st ∧
  OptionalDetailsPage.reportPreference
    (OptionalDetailsPage.loadPreference
       (OptionalDetailsPage.localStorage (snd (OptionalDetailsPage.handleSubmit st w)))
       OptionalDetailsPage.initial)
    = OptionalDetailsPage.reportPreference st.
Proof.
  intros Hs Hv.
  rewrite (proj1 (handleSubmit_valid st w Hv)), (proj1 (handleSkip_valid st w Hv)).
  rewrite !loadPreference_recommendation, loadPreference_optional.
  rewrite !(loaded_from_preference_text _ _ s Hs). repeat split.
Qed.

(** X10.  What the optional-details page persists is what is loaded back:
    after a submit or a skip that passes validation, with the category a
    string as the select supplies it, the recommendation page loads exactly
    the preference that was chosen, and so does the optional-details page
    when it is opened again. *)
Theorem preference_survives_storage (st : OptionalDetailsPage.state)
    (w : OptionalDetailsPage.world) (s : string) :
  investmentType (OptionalDetailsPage.reportPreference st) = JStr s →
  fst (OptionalDetailsPage.validateReportPreference st) = true →
  let submitted := OptionalDetailsPage.localStorage (snd (OptionalDetailsPage.handleSubmit st w)) in
  let skipped := OptionalDetailsPage.localStorage (snd (OptionalDetailsPage.handleSkip st w)) in
  reportPreference (loadPreference submitted initial)
    = OptionalDetailsPage.reportPreference st ∧
  reportPreference (loadPreference skipped initial)
    = OptionalDetailsPage.reportPreference st ∧
  OptionalDetailsPage.reportPreference
    (OptionalDetailsPage.loadPreference submitted OptionalDetailsPage.initial)
    = OptionalDetailsPage.reportPreference st.
Proof.
  intros Hs Hv submitted skipped. subst submitted skipped.
  by apply (preference_survives_storage_lemma st w s).
Qed.

Lemma preference_survives_storage_witness :
  let st := OptionalDetailsPage.handleReportPreferenceChange
              OptionalDetailsPage.key_investmentType "sip"
              (OptionalDetailsPage.handleReportPreferenceChange
                 OptionalDetailsPage.key_reportType "single" OptionalDetailsPage.initial) in
  let w := {| OptionalDetailsPage.localStorage := ∅; OptionalDetailsPage.navigated := [] |} in
  reportPreference
    (loadPreference
       (OptionalDetailsPage.localStorage (snd (OptionalDetailsPage.handleSubmit st w)))
       initial)
  = {| reportType := single; investmentType := JStr "sip" |}.
Proof.
  intros st w.
  exact (proj1 (preference_survives_storage st w "sip" eq_refl eq_refl)).
Defined.

(** ** The profile the recommendation page assembles *)

Lemma own_property_replace (acc : list (string * jsval)) (k k' : string) (v : jsval) :
  has_own acc k = true →
  own_property (obj_replace acc k v) k'
  = if String.eqb k k' then Some v else own_property acc k'.
Proof.
  unfold has_own. induction acc as [|[k0 v0] r IH]; [discriminate|].
  cbn [own_property obj_replace]. destruct (String.eqb k0 k) eqn:E.
  - intros _. apply String.eqb_eq in E. subst k0. cbn [own_property].
    destruct (String.eqb k k'); reflexivity.
  - intros H. cbn [own_property]. rewrite IH by done.
    destruct (String.eqb k0 k') eqn:E'; [|reflexivity].
    apply String.eqb_eq in E'. subst k0.
    destruct (String.eqb k k') eqn:E''; [|reflexivity].
    apply String.eqb_eq in E''. subst k. rewrite String.eqb_refl in E. discriminate.
Qed.

Lemma own_property_insert (acc : list (string * jsval)) (k k' : string) (v : jsval) :
  own_property acc k = None →
  own_property (obj_insert acc k v) k'
  = if String.eqb k k' then Some v else own_property acc k'.
Proof.
  induction acc as [|[k0 v0] r IH]; [reflexivity|].
  cbn [own_property obj_insert]. destruct (String.eqb k0 k) eqn:E; [discriminate|].
  intros Hn. destruct (enumerates_before k k0); cbn [own_property].
  - reflexivity.
  - rewrite IH by done. destruct (String.eqb k0 k') eqn:E'; [|reflexivity].
    apply String.eqb_eq in E'. subst k0.
    destruct (String.eqb k k') eqn:E''; [|reflexivity].
    apply String.eqb_eq in E''. subst k. rewrite String.eqb_refl in E. discriminate.
Qed.

(** Defining a property, then looking one up. *)
Lemma own_property_define (acc : list (string * jsval)) (k k' : string) (v : jsval) :
  own_property (obj_define acc k v) k'
  = if String.eqb k k' then Some v else own_property acc k'.
Proof.
  unfold obj_define. destruct (has_own acc k) eqn:E.
  - by apply own_property_replace.
  - apply own_property_insert. unfold has_own in E.
    destruct (own_property acc k); [discriminate|reflexivity].
Qed.

Lemma own_property_defines (ps acc : list (string * jsval)) (k : string) :
  own_property (fold_left (λ a p, obj_define a (fst p) (snd p)) ps acc) k
  = match own_property (rev ps) k with
    | Some v => Some v
    | None => own_property acc k
    end.
Proof.
  revert acc. induction ps as [|[k0 v0] r IH]; intros acc; [reflexivity|].
  cbn [fold_left fst snd rev]. rewrite IH, own_property_app, own_property_define.
  cbn [own_property]. destruct (own_property (rev r) k); [reflexivity|].
  destruct (String.eqb k0 k); reflexivity.
Qed.

Lemma own_property_None (ps : list (string * jsval)) (k : string) :
  own_property ps k = None ↔ k ∉ map fst ps.
Proof.
  split; [|apply own_property_absent].
  induction ps as [|[k0 v0] r IH]; [intros _; apply not_elem_of_nil|].
  cbn [own_property map fst]. destruct (String.eqb k0 k) eqn:E; [discriminate|].
  intros H. apply not_elem_of_cons. split; [|by apply IH].
  intros ->. rewrite String.eqb_refl in E. discriminate.
Qed.

Lemma own_property_rev_None (ps : list (string * jsval)) (k : string) :
  own_property ps k = None → own_property (rev ps) k = None.
Proof.
  rewrite !own_property_None. intros H Hin. apply H.
  apply list_elem_of_In. apply list_elem_of_In in Hin.
  apply in_map_iff in Hin as (p & Hp & Hin). apply in_map_iff.
  exists p. split; [done|]. by apply in_rev.
Qed.

Lemma own_property_rev_NoDup (ps : list (string * jsval)) (k : string) :
  NoDup (map fst ps) → own_property (rev ps) k = own_property ps k.
Proof.
  induction ps as [|[k0 v0] r IH]; [reflexivity|].
  cbn [map fst rev own_property]. intros Hnd. apply NoDup_cons in Hnd as [Hk0 Hnd].
  rewrite own_property_app, IH by done. cbn [own_property].
  destruct (String.eqb k0 k) eqn:E; [|by destruct (own_property r k)].
  apply String.eqb_eq in E. subst k0.
  by rewrite (own_property_absent _ _ Hk0).
Qed.

(** The profile after spreading an optional form over mandatory details. *)
Lemma spread_form_lookup (m : list (string * jsval)) (f : OptionalDetailsPage.FormData)
    (k : string) :
  own_property (spread (spread [] (JObj m)) (OptionalDetailsPage.formData_value f)) k
  = match own_property (strings_object (formFields f)) k with
    | Some v => Some v
    | None => own_property (rev m) k
    end.
Proof.
  unfold spread. cbn [own_enumerable Object_entries OptionalDetailsPage.formData_value].
  rewrite !own_property_defines. cbn [own_property].
  destruct (own_property (rev m) k);
    cbn [rev app own_property formFields strings_object map fst snd];
    repeat match goal with
           | |- context [String.eqb ?a k] => destruct (String.eqb a k) eqn:?
           end; try reflexivity;
    repeat match goal with
           | H : String.eqb _ k = true |- _ => apply String.eqb_eq in H; subst k
           end; discriminate.
Qed.

Lemma JSON_parse_empty_text (text : string) (v : jsval) :
  JSON_parse text = Some v → String.eqb text "" = false.
Proof.
  intros H. destruct (String.eqb text "") eqn:E; [|reflexivity].
  apply String.eqb_eq in E. subst. discriminate H.
Qed.

Lemma form_text (f : OptionalDetailsPage.FormData) :
  ∃ text : string,
    JSON_stringify (OptionalDetailsPage.formData_value f) = Some text ∧
    String.eqb text "" = false ∧
    JSON_parse text = Some (OptionalDetailsPage.formData_value f).
Proof.
  apply (JSON_roundtrip_strings (formFields f)).
  - apply (bool_decide_unpack _). vm_compute. reflexivity.
  - repeat constructor.
Qed.

Lemma loadUserDetails_after_submit (st : OptionalDetailsPage.state)
    (w : OptionalDetailsPage.world) (text : string) (m : list (string * jsval)) :
  fst (OptionalDetailsPage.validateReportPreference st) = true →
  OptionalDetailsPage.localStorage w !! "mandatoryDetails" = Some text →
  JSON_parse text = Some (JObj m) →
  loadUserDetails
    (OptionalDetailsPage.localStorage (snd (OptionalDetailsPage.handleSubmit st w))) initial
  = Ok (setUserDetails (profile_of m (OptionalDetailsPage.formData st)) initial, None).
Proof.
  intros Hv Hm Hparse. rewrite (proj1 (handleSubmit_valid st w Hv)).
  destruct (form_text (OptionalDetailsPage.formData st)) as (ftext & Hf & Hfne & Hfparse).
  unfold loadUserDetails, stored_item, setItem_JSON.
  rewrite lookup_insert_ne by discriminate. rewrite lookup_insert_ne by discriminate.
  rewrite Hm, (JSON_parse_empty_text _ _ Hparse).
  rewrite lookup_insert_ne by discriminate. rewrite lookup_insert_eq, Hf.
  change (default "undefined" (Some ftext)) with ftext. rewrite Hfne.
  unfold JSON_parse_or_throw. rewrite Hparse, Hfparse. reflexivity.
Qed.

Lemma form_lookup_other (f : OptionalDetailsPage.FormData) (k : string) :
  k ∉ formKeys → own_property (strings_object (formFields f)) k = None.
Proof. intros H. by apply own_property_absent. Qed.

(** X11.  The optional form wins over the mandatory details.  After a
    valid submit, the profile the recommendation page assembles has every
    field of the form, blank ones included, under the form's key, whatever
    the mandatory details say under that key; every other key has the
    value the mandatory details give it, and a key found in neither is not
    in the profile. *)
Theorem profile_after_submit (st : OptionalDetailsPage.state)
    (w : OptionalDetailsPage.world) (text : string) (m : list (string * jsval)) :
  fst (OptionalDetailsPage.validateReportPreference st) = true →
  OptionalDetailsPage.localStorage w !! "mandatoryDetails" = Some text →
  JSON_parse text = Some (JObj m) →
  ∃ details : list (string * jsval),
    loadUserDetails
      (OptionalDetailsPage.localStorage (snd (OptionalDetailsPage.handleSubmit st w)))
      initial
    = Ok (setUserDetails (JObj details) initial, None) ∧
    (∀ k v, (k, v) ∈ formFields (OptionalDetailsPage.formData st) →
            own_property details k = Some (JStr v)) ∧
    (∀ k, k ∉ formKeys → NoDup (map fst m) →
          own_property details k = own_property m k) ∧
    (∀ k, k ∉ formKeys → own_property m k = None → own_property details k = None).
Proof.
  intros Hv Hm Hparse. eexists. split.
  { by apply (loadUserDetails_after_submit st w text m). }
  split; [|split].
  - intros k v Hin. rewrite spread_form_lookup.
    unfold formFields in Hin.
    repeat (apply elem_of_cons in Hin as [[= -> ->]|Hin]; [reflexivity|]).
    by apply elem_of_nil in Hin.
  - intros k Hk Hnd. rewrite spread_form_lookup, form_lookup_other by done.
    by apply own_property_rev_NoDup.
  - intros k Hk Hnone. rewrite spread_form_lookup, form_lookup_other by done.
    by apply own_property_rev_None.
Qed.

Lemma profile_after_submit_witness :
  let st := OptionalDetailsPage.handleInputChange OptionalDetailsPage.field_savings "9000"
              OptionalDetailsPage.initial in
  let w := {| OptionalDetailsPage.localStorage :=
                {[ "mandatoryDetails" :=
                     "{" +:+ quoted "age" +:+ ":30," +:+ quoted "savings" +:+ ":1}" ]};
              OptionalDetailsPage.navigated := [] |} in
  ∃ details : list (string * jsval),
    loadUserDetails
      (OptionalDetailsPage.localStorage (snd (OptionalDetailsPage.handleSubmit st w)))
      initial
    = Ok (setUserDetails (JObj details) initial, None) ∧
    own_property details "savings" = Some (JStr "9000") ∧
    own_property details "age" = Some (JNum (Fin false 3 1)).
Proof.
  intros st w.
  destruct (profile_after_submit st w
              ("{" +:+ quoted "age" +:+ ":30," +:+ quoted "savings" +:+ ":1}")
              [("age", JNum (Fin false 3 1)); ("savings", JNum (Fin false 1 0))]
              eq_refl ltac:(vm_compute; reflexivity) ltac:(vm_compute; reflexivity))
    as (details & Hload & Hform & Hother & _).
  exists details. split; [exact Hload|]. split.
  - apply Hform. unfold formFields. apply elem_of_cons. right. apply elem_of_cons. by left.
  - rewrite Hother; [reflexivity| |].
    + apply (bool_decide_unpack _). vm_compute. reflexivity.
    + apply (bool_decide_unpack _). vm_compute. reflexivity.
Defined.

Lemma parseOptionalNumber_sent (s : string) (v : jsval) :
  parseOptionalNumber (JStr s) = Ok v → JSON_serialize v = optionalNumber_sent s.
Proof.
  rewrite parseOptionalNumber_string. unfold optionalNumber_sent.
  destruct (String.eqb s ""); [by intros [= <-]|].
  destruct (StringToNumber s); intros [= <-]; reflexivity.
Qed.

(** X12.  What the request takes from the optional form, after a valid
    submit.  The time horizon and the financial goal are sent as typed,
    as empty strings when left blank; income, savings and expenses are
    sent as numbers, left out when blank or not numeric.  The experience
    chosen in the form is stored as [investmentExperience], which the
    request does not read: [experience_level] is left out unless the
    mandatory details carry [experienceLevel] or [experience_level]. *)
Theorem form_fields_in_request (st : OptionalDetailsPage.state)
    (w : OptionalDetailsPage.world) (text : string) (m : list (string * jsval))
    (preference : ReportPreference) (payload : jsval) :
  fst (OptionalDetailsPage.validateReportPreference st) = true →
  OptionalDetailsPage.localStorage w !! "mandatoryDetails" = Some text →
  JSON_parse text = Some (JObj m) →
  let form := OptionalDetailsPage.formData st in
  let profile := profile_of m form in
  buildPayload profile preference = Ok payload →
  loadUserDetails
    (OptionalDetailsPage.localStorage (snd (OptionalDetailsPage.handleSubmit st w))) initial
    = Ok (setUserDetails profile initial, None) ∧
  request_field payload "time_horizon"
    = Some (JStr (OptionalDetailsPage.timeHorizon form)) ∧
  request_field payload "financial_goals"
    = Some (JStr (OptionalDetailsPage.financialGoals form)) ∧
  request_field payload "monthly_income"
    = optionalNumber_sent (OptionalDetailsPage.monthlyIncome form) ∧
  request_field payload "savings"
    = optionalNumber_sent (OptionalDetailsPage.savings form) ∧
  request_field payload "monthly_expenses"
    = optionalNumber_sent (OptionalDetailsPage.monthlyExpenses form) ∧
  (own_property m "experienceLevel" = None → own_property m "experience_level" = None →
   request_field payload "experience_level" = None).
Proof.
  intros Hv Hm Hparse form profile Hp.
  split; [by apply (loadUserDetails_after_submit st w text m)|].
  assert (Hget : ∀ k v, (k, v) ∈ formFields form → getv profile k = JStr v).
  { intros k v Hin. unfold profile, profile_of, getv. rewrite spread_form_lookup.
    unfold formFields in Hin.
    repeat (apply elem_of_cons in Hin as [[= -> ->]|Hin]; [reflexivity|]).
    by apply elem_of_nil in Hin. }
  assert (Hin : ∀ i k v, formFields form !! i = Some (k, v) → getv profile k = JStr v).
  { intros i k v Hi. apply Hget. by eapply list_elem_of_lookup_2. }
  pose proof (Hin 0 _ _ eq_refl) as Hincome0.
  pose proof (Hin 1 _ _ eq_refl) as Hsavings0.
  pose proof (Hin 2 _ _ eq_refl) as Hhorizon.
  pose proof (Hin 4 _ _ eq_refl) as Hgoals.
  pose proof (Hin 5 _ _ eq_refl) as Hexpenses0.
  cbn [formFields] in *.
  repeat split.
  - pose proof Hp as H. payload_field H. rewrite Hhorizon. reflexivity.
  - pose proof Hp as H. payload_field H. rewrite Hgoals. reflexivity.
  - pose proof Hp as H. payload_field H. rewrite Hincome0 in Hincome.
    by eapply parseOptionalNumber_sent.
  - pose proof Hp as H. payload_field H. rewrite Hsavings0 in Hsavings.
    by eapply parseOptionalNumber_sent.
  - pose proof Hp as H. payload_field H. rewrite Hexpenses0 in Hexpenses.
    by eapply parseOptionalNumber_sent.
  - intros H1 H2. pose proof Hp as H. payload_field H.
    assert (Hnone : ∀ k, k ∉ formKeys → own_property m k = None →
                         Object_prototype k = None → getv profile k = JUndefined).
    { intros k Hk Hmk Hproto. unfold profile, profile_of, getv.
      rewrite spread_form_lookup, form_lookup_other by done.
      rewrite (own_property_rev_None _ _ Hmk), Hproto. reflexivity. }
    rewrite (Hnone "experienceLevel"), (Hnone "experience_level");
      try done; try reflexivity; apply (bool_decide_unpack _); vm_compute; reflexivity.
Qed.

Lemma form_fields_in_request_witness :
  let st := OptionalDetailsPage.handleInputChange
              OptionalDetailsPage.field_investmentExperience "Advanced"
              (OptionalDetailsPage.handleInputChange OptionalDetailsPage.field_savings "9000"
                 OptionalDetailsPage.initial) in
  let profile :=
    profile_of [("age", JNum (Fin false 3 1))] (OptionalDetailsPage.formData st) in
  sentField profile defaultPreference "experience_level" = None ∧
  sentField profile defaultPreference "time_horizon" = Some (JStr "") ∧
  sentField profile defaultPreference "savings" = Some (JNum (Fin false 9 3)) ∧
  sentField profile defaultPreference "monthly_income" = None.
Proof.
  intros st profile.
  destruct (buildPayload profile defaultPreference) as [payload|] eqn:Hp;
    [|vm_compute in Hp; discriminate Hp].
  unfold sentField. rewrite Hp.
  pose (w := {| OptionalDetailsPage.localStorage :=
                  {[ "mandatoryDetails" := "{" +:+ quoted "age" +:+ ":30}" ]};
                OptionalDetailsPage.navigated := [] |}).
  destruct (form_fields_in_request st w
              ("{" +:+ quoted "age" +:+ ":30}") [("age", JNum (Fin false 3 1))]
              defaultPreference payload
              eq_refl ltac:(vm_compute; reflexivity) ltac:(vm_compute; reflexivity) Hp)
    as (_ & Hh & _ & Hi & Hs & _ & He).
  split; [by apply He|]. split; [exact Hh|]. split; [|exact Hi].
  rewrite Hs. vm_compute. reflexivity.
Defined.

(** ** Mounting the recommendation page *)

Lemma loadPreference_userDetails (storage : gmap string string) (st : state) :
  userDetails (loadPreference storage st) = userDetails st ∧
  preferenceLoaded (loadPreference storage st) = true.
Proof.
  unfold loadPreference.
  destruct (stored_item storage "reportPreference") as [text|]; [|split; reflexivity].
  destruct (readPreference text); split; reflexivity.
Qed.

(** X13.  Without a stored profile the page sends no request: when
    [mandatoryDetails] is absent or empty, mounting the page only loads the
    preference and redirects to the details page.  A stored profile that is
    not parseable JSON is not recovered from, unlike a stored preference:
    the effect throws. *)
Theorem mount_without_profile (network : request → fetch_outcome) (apiBaseUrl : string)
    (storage : gmap string string) :
  (stored_item storage "mandatoryDetails" = None →
   mount network apiBaseUrl storage
   = Ok (loadPreference storage initial, Some "/details", None)) ∧
  (∀ text : string,
     storage !! "mandatoryDetails" = Some text → text ≠ "" → JSON_parse text = None →
     returns (mount network apiBaseUrl storage) = false).
Proof.
  split.
  - intros Hnone. unfold mount, loadUserDetails. rewrite Hnone.
    cbn [mbind result_bind fst snd]. unfold fetchEffect.
    destruct (loadPreference_userDetails storage initial) as [Hu _]. rewrite Hu.
    reflexivity.
  - intros text Hm Hne Hbad. unfold mount, loadUserDetails, stored_item. rewrite Hm.
    apply String.eqb_neq in Hne. rewrite Hne.
    unfold JSON_parse_or_throw. rewrite Hbad. reflexivity.
Qed.

Lemma mount_without_profile_witness :
  mount (λ _, Resolved true "{}") "http://localhost:8000" ∅
    = Ok (loadPreference ∅ initial, Some "/details", None) ∧
  returns (mount (λ _, Resolved true "{}") "http://localhost:8000"
             {[ "mandatoryDetails" := "{age: 30}" ]}) = false.
Proof.
  split.
  - apply (proj1 (mount_without_profile _ _ ∅)). reflexivity.
  - apply (proj2 (mount_without_profile _ _ {[ "mandatoryDetails" := "{age: 30}" ]})
             "{age: 30}"); [reflexivity | discriminate | vm_compute; reflexivity].
Defined.



(** ** Logging out *)

(** X15.  Logging out removes the login flag, the phone number and the
    stored profile, mandatory and optional, and nothing else: every other
    key is left as it was, the stored report preference among them.  After
    a logout the recommendation page sends no request and redirects to the
    details page, and the preference of the session that ended is still
    the one it loads. *)
Theorem logout_keeps_preference (network : request → fetch_outcome) (apiBaseUrl : string)
    (storage : gmap string string) :
  let after := fst (Navbar.handleLogout storage) in
  snd (Navbar.handleLogout storage) = "/" ∧
  after !! "isAuthenticated" = None ∧ after !! "userPhone" = None ∧
  after !! "mandatoryDetails" = None ∧ after !! "optionalDetails" = None ∧
  (∀ k : string,
     k ∉ ["isAuthenticated"; "userPhone"; "mandatoryDetails"; "optionalDetails"] →
     after !! k = storage !! k) ∧
  after !! "reportPreference" = storage !! "reportPreference" ∧
  reportPreference (loadPreference after initial)
    = reportPreference (loadPreference storage initial) ∧
  mount network apiBaseUrl after = Ok (loadPreference after initial, Some "/details", None).
Proof.
  intros after. subst after. unfold Navbar.handleLogout. cbn [fst snd].
  assert (Hpref : delete "optionalDetails"
                    (delete "mandatoryDetails"
                       (delete "userPhone" (delete "isAuthenticated" storage)))
                  !! "reportPreference" = storage !! "reportPreference").
  { by rewrite !lookup_delete_ne by discriminate. }
  assert (Hm : delete "optionalDetails"
                 (delete "mandatoryDetails"
                    (delete "userPhone" (delete "isAuthenticated" storage)))
               !! "mandatoryDetails" = None).
  { rewrite lookup_delete_ne by discriminate. apply lookup_delete_eq. }
  split; [reflexivity|].
  split; [by rewrite !lookup_delete_ne by discriminate; apply lookup_delete_eq|].
  split; [by rewrite !lookup_delete_ne by discriminate; apply lookup_delete_eq|].
  split; [exact Hm|]. split; [apply lookup_delete_eq|].
  split.
  { intros k Hk. rewrite !not_elem_of_cons in Hk.
    destruct Hk as (H1 & H2 & H3 & H4 & _).
    by rewrite !lookup_delete_ne by done. }
  split; [exact Hpref|]. split.
  - rewrite !loadPreference_recommendation. unfold stored_item. by rewrite Hpref.
  - unfold mount, loadUserDetails, stored_item. rewrite Hm.
    cbn [mbind result_bind fst snd]. unfold fetchEffect.
    rewrite (proj1 (loadPreference_userDetails _ _)). reflexivity.
Qed.

(** ** Correcting a rejected preference *)

(** X16.  A rejected submit can be corrected in either way.  After
    validation has rejected a single report without a category, choosing a
    category, or switching back to the full report, clears the message; the
    next submit passes, navigates to the recommendation page, and the
    preference loaded there is the corrected one. *)
Theorem rejected_preference_can_be_corrected (st : OptionalDetailsPage.state)
    (w : OptionalDetailsPage.world) (category : string) :
  OptionalDetailsPage.reportPreference st
    = {| reportType := single; investmentType := JStr "" |} →
  category ≠ "" →
  let rejected := fst (OptionalDetailsPage.handleSubmit st w) in
  let chosen :=
    OptionalDetailsPage.handleReportPreferenceChange
      OptionalDetailsPage.key_investmentType category rejected in
  let reverted :=
    OptionalDetailsPage.handleReportPreferenceChange
      OptionalDetailsPage.key_reportType "full" rejected in
  snd (OptionalDetailsPage.handleSubmit st w) = w ∧
  OptionalDetailsPage.reportError rejected = OptionalDetailsPage.category_required ∧
  OptionalDetailsPage.reportError chosen = "" ∧
  OptionalDetailsPage.reportError reverted = "" ∧
  OptionalDetailsPage.navigated (snd (OptionalDetailsPage.handleSubmit chosen w))
    = OptionalDetailsPage.navigated w ++ ["/recommendation"] ∧
  OptionalDetailsPage.navigated (snd (OptionalDetailsPage.handleSubmit reverted w))
    = OptionalDetailsPage.navigated w ++ ["/recommendation"] ∧
  reportPreference
    (loadPreference
       (OptionalDetailsPage.localStorage (snd (OptionalDetailsPage.handleSubmit chosen w)))
       initial)
    = {| reportType := single; investmentType := JStr category |} ∧
  reportPreference
    (loadPreference
       (OptionalDetailsPage.localStorage
          (snd (OptionalDetailsPage.handleSubmit reverted w)))
       initial)
    = defaultPreference.
Proof.
  intros Hp Hne rejected chosen reverted.
  assert (Hsub : OptionalDetailsPage.handleSubmit st w
                 = (OptionalDetailsPage.setReportError
                      OptionalDetailsPage.category_required st, w)).
  { unfold OptionalDetailsPage.handleSubmit, OptionalDetailsPage.validateReportPreference.
    rewrite Hp. reflexivity. }
  assert (Hrej : rejected
                 = OptionalDetailsPage.setReportError OptionalDetailsPage.category_required st)
    by (unfold rejected; by rewrite Hsub).
  assert (Hchosen : OptionalDetailsPage.reportPreference chosen
                    = {| reportType := single; investmentType := JStr category |}).
  { unfold chosen. rewrite Hrej. unfold OptionalDetailsPage.handleReportPreferenceChange.
    cbn. by rewrite Hp. }
  assert (Hvalid : fst (OptionalDetailsPage.validateReportPreference chosen) = true).
  { unfold OptionalDetailsPage.validateReportPreference. rewrite Hchosen.
    cbn [reportType investmentType ToBoolean].
    apply String.eqb_neq in Hne. rewrite Hne. reflexivity. }
  assert (Hreverted : OptionalDetailsPage.reportPreference reverted = defaultPreference).
  { unfold reverted. rewrite Hrej. unfold OptionalDetailsPage.handleReportPreferenceChange.
    cbn. by rewrite Hp. }
  assert (Hvalid' : fst (OptionalDetailsPage.validateReportPreference reverted) = true).
  { unfold OptionalDetailsPage.validateReportPreference. rewrite Hreverted. reflexivity. }
  split; [by rewrite Hsub|]. split; [by rewrite Hrej|].
  split; [by unfold chosen; rewrite Hrej|].
  split; [by unfold reverted; rewrite Hrej|].
  split; [exact (proj2 (handleSubmit_valid chosen w Hvalid))|].
  split; [exact (proj2 (handleSubmit_valid reverted w Hvalid'))|].
  split.
  - rewrite <- Hchosen.
    apply (preference_survives_storage_lemma chosen w category); [by rewrite Hchosen|done].
  - rewrite <- Hreverted.
    apply (preference_survives_storage_lemma reverted w ""); [by rewrite Hreverted|done].
Qed.

Lemma rejected_preference_witness :
  let st := OptionalDetailsPage.handleReportPreferenceChange
              OptionalDetailsPage.key_reportType "single" OptionalDetailsPage.initial in
  let w := {| OptionalDetailsPage.localStorage := ∅; OptionalDetailsPage.navigated := [] |} in
  reportPreference
    (loadPreference
       (OptionalDetailsPage.localStorage
          (snd (OptionalDetailsPage.handleSubmit
                  (OptionalDetailsPage.handleReportPreferenceChange
                     OptionalDetailsPage.key_investmentType "bonds"
                     (fst (OptionalDetailsPage.handleSubmit st w))) w)))
       initial)
  = {| reportType := single; investmentType := JStr "bonds" |}.
Proof.
  intros st w.
  destruct (rejected_preference_can_be_corrected st w "bonds" eq_refl ltac:(discriminate))
    as (_ & _ & _ & _ & _ & _ & H & _).
  exact H.
Defined.

(** ** Skipping the optional form *)

(** X17.  Skip stores the same preference as submit and navigates like it,
    but it does not touch [optionalDetails]: answers stored by an earlier
    submit stay in storage and are still spread into the profile the
    recommendation page assembles. *)
Theorem skip_keeps_stored_answers (st : OptionalDetailsPage.state)
    (w : OptionalDetailsPage.world) :
  fst (OptionalDetailsPage.validateReportPreference st) = true →
  let skipped := snd (OptionalDetailsPage.handleSkip st w) in
  let submitted := snd (OptionalDetailsPage.handleSubmit st w) in
  OptionalDetailsPage.localStorage skipped !! "reportPreference"
    = OptionalDetailsPage.localStorage submitted !! "reportPreference" ∧
  OptionalDetailsPage.navigated skipped = OptionalDetailsPage.navigated submitted ∧
  OptionalDetailsPage.localStorage skipped !! "optionalDetails"
    = OptionalDetailsPage.localStorage w !! "optionalDetails" ∧
  (∀ (earlier : OptionalDetailsPage.state) (w0 : OptionalDetailsPage.world)
     (text : string) (m : list (string * jsval)),
     fst (OptionalDetailsPage.validateReportPreference earlier) = true →
     OptionalDetailsPage.localStorage w0 !! "mandatoryDetails" = Some text →
     JSON_parse text = Some (JObj m) →
     w = snd (OptionalDetailsPage.handleSubmit earlier w0) →
     loadUserDetails (OptionalDetailsPage.localStorage skipped) initial
     = Ok (setUserDetails (profile_of m (OptionalDetailsPage.formData earlier)) initial,
           None)).
Proof.
  intros Hv skipped submitted. subst skipped submitted.
  destruct (handleSkip_valid st w Hv) as [Hsk Hskn].
  destruct (handleSubmit_valid st w Hv) as [Hsu Hsun].
  rewrite Hsk, Hsu, Hskn, Hsun. unfold setItem_JSON.
  split; [by rewrite !lookup_insert_eq|]. split; [reflexivity|].
  split; [by rewrite lookup_insert_ne by discriminate|].
  intros earlier w0 text m Hve Hm Hparse ->.
  pose proof (loadUserDetails_after_submit earlier w0 text m Hve Hm Hparse) as Hload.
  unfold loadUserDetails, stored_item in *.
  rewrite !lookup_insert_ne by discriminate. exact Hload.
Qed.

Lemma skip_keeps_stored_answers_witness :
  let st := OptionalDetailsPage.handleInputChange OptionalDetailsPage.field_savings "9000"
              OptionalDetailsPage.initial in
  let w := {| OptionalDetailsPage.localStorage := ∅; OptionalDetailsPage.navigated := [] |} in
  OptionalDetailsPage.localStorage (snd (OptionalDetailsPage.handleSkip st w))
    !! "optionalDetails" = None.
Proof.
  intros st w.
  exact (proj1 (proj2 (proj2 (skip_keeps_stored_answers st w eq_refl)))).
Defined.

(** ** The label of the single section *)

(** X18.  The single section always has a label to show: the report's own
    [label] when it has one, else the name the page keeps for its
    [category], else 'Selected Category'; whenever the label can be
    computed it is not empty. *)
Theorem singleLabel_never_empty (singleReportData : jsval) :
  (∀ l : jsval, singleLabel singleReportData = Ok l → ToBoolean l = true) ∧
  (ToBoolean (getv singleReportData "label") = true →
   singleLabel singleReportData = Ok (getv singleReportData "label")) ∧
  (∀ category name : string,
     ToBoolean (getv singleReportData "label") = false →
     getv singleReportData "category" = JStr category →
     own_property (Object_entries SINGLE_CATEGORY_LABELS) category = Some (JStr name) →
     singleLabel singleReportData = Ok (JStr name)) ∧
  (ToBoolean (getv singleReportData "label") = false →
   is_nullish (getv singleReportData "category") = true →
   singleLabel singleReportData = Ok (JStr "Selected Category")).
Proof.
  unfold singleLabel. split; [|split; [|split]].
  - intros l. destruct (ToBoolean (getv singleReportData "label")) eqn:E.
    + by intros [= <-].
    + destruct (ToString (getv singleReportData "category")); cbn [mbind result_bind];
        [|discriminate].
      intros [= <-]. by apply or_else_truthy.
  - by intros ->.
  - intros category name -> Hc Hn. rewrite Hc. cbn [ToString mbind result_bind].
    unfold SINGLE_CATEGORY_LABELS, Object_entries in Hn.
    unfold getv, SINGLE_CATEGORY_LABELS. rewrite Hn.
    unfold or_else.
    assert (Ht : ToBoolean (JStr name) = true).
    { cbn [own_property] in Hn.
      repeat match type of Hn with
             | (if ?b then _ else _) = _ => destruct b; [by injection Hn as <-|]
             end. discriminate. }
    by rewrite Ht.
  - intros -> Hc.
    destruct (getv singleReportData "category"); try discriminate; reflexivity.
Qed.

Lemma singleLabel_witness :
  singleLabel (JObj [("category", JStr "bonds")]) = Ok (JStr "Government Bonds").
Proof.
  apply (proj1 (proj2 (proj2 (singleLabel_never_empty (JObj [("category", JStr "bonds")]))))
           "bonds" "Government Bonds"); reflexivity.
Defined.

(** X19.  The mode line under the page title and the heading of the single
    section always name the category alike, although the mode line looks
    an absent category up as [''] and the heading as ['undefined']:
    neither is a key of the table, nor is any other falsy category. *)
Theorem modeLineLabel_agrees (singleReportData : jsval) :
  modeLineLabel singleReportData = singleLabel singleReportData.
Proof.
  unfold modeLineLabel, singleLabel.
  destruct (ToBoolean (getv singleReportData "label")); [reflexivity|].
  destruct (getv singleReportData "category") as [| |b|n|s|l|ps|f]; try reflexivity.
  - destruct b; reflexivity.
  - destruct n as [|neg|neg m e]; try reflexivity.
    unfold or_else. cbn [ToBoolean]. destruct m; reflexivity.
  - unfold or_else. cbn [ToBoolean]. destruct s; reflexivity.
Qed.
